(** * The ActivePython install script ([_install.py]): model and properties

    A shallow embedding of the installer: the Python builtins it relies
    on (strings, insertion-ordered dictionaries, [os.path]), the effects
    it has (filesystem queries and mutations, standard input and output,
    logging, subprocesses, exceptions) and its routines, followed by the
    properties of the OpenSSL directory ranker, of the target validation,
    of [main]'s exit status and of [_list_dedupe]. *)

From Stdlib Require Import String Ascii List ZArith Lia Bool.
Import ListNotations.
Open Scope string_scope.
Open Scope Z_scope.

Set Implicit Arguments.

(** ** Python strings and bytes *)

Module PyStr.

Definition slash : ascii := "/"%char.
Definition dquote : ascii := Ascii.ascii_of_nat 34.
Definition squote : ascii := "'"%char.
Definition backslash : ascii := "\"%char.
Definition nl : string := String (Ascii.ascii_of_nat 10) EmptyString.

(** [s.startswith(c)] and [s.endswith(c)] for a one-character [c]. *)
Definition startswith (c : ascii) (s : string) : bool :=
  match s with
  | String a _ => Ascii.eqb a c
  | EmptyString => false
  end.

Fixpoint endswith (c : ascii) (s : string) : bool :=
  match s with
  | EmptyString => false
  | String a EmptyString => Ascii.eqb a c
  | String _ rest => endswith c rest
  end.

(** [c in s] for a one-character [c]. *)
Fixpoint contains (c : ascii) (s : string) : bool :=
  match s with
  | EmptyString => false
  | String a rest => Ascii.eqb a c || contains c rest
  end.

(** [s.split(sep)] for a one-character separator: always at least one
    field. *)
Fixpoint split (sep : ascii) (s : string) : list string :=
  match s with
  | EmptyString => [EmptyString]
  | String a rest =>
      if Ascii.eqb a sep then EmptyString :: split sep rest
      else match split sep rest with
           | f :: fs => String a f :: fs
           | [] => [String a EmptyString]
           end
  end.

(** [sep.join(l)]. *)
Fixpoint join (sep : string) (l : list string) : string :=
  match l with
  | [] => ""
  | [x] => x
  | x :: rest => x ++ sep ++ join sep rest
  end.

(** [s.lower()] on ASCII text. *)
Definition lower_char (a : ascii) : ascii :=
  let n := Ascii.nat_of_ascii a in
  if andb (Nat.leb 65 n) (Nat.leb n 90) then Ascii.ascii_of_nat (n + 32)
  else a.

Fixpoint lower (s : string) : string :=
  match s with
  | EmptyString => EmptyString
  | String a rest => String (lower_char a) (lower rest)
  end.

(** [s.strip()]: ASCII white space removed at both ends. *)
Definition is_space (a : ascii) : bool :=
  let n := Ascii.nat_of_ascii a in
  orb (Nat.eqb n 32) (andb (Nat.leb 9 n) (Nat.leb n 13)).

Fixpoint lstrip (s : string) : string :=
  match s with
  | String a rest => if is_space a then lstrip rest else s
  | EmptyString => EmptyString
  end.

(** [s.replace('\\', '\\\\')]: every backslash doubled. *)
Fixpoint double_backslashes (s : string) : string :=
  match s with
  | EmptyString => EmptyString
  | String a rest =>
      if Ascii.eqb a backslash
      then String a (String a (double_backslashes rest))
      else String a (double_backslashes rest)
  end.

Fixpoint rstrip (s : string) : string :=
  match s with
  | EmptyString => EmptyString
  | String a rest =>
      match rstrip rest with
      | EmptyString => if is_space a then EmptyString else String a EmptyString
      | r => String a r
      end
  end.

Definition strip (s : string) : string := rstrip (lstrip s).

(** [str(b)] for a [bytes] object [b] (the bytes are held in a
    [string]): the literal [b'...'], quoted with a double quote when the
    bytes hold a single quote and no double quote, with the quote and
    the backslash escaped, tab, newline and carriage return as letters
    and every other byte outside the printable range in hexadecimal. *)
Definition hex_digit (n : nat) : ascii :=
  Ascii.ascii_of_nat (if Nat.ltb n 10 then 48 + n else 87 + n).

Definition repr_byte (quote : ascii) (a : ascii) : string :=
  let n := Ascii.nat_of_ascii a in
  if orb (Ascii.eqb a quote) (Ascii.eqb a backslash)
  then String backslash (String a EmptyString)
  else if Nat.eqb n 9 then String backslash "t"
  else if Nat.eqb n 10 then String backslash "n"
  else if Nat.eqb n 13 then String backslash "r"
  else if orb (Nat.ltb n 32) (Nat.leb 127 n)
  then String backslash
         (String "x" (String (hex_digit (Nat.div n 16))
                        (String (hex_digit (Nat.modulo n 16)) EmptyString)))
  else String a EmptyString.

Fixpoint repr_bytes_body (quote : ascii) (b : string) : string :=
  match b with
  | EmptyString => EmptyString
  | String a rest => repr_byte quote a ++ repr_bytes_body quote rest
  end.

Definition str_of_bytes (b : string) : string :=
  let quote :=
    if andb (contains squote b) (negb (contains dquote b))
    then dquote else squote in
  String "b" (String quote (repr_bytes_body quote b ++ String quote EmptyString)).

End PyStr.

(** ** Python dictionaries

    A [dict] keeps its keys in the order of their first insertion, and
    assigning to a key that is present replaces the value where it is:
    an association list with unique keys. *)

Module PyDict.

Definition dict := list (string * Z).

Fixpoint get (k : string) (d : dict) : option Z :=
  match d with
  | [] => None
  | (k', v) :: rest => if String.eqb k k' then Some v else get k rest
  end.

(** [d[k] = v] *)
Fixpoint set (k : string) (v : Z) (d : dict) : dict :=
  match d with
  | [] => [(k, v)]
  | (k', v') :: rest =>
      if String.eqb k k' then (k', v) :: rest else (k', v') :: set k v rest
  end.

Definition keys (d : dict) : list string := map fst d.
Definition values (d : dict) : list Z := map snd d.
Definition items (d : dict) : list (string * Z) := d.

(** [max(l)] of a non-empty list; Python raises [ValueError] on the
    empty one. *)
Definition max_of (l : list Z) : option Z :=
  match l with
  | [] => None
  | x :: rest => Some (fold_left Z.max rest x)
  end.

End PyDict.

Import PyDict.

(** ** The world of the script: filesystem, exceptions, effects *)

(** What a path resolves to once symbolic links are followed. *)
Inductive node : Type := Dir | File | Special.

Definition filesystem := string -> option node.

Definition fs_exists (f : filesystem) (p : string) : bool :=
  match f p with Some _ => true | None => false end.

Definition fs_isdir (f : filesystem) (p : string) : bool :=
  match f p with Some Dir => true | _ => false end.

Definition fs_isfile (f : filesystem) (p : string) : bool :=
  match f p with Some File => true | _ => false end.

(** The exceptions that travel through the script.  [OSError] stands for
    its aliases too ([EnvironmentError], [WindowsError], [winreg.error])
    and for its subclasses ([shutil.Error], [FileNotFoundError]). *)
Inductive exn : Type :=
| Error (msg : string)
| OSError (msg : string)
| CalledProcessError
| GetoptError (msg : string)
| KeyboardInterrupt
| EOFError
| IndexError
| KeyError
| ValueError
| Win32Error (winerror : Z)
| SystemExit (code : Z).

Inductive result (A : Type) : Type :=
| Ret (a : A)
| Raise (e : exn).
Arguments Ret {A} a.
Arguments Raise {A} e.

(** Library calls that change the machine: each is one opaque step whose
    outcome the environment decides. *)
Inductive external : Type :=
| Makedirs (path : string)
| Sh2Cp (src dstdir : string)
| CopyTree (src dst : string)
| RelocatePython (install_prefix : string) (verbose useEnv : bool)
| RelocatePath (path from to : string) (verbose : bool)
| RootifyRpath (dir : string)
| WriteFile (path content : string)
| WinregDeleteKey (root key : string)
| LoadPyWin32Module (modname dirname : string)
| CheckCall (argv : list string)
| SetPyRegKeyVal (key_name : string) (value_name : option string) (value : string)
| WinregSetEnvKey (key_name key_value : string).

Inductive event : Type :=
| Stat (path : string)
| Stdout (text : string)
| StdoutList (l : list string)
| Stdin
| LogError (msg : string)
| LogWarn (msg : string)
| LogInfo (msg : string)
| LogDebug (msg : string)
| Traceback
| Chdir
| Which (name : string)
| Spawn (argv : list string)
| System (cmd : string)
| RegRead (key_name : string)
| ReadFile (path : string)
| Call (x : external).

(** The events that may change files, directories or the registry. *)
Definition mutates (e : event) : bool :=
  match e with
  | Call _ | System _ => true
  | _ => false
  end.

Inductive input_item : Type :=
| Line (text : string)
| CtrlC.

Record state : Type := mkState {
  fs : filesystem;
  stdin : list input_item;
  debug : bool
}.

(** What the script asks of its platform. *)
Record environment : Type := mkEnv {
  platform_win : bool;
  ntpath_join : string -> string -> string;
  expand_norm : string -> string;
  abspath : string -> string;
  which : string -> option string;
  version_major : string;
  version_minor : string;
  winver : string;
  script_dir : string;
  sys_executable : string;
  pywin32_ver : option string;
  getopt : list string -> result (list (string * string) * list string);
  check_output : list string -> result string;
  os_system : string -> filesystem -> Z * filesystem;
  winreg_query : string -> result string;
  read_lines : string -> filesystem -> result (list string);
  extern : external -> filesystem -> result unit * filesystem
}.

(** Computations: a state, the events in order, and a value or a raised
    exception.  The state and the events of a computation that raises are
    kept, as the effects of a Python statement are. *)
Definition M (A : Type) : Type := state -> list event * state * result A.

Definition ret {A} (a : A) : M A := fun s => ([], s, Ret a).

Definition raise {A} (e : exn) : M A := fun s => ([], s, Raise e).

Definition bind {A B} (c : M A) (k : A -> M B) : M B :=
  fun s =>
    match c s with
    | (t, s', Ret a) =>
        match k a s' with
        | (t', s'', r) => ((t ++ t')%list, s'', r)
        end
    | (t, s', Raise e) => (t, s', Raise e)
    end.

Declare Scope py_scope.
Delimit Scope py_scope with py.
Notation "x <- c ;; k" := (bind c (fun x => k))
  (at level 100, c at next level, right associativity) : py_scope.
Notation "c ;;; k" := (bind c (fun _ => k))
  (at level 100, right associativity) : py_scope.
Open Scope py_scope.

(** [try: c except ...: ...]: the clauses are tried in order on the
    exception [c] raises, and what a handler raises is not handled again. *)
Definition clauses (A : Type) : Type := exn -> option (M A).

Definition except {A} (handles : exn -> bool) (h : exn -> M A) : clauses A :=
  fun e => if handles e then Some (h e) else None.

Definition or_except {A} (c1 c2 : clauses A) : clauses A :=
  fun e => match c1 e with Some h => Some h | None => c2 e end.

Definition try_except {A} (c : M A) (cl : clauses A) : M A :=
  fun s =>
    match c s with
    | (t, s', Raise e) =>
        match cl e with
        | Some h =>
            match h s' with
            | (t', s'', r) => ((t ++ t')%list, s'', r)
            end
        | None => (t, s', Raise e)
        end
    | out => out
    end.

(** [for x in l: acc = body x acc] *)
Fixpoint for_each {A B} (l : list A) (body : A -> B -> M B) (acc : B) : M B :=
  match l with
  | [] => ret acc
  | x :: rest => acc' <- body x acc ;; for_each rest body acc'
  end.

(** [for x in l: body x] *)
Definition for_do {A} (l : list A) (body : A -> M unit) : M unit :=
  for_each l (fun x _ => body x) tt.

Definition emit (e : event) : M unit := fun s => ([e], s, Ret tt).

(** [sys.stdout.write(text)] and [print(text)], which ends the line. *)
Definition stdout_write (text : string) : M unit := emit (Stdout text).
Definition print (text : string) : M unit := emit (Stdout (text ++ PyStr.nl)).
Definition print_list (l : list string) : M unit := emit (StdoutList l).

Definition trace_of {A} (out : list event * state * result A) : list event :=
  fst (fst out).
Definition state_of {A} (out : list event * state * result A) : state :=
  snd (fst out).
Definition value_of {A} (out : list event * state * result A) : result A :=
  snd out.

Definition is_OSError (e : exn) : bool :=
  match e with OSError _ => true | _ => false end.

Definition is_CalledProcessError (e : exn) : bool :=
  match e with CalledProcessError => true | _ => false end.

Definition is_Error (e : exn) : bool :=
  match e with Error _ => true | _ => false end.

Definition is_Win32Error (e : exn) : bool :=
  match e with Win32Error _ => true | _ => false end.

Definition is_KeyboardInterrupt (e : exn) : bool :=
  match e with KeyboardInterrupt => true | _ => false end.

(** [str(ex)] *)
Definition exn_str (e : exn) : string :=
  match e with
  | Error msg | OSError msg | GetoptError msg => msg
  | _ => ""
  end.

(** Truth value of a string or [None]. *)
Definition truthy (o : option string) : bool :=
  match o with
  | Some s => negb (String.eqb s "")
  | None => false
  end.

(** [a == b] for a string [a] and a string or [None] [b]. *)
Definition str_eq (a : string) (b : option string) : bool :=
  match b with
  | Some s => String.eqb a s
  | None => false
  end.

(** ** Global data *)

Definition gDefaultInstallDir : string := "/opt/ActivePython-3.8".

Definition allow_setrunpath : bool := false.

Definition _version_ : list string := ["0"; "1"; "0"].

Definition _DEFAULT_OPENSSLDIRS : list string :=
  [ "/usr/share/ssl";
    "/etc/pki/tls";
    "/usr/lib/ssl";
    "/etc/ssl";
    "/usr/local/ssl";
    "/System/Library/OpenSSL" ].

(** ** Pure helpers *)

Section ListDedupe.

Variable A : Type.
(** Python's [==] on the elements. *)
Variable eqb : A -> A -> bool.

(** [x in l] *)
Definition py_in (x : A) (l : list A) : bool := existsb (eqb x) l.

Definition _list_dedupe (values : list A) : list A :=
  fold_left
    (fun uniques val =>
       if negb (py_in val uniques) then (uniques ++ [val])%list else uniques)
    values [].

End ListDedupe.

(** The substitution of [%SystemDrive%] is guarded by a search of that
    text in [gDefaultInstallDir], which does not hold it. *)
Definition _getDefaultInstallDir : string := gDefaultInstallDir.

Definition text_lines (l : list string) : string := PyStr.join PyStr.nl l.

Definition __doc__ : string :=
  text_lines
    [ "";
      "    ./install.sh - ActivePython install script";
      "";
      "    Usage:";
      "        ./install.sh [options...]";
      "";
      "    General Options:";
      "        -h, --help                print this help and exit";
      "        -v, --verbose             verbose output";
      "        -e  --use-env-shebang     rewrite shebang to use /usr/bin/env (ignored on Windows)";
      "        -I, --install-dir <dir>   specify install directory";
      "        -c, --no-com-registration do not register pywin32 COM objects (Windows only)";
      "        -p, --no-path-additions   do not add directories to PATH (Windows only)";
      "";
      "    When called without arguments this script will interactively install";
      "    ActivePython. If the install dir is specified then ActivePython will";
      "    be installed without interaction.";
      "" ].

Definition windows_report (absInstallDir new_path doc : string) : string :=
  text_lines
    [ "";
      "ActivePython has been successfully installed to:";
      "";
      "    " ++ absInstallDir;
      "";
      "You can add the following to your Path to ensure";
      "ActivePython is available in your environment:";
      "";
      "    Path=" ++ new_path;
      "";
      "The documentation is available here:";
      "";
      "    " ++ doc;
      "    web: http://docs.activestate.com/activepython/";
      "";
      "Please send us any feedback you might have or log bugs here:";
      "";
      "    activepython-feedback@ActiveState.com";
      "    http://bugs.activestate.com/ActivePython/";
      "";
      "Thank you for using ActivePython." ].

Definition posix_report
    (absInstallDir qtNotes opensslDir certDir certPath docDir webdoc : string)
    : string :=
  text_lines
    [ "";
      "ActivePython has been successfully installed to:";
      "";
      "    " ++ absInstallDir;
      "";
      "You can add the following to your .bashrc (or equivalent)";
      "to put ActivePython on your PATH:";
      "";
      "    export PATH=" ++ absInstallDir ++ "/bin:" ++ absInstallDir
        ++ "/Tools:" ++ absInstallDir ++ "/Tools/ninja:$PATH";
      qtNotes;
      "You may need to set the environment variables:";
      "OPENSSLDIR, SSL_CERT_DIR, and SSL_CERT_FILE so that your";
      "system can locate the default OpenSSL certificate directory.";
      "These are our expected values for your system:";
      "";
      "    " ++ opensslDir;
      "    " ++ certDir;
      "    " ++ certPath;
      "";
      "The documentation is available here:";
      "";
      "    " ++ docDir;
      "    web: " ++ webdoc;
      "";
      "Please send us any feedback you might have or log bugs here:";
      "";
      "    activepython-feedback@ActiveState.com";
      "    http://bugs.activestate.com/ActivePython/";
      "";
      "Thank you for using ActivePython.";
      "" ].

Section Script.

Variable env : environment.

(** *** [os.path] *)

Definition path_exists (p : string) : M bool :=
  fun s => ([Stat p], s, Ret (fs_exists (fs s) p)).

Definition path_isdir (p : string) : M bool :=
  fun s => ([Stat p], s, Ret (fs_isdir (fs s) p)).

Definition path_isfile (p : string) : M bool :=
  fun s => ([Stat p], s, Ret (fs_isfile (fs s) p)).

(** [posixpath.join a b] *)
Definition posix_join (a b : string) : string :=
  if PyStr.startswith PyStr.slash b then b
  else if orb (String.eqb a "") (PyStr.endswith PyStr.slash a) then a ++ b
  else a ++ "/" ++ b.

Definition path_join (a b : string) : string :=
  if platform_win env then ntpath_join env a b else posix_join a b.

(** A mutating library call. *)
Definition call (x : external) : M unit :=
  fun s =>
    match extern env x (fs s) with
    | (r, f') => ([Call x], mkState f' (stdin s) (debug s), r)
    end.

Definition subprocess_check_output (argv : list string) : M string :=
  fun s => ([Spawn argv], s, check_output env argv).

(** *** The OpenSSL directory ranker *)

Definition _get_default_openssldir : M (option string) :=
  got <- try_except
           (output <- subprocess_check_output ["openssl"; "version"; "-d"] ;;
            ret (Some output))
           (except (fun e => orb (is_OSError e) (is_CalledProcessError e))
              (fun _ => ret None)) ;;
  match got with
  | None => ret None
  | Some output =>
      match nth_error (PyStr.split PyStr.dquote (PyStr.str_of_bytes output)) 1 with
      | Some d => ret (Some d)
      | None => raise IndexError
      end
  end.

Definition openssl_list (default_openssl : option string) : list string :=
  match default_openssl with
  | Some d => if truthy default_openssl then d :: _DEFAULT_OPENSSLDIRS
              else _DEFAULT_OPENSSLDIRS
  | None => _DEFAULT_OPENSSLDIRS
  end.

(** [d[k] += n] *)
Definition dict_iadd (k : string) (n : Z) (d : dict) : M dict :=
  match get k d with
  | Some v => ret (set k (v + n) d)
  | None => raise KeyError
  end.

(** The body of the loop of [_rank_openssl_dir]. *)
Definition rank_step (default_openssl : option string)
    (openssl_dir : string) (openssl_rank : dict) : M dict :=
  is_dir <- path_isdir openssl_dir ;;
  if is_dir then
    let cert_pem := path_join openssl_dir "cert.pem" in
    let certs_dir := path_join openssl_dir "certs" in
    let openssl_rank :=
      set openssl_dir (if str_eq openssl_dir default_openssl then 1 else 0)
        openssl_rank in
    has_pem <- path_isfile cert_pem ;;
    openssl_rank <- (if has_pem then dict_iadd openssl_dir 4 openssl_rank
                     else ret openssl_rank) ;;
    has_certs <- path_isdir certs_dir ;;
    openssl_rank <- (if has_certs then dict_iadd openssl_dir 2 openssl_rank
                     else ret openssl_rank) ;;
    ret openssl_rank
  else ret openssl_rank.

Definition _rank_openssl_dir (default_openssl : option string) : M dict :=
  for_each (openssl_list default_openssl) (rank_step default_openssl) [].

Definition _analyze_ranks (openssl_rank : dict) : M (option string * Z * Z) :=
  match openssl_rank with
  | _ :: _ =>
      match max_of (values openssl_rank) with
      | None => raise ValueError
      | Some max_value =>
          let max_keys :=
            map fst (filter (fun kv => snd kv =? max_value) (items openssl_rank)) in
          (if (1 <? Z.of_nat (List.length max_keys))
           then print ("There may be multiple working openssl implementations..."
                         ++ PyStr.nl) ;;;
                print_list max_keys
           else ret tt) ;;;
          match max_keys with
          | [] => raise IndexError
          | first :: _ =>
              if 6 <=? max_value then ret (Some first, 1, 1)
              else if 4 <=? max_value then ret (Some first, 1, 0)
              else if 2 <=? max_value then ret (Some first, 0, 1)
              else ret (Some first, 0, 0)
          end
      end
  | [] => ret (None, 0, 0)
  end.

Definition _get_openssl_text : M (string * string * string) :=
  default_openssl <- _get_default_openssldir ;;
  openssl_rank <- _rank_openssl_dir default_openssl ;;
  best <- _analyze_ranks openssl_rank ;;
  let '(openssl_dir, cert_pem, cert_dir) := best in
  match openssl_dir with
  | Some dir =>
      if truthy openssl_dir then
        ret ("export OPENSSLDIR=" ++ dir,
             (if cert_pem =? 0 then ""
              else "export SSL_CERT_FILE=" ++ path_join dir "cert.pem"),
             (if cert_dir =? 0 then ""
              else "export SSL_CERT_DIR=" ++ path_join dir "certs"))
      else ret ("Openssl directory not found in an expected location.", "", "")
  | None => ret ("Openssl directory not found in an expected location.", "", "")
  end.

(** *** Prompts and validation *)

Definition valid (choice : string) : option string :=
  if String.eqb choice "yes" then Some "yes"
  else if String.eqb choice "y" then Some "yes"
  else if String.eqb choice "ye" then Some "yes"
  else if String.eqb choice "no" then Some "no"
  else if String.eqb choice "n" then Some "no"
  else None.

(** [input()] *)
Definition input : M string :=
  fun s =>
    match stdin s with
    | [] => ([Stdin], s, Raise EOFError)
    | Line text :: rest => ([Stdin], mkState (fs s) rest (debug s), Ret text)
    | CtrlC :: rest => ([Stdin], mkState (fs s) rest (debug s), Raise KeyboardInterrupt)
    end.

(** The [while 1] loop of [_askYesNo]: one line of input is read every
    turn, so the loop runs until an answer, the end of the input or an
    interrupt. *)
Fixpoint ask_loop (text : string) (default : option string)
    (lines : list input_item) : list event * list input_item * result string :=
  match lines with
  | [] => ([Stdout text; Stdin], [], Raise EOFError)
  | CtrlC :: rest => ([Stdout text; Stdin], rest, Raise KeyboardInterrupt)
  | Line answer :: rest =>
      let choice := PyStr.lower answer in
      match default, String.eqb choice "" with
      | Some d, true => ([Stdout text; Stdin], rest, Ret d)
      | _, _ =>
          match valid choice with
          | Some v => ([Stdout text; Stdin], rest, Ret v)
          | None =>
              match ask_loop text default rest with
              | (t, rest', r) =>
                  (Stdout text :: Stdin
                     :: Stdout ("Please repond with 'yes' or 'no' (or 'y' or 'n')."
                                  ++ PyStr.nl) :: t,
                   rest', r)
              end
          end
      end
  end.

Definition _askYesNo (question : string) (default : option string) : M string :=
  let ask prompt : M string :=
    fun s =>
      match ask_loop (question ++ prompt) default (stdin s) with
      | (t, rest, r) => (t, mkState (fs s) rest (debug s), r)
      end in
  match default with
  | None => ask " [y/n] "
  | Some d =>
      if String.eqb d "yes" then ask " [Y/n] "
      else if String.eqb d "no" then ask " [y/N] "
      else raise (Error ("invalid default answer: '" ++ d ++ "'"))
  end.

Definition _validateInstallDir (installDir : string) : M unit :=
  there <- path_exists installDir ;;
  if there then
    is_dir <- path_isdir installDir ;;
    if negb is_dir then
      raise (Error ("cannot install to '" ++ installDir
                      ++ "': exists and is not a directory"))
    else ret tt
  else ret tt.

Definition isEnabledFor_DEBUG : M bool := fun s => ([], s, Ret (debug s)).

Definition setLevel_DEBUG : M unit :=
  fun s => ([], mkState (fs s) (stdin s) true, Ret tt).

Definition shutil_which (name : string) : M (option string) :=
  fun s => ([Which name], s, Ret (which env name)).

Definition os_system_ (cmd : string) : M Z :=
  fun s =>
    match os_system env cmd (fs s) with
    | (status, f') => ([System cmd], mkState f' (stdin s) (debug s), Ret status)
    end.

Definition open_lines (path : string) : M (list string) :=
  fun s => ([ReadFile path], s, read_lines env path (fs s)).

(** *** Windows registry and COM *)

Definition _registerCOMObject (installDir module klass_name : string)
    (register : bool) : M unit :=
  let script := path_join (path_join installDir "Scripts") "registerCOMObj.py" in
  if register then
    call (CheckCall [sys_executable env; script; "--register"; "--module";
                     module; "--class"; klass_name])
  else
    call (CheckCall [sys_executable env; "Scripts/registerCOMObj.py"; "--unregister";
                     "--module"; module; "--class"; klass_name]).

Definition _winregGetEnvKey (key_name : string) : M string :=
  try_except
    (fun s => ([RegRead key_name], s, winreg_query env key_name))
    (except is_OSError (fun _ => ret "")).

Definition _winregSetEnvKey (key_name key_value : string) : M unit :=
  call (WinregSetEnvKey key_name key_value).

Definition _winregUpdatePath (new_paths : list string) : M unit :=
  current <- _winregGetEnvKey "Path" ;;
  let cur_paths := PyStr.split ";"%char current in
  let paths := (new_paths ++ cur_paths)%list in
  let paths := filter (fun p => negb (String.eqb p "")) paths in
  _winregSetEnvKey "Path" (PyStr.join ";" (_list_dedupe String.eqb paths)).

Definition _setPyRegKeyVal (key_name : string) (value_name : option string)
    (value : string) : M unit :=
  call (SetPyRegKeyVal key_name value_name value).

(** *** Qt *)

Definition _create_qt_config_file (file_path qt_path : string) : M unit :=
  let qt_conf := path_join file_path "qt.conf" in
  call (WriteFile qt_conf
          ("[Paths]" ++ PyStr.nl ++ "Prefix = " ++ PyStr.double_backslashes qt_path)).

Definition _qt_config (install_path : string) : M string :=
  let qt_note := PyStr.nl in
  let qt_path := path_join install_path "Qt" in
  there <- path_exists qt_path ;;
  if there then
    _create_qt_config_file (path_join qt_path "bin") qt_path ;;;
    if platform_win env then
      _create_qt_config_file install_path qt_path ;;;
      ret (PyStr.nl ++ "Qt is bundled with this build" ++ PyStr.nl)
    else
      _create_qt_config_file (path_join install_path "bin") qt_path ;;;
      ret (PyStr.nl ++ "Qt is bundled with this build, to enable it:"
             ++ PyStr.nl ++ PyStr.nl
             ++ "    export LD_LIBRARY_PATH=$LD_LIBRARY_PATH:" ++ install_path
             ++ "/Qt/lib" ++ PyStr.nl)
  else ret qt_note.

(** *** Installation *)

Definition version_pair (sep : string) : string :=
  version_major env ++ sep ++ version_minor env.

Definition win_temp_python_path : string :=
  "/tmp/ActiveState------------------------------------------please-run-the-install-script-----------------------------------------\".

Definition com_modules : list (string * string) :=
  [ ("win32com.servers.interp", "Interpreter");
    ("win32com.servers.dictionary", "DictionaryPolicy");
    ("win32com.axscript.client.pyscript", "PyScript") ].

Definition ERROR_ACCESS_DENIED : Z := 5.

Definition winerror_of (e : exn) : Z :=
  match e with Win32Error code => code | _ => 0 end.

Definition ignore_OSError (c : M unit) : M unit :=
  try_except c (except is_OSError (fun _ => ret tt)).

(** The branch of [install] taken on Windows. *)
Definition install_windows (absInstallDir : string)
    (registerCOM pathAdditions : bool) : M unit :=
  there <- path_exists absInstallDir ;;
  (if negb there then call (Makedirs absInstallDir) else ret tt) ;;;
  call (Sh2Cp (path_join "INSTALLDIR" "*") absInstallDir) ;;;
  (match pywin32_ver env with
   | Some _ =>
       print "Removing old PyWin32 registry 'Modules' entries..." ;;;
       for_do ["pythoncom"; "pywintypes"] (fun name =>
         let keyname := "Software\Python\PythonCore\" ++ winver env
                          ++ "\Modules\" ++ name in
         for_do ["HKEY_LOCAL_MACHINE"; "HKEY_CURRENT_USER"] (fun root =>
           ignore_OSError (call (WinregDeleteKey root (keyname ++ "\Debug"))) ;;;
           ignore_OSError (call (WinregDeleteKey root keyname)))) ;;;
       let pySystemFilesDir := path_join (script_dir env) "INSTALLDIR" in
       call (LoadPyWin32Module "pywintypes" pySystemFilesDir) ;;;
       call (LoadPyWin32Module "pythoncom" pySystemFilesDir) ;;;
       (if registerCOM then
          print "Registering PyWin32 COM modules..." ;;;
          for_do com_modules (fun mc =>
            try_except (_registerCOMObject absInstallDir (fst mc) (snd mc) true)
              (except is_Win32Error (fun ex =>
                 if winerror_of ex =? ERROR_ACCESS_DENIED then
                   emit (LogWarn ("could not register sample PyWin32 COM modules: "
                                    ++ "you do not have permission to install COM objects"))
                 else
                   emit (LogWarn ("unexpected error registering sample PyWin32 "
                                    ++ "COM modules: " ++ exn_str ex)))))
        else ret tt) ;;;
       let chm := path_join (path_join absInstallDir "Doc")
                    ("ActivePython" ++ version_pair "" ++ ".chm") in
       try_except (_setPyRegKeyVal "Help\Pythonwin Reference" None chm)
         (except is_OSError (fun ex =>
            emit (LogInfo ("could not set PythonWin help reference registry key "
                             ++ "(this is not serious): " ++ exn_str ex)))) ;;;
       let genPy :=
         path_join (path_join (path_join (path_join absInstallDir "Lib")
                                 "site-packages") "win32com") "gen_py" in
       made <- path_exists genPy ;;
       if negb made then
         print ("Creating '" ++ genPy ++ "'...") ;;;
         call (Makedirs genPy)
       else ret tt
   | None => ret tt
   end) ;;;
  qtNotes <- _qt_config absInstallDir ;;
  let relocate_manifest_file :=
    path_join (path_join absInstallDir "Lib") "reloc.txt" in
  listed <- path_exists relocate_manifest_file ;;
  (if listed then
     print "Updating paths for scripts" ;;;
     relocate_manifest <- open_lines relocate_manifest_file ;;
     for_do relocate_manifest (fun relocate_relative_file =>
       verbose <- isEnabledFor_DEBUG ;;
       call (RelocatePath
               (path_join absInstallDir (PyStr.strip relocate_relative_file))
               (path_join win_temp_python_path "")
               (path_join absInstallDir "")
               verbose))
   else ret tt) ;;;
  let dlls_dir := path_join absInstallDir "DLLs" in
  let scripts_dir := path_join absInstallDir "Scripts" in
  let tools_dir := path_join absInstallDir "Tools" in
  let ninja_dir := path_join tools_dir "ninja" in
  has_qt_bin <- path_exists (path_join (path_join absInstallDir "Qt") "bin") ;;
  let qt_bin_dir :=
    if has_qt_bin then path_join (path_join absInstallDir "Qt") "bin" else "" in
  (if pathAdditions then
     _winregUpdatePath
       [absInstallDir; dlls_dir; scripts_dir; tools_dir; ninja_dir; qt_bin_dir]
   else ret tt) ;;;
  let new_path :=
    absInstallDir ++ ";" ++ dlls_dir ++ ";" ++ scripts_dir ++ ";" ++ tools_dir
      ++ ";" ++ ninja_dir ++ ";" ++ qt_bin_dir ++ ";%Path%" in
  let doc := path_join (path_join absInstallDir "Doc")
               ("ActivePython" ++ version_pair "" ++ ".chm") in
  print (windows_report absInstallDir new_path doc).

(** The branch of [install] taken elsewhere. *)
Definition install_posix (absInstallDir : string)
    (useEnv setRootRunpath : bool) : M unit :=
  try_except (call (CopyTree (abspath env "./INSTALLDIR") absInstallDir))
    (except is_OSError (fun err => print (exn_str err))) ;;;
  print "Relocating dir-dependent files..." ;;;
  verbose <- isEnabledFor_DEBUG ;;
  call (RelocatePython absInstallDir verbose useEnv) ;;;
  (if setRootRunpath then
     print "Setting RPATH to point to the root dir /" ;;;
     call (RootifyRpath absInstallDir)
   else ret tt) ;;;
  let docDir :=
    path_join (path_join (path_join absInstallDir "doc")
                 ("python" ++ version_pair ".")) "index.html" in
  let webdoc := "http://docs.activestate.com/activepython/" ++ version_pair "." in
  text <- _get_openssl_text ;;
  let '(opensslDir, certPath, certDir) := text in
  qtNotes <- _qt_config absInstallDir ;;
  print (posix_report absInstallDir qtNotes opensslDir certDir certPath docDir webdoc).

Definition install (installDir : string)
    (useEnv setRootRunpath registerCOM pathAdditions : bool) : M unit :=
  (if setRootRunpath then
     found <- shutil_which "patchelf" ;;
     match found with
     | None =>
         print ("When changing RPATH, the patchelf is required but is missing. "
                  ++ "Please install.") ;;;
         raise (SystemExit 1)
     | Some _ => ret tt
     end
   else ret tt) ;;;
  let absInstallDir := abspath env (expand_norm env installDir) in
  emit Chdir ;;;
  print ("Installing ActivePython to '" ++ absInstallDir ++ "'...") ;;;
  _validateInstallDir absInstallDir ;;;
  if platform_win env then install_windows absInstallDir registerCOM pathAdditions
  else install_posix absInstallDir useEnv setRootRunpath.

Definition interactiveInstall (registerCOM pathAdditions : bool) : M unit :=
  has_check <- path_exists "./INSTALLDIR/bin/update_check" ;;
  superceded <- (if has_check then
                   status <- os_system_ "./INSTALLDIR/bin/update_check" ;;
                   ret (1 =? status)
                 else ret false) ;;
  if superceded then
    print "Installer superceded" ;;;
    raise (SystemExit 0)
  else
    let default := _getDefaultInstallDir in
    stdout_write
      ("Enter directory in which to install ActivePython. Leave blank and"
         ++ PyStr.nl ++ "press 'Enter' to use the default [" ++ default ++ "]."
         ++ PyStr.nl ++ "Install directory: ") ;;;
    answer <- input ;;
    let installDir := PyStr.strip answer in
    let installDir := if String.eqb installDir "" then default else installDir in
    let norm := expand_norm env installDir in
    is_dir <- path_isdir norm ;;
    proceed <-
      (if is_dir then
         stdout_write
           (PyStr.nl ++ "'" ++ installDir
              ++ "' already exists. Installing over existing Python" ++ PyStr.nl
              ++ "installations may have unexpected results." ++ PyStr.nl
              ++ "Are you sure you would like to proceed with the installation?"
              ++ PyStr.nl) ;;;
         choice <- _askYesNo "Proceed?" (Some "no") ;;
         if String.eqb choice "yes" then ret true
         else if String.eqb choice "no" then
           print "Aborting install." ;;; ret false
         else ret true
       else
         there <- path_exists norm ;;
         if there then
           raise (Error ("'" ++ installDir ++ "' exists and is not a directory"))
         else ret true) ;;
    if negb proceed then ret tt
    else
      flags <-
        (if platform_win env then
           registerCOM <-
             (if registerCOM then
                choice <- _askYesNo "Do you want to register the pywin32 COM objects?"
                            (Some "yes") ;;
                ret (String.eqb choice "yes")
              else ret registerCOM) ;;
           pathAdditions <-
             (if pathAdditions then
                choice <- _askYesNo "Do you want to add directories to PATH?"
                            (Some "yes") ;;
                ret (String.eqb choice "yes")
              else ret pathAdditions) ;;
           ret (false, false, registerCOM, pathAdditions)
         else
           choice <- _askYesNo
                       "Do you want to rewrite the shebang lines of scripts to use /usr/bin/env?"
                       (Some "no") ;;
           let useEnv := String.eqb choice "yes" in
           setRootRunpath <-
             (if allow_setrunpath then
                choice <- _askYesNo
                            ("Do you want to set a RUNPATH to point to the root in RPATH "
                               ++ "for site-packages? (Note that patchelf needs to be "
                               ++ "installed on your system)")
                            (Some "no") ;;
                ret (String.eqb choice "yes")
              else ret false) ;;
           ret (useEnv, setRootRunpath, registerCOM, pathAdditions)) ;;
      let '(useEnv, setRootRunpath, registerCOM, pathAdditions) := flags in
      print "" ;;;
      install installDir useEnv setRootRunpath registerCOM pathAdditions ;;;
      has_komodo <- path_exists "./INSTALLDIR/bin/komodo_download" ;;
      if has_komodo then
        os_system_ "./INSTALLDIR/bin/komodo_download" ;;; ret tt
      else ret tt.

(** *** Mainline *)

Record options : Type := mkOptions {
  opt_installDir : option string;
  opt_registerCOM : bool;
  opt_pathAdditions : bool;
  opt_useEnv : bool
}.

(** [installDir = None], [registerCOM = True], [pathAdditions = True],
    [useEnv = False] *)
Definition default_options : options := mkOptions None true true false.

Definition opt_in (opt a b : string) : bool :=
  orb (String.eqb opt a) (String.eqb opt b).

(** The loop over the parsed options: [None] when [main] returns from
    inside it (help or version). *)
Fixpoint read_options (opts : list (string * string)) (o : options)
    : M (option options) :=
  match opts with
  | [] => ret (Some o)
  | (opt, optarg) :: rest =>
      if opt_in opt "-h" "--help" then
        stdout_write __doc__ ;;; ret None
      else if opt_in opt "-V" "--version" then
        print ("install " ++ PyStr.join "." _version_) ;;; ret None
      else if opt_in opt "-e" "--use-env-shebang" then
        read_options rest
          (mkOptions (opt_installDir o) (opt_registerCOM o) (opt_pathAdditions o) true)
      else if opt_in opt "-v" "--verbose" then
        setLevel_DEBUG ;;; read_options rest o
      else if opt_in opt "-I" "--install-dir" then
        read_options rest
          (mkOptions (Some optarg) (opt_registerCOM o) (opt_pathAdditions o) (opt_useEnv o))
      else if opt_in opt "-c" "--no-com-registration" then
        read_options rest
          (mkOptions (opt_installDir o) false (opt_pathAdditions o) (opt_useEnv o))
      else if opt_in opt "-p" "--no-path-additions" then
        read_options rest
          (mkOptions (opt_installDir o) (opt_registerCOM o) false (opt_useEnv o))
      else read_options rest o
  end.

(** The body of the [try] statement that ends [main]. *)
Definition dispatch (o : options) : M unit :=
  match opt_installDir o with
  | None => interactiveInstall (opt_registerCOM o) (opt_pathAdditions o)
  | Some installDir =>
      install installDir (opt_useEnv o) false (opt_registerCOM o)
        (opt_pathAdditions o)
  end.

(** The [try] statement that ends [main]. *)
Definition run_install (o : options) : M (option Z) :=
  try_except
    (dispatch o ;;; ret None)
    (or_except
       (except (fun e => orb (is_OSError e) (is_Error e))
          (fun ex =>
             emit (LogError (exn_str ex)) ;;;
             verbose <- isEnabledFor_DEBUG ;;
             (if verbose then print "" ;;; emit Traceback else ret tt) ;;;
             ret (Some 1)))
       (except is_KeyboardInterrupt
          (fun _ => emit (LogDebug "user abort") ;;; ret None))).

Definition main (argv : list string) : M (option Z) :=
  match getopt env (tl argv) with
  | Raise (GetoptError msg) =>
      emit (LogError msg) ;;;
      emit (LogError "Try `./install.sh --help'.") ;;;
      ret (Some 1)
  | Raise e => raise e
  | Ret (opts, args) =>
      parsed <- read_options opts default_options ;;
      match parsed with
      | None => ret None
      | Some o => run_install o
      end
  end.

End Script.

(** [sys.exit(main(sys.argv))]: the status the process ends with.  An
    exception that leaves [main] ends the process with status 1, unless
    it is [SystemExit], which carries its own. *)
Definition exit_status (r : result (option Z)) : Z :=
  match r with
  | Ret None => 0
  | Ret (Some n) => n
  | Raise (SystemExit code) => code
  | Raise _ => 1
  end.

(** ** Vocabulary of the properties *)

(** The score of a candidate directory, as the specification words it:
    1 for the system default, 4 for a [cert.pem] file, 2 for a [certs]
    subdirectory. *)
Definition candidate_score (env : environment) (f : filesystem)
    (default_openssl : option string) (dir : string) : Z :=
  (if str_eq dir default_openssl then 1 else 0)
  + (if fs_isfile f (path_join env dir "cert.pem") then 4 else 0)
  + (if fs_isdir f (path_join env dir "certs") then 2 else 0).

(** The dictionary the loop of [_rank_openssl_dir] builds, as a fold. *)
Definition rank_fold (env : environment) (default_openssl : option string)
    (f : filesystem) (l : list string) (r : dict) : dict :=
  fold_left
    (fun r c =>
       if fs_isdir f c then set c (candidate_score env f default_openssl c) r
       else r)
    l r.

(** [m] is the greatest element of [l]. *)
Definition is_max (m : Z) (l : list Z) : Prop :=
  In m l /\ forall v, In v l -> v <= m.

(** Events that only ask the filesystem a question. *)
Definition is_query (e : event) : bool :=
  match e with Stat _ => true | _ => false end.

(** Events that only write to standard output. *)
Definition is_output (e : event) : bool :=
  match e with Stdout _ | StdoutList _ => true | _ => false end.

Definition is_LogError (e : event) : bool :=
  match e with LogError _ => true | _ => false end.

(** Position of the first occurrence of [x] in [l] ([l.index(x)]), or the
    length of [l] when there is none. *)
Fixpoint index_of {A} (eqb : A -> A -> bool) (x : A) (l : list A) : nat :=
  match l with
  | [] => O
  | y :: rest => if eqb x y then O else S (index_of eqb x rest)
  end.

(** [_list_dedupe] started from the list [uniques] built so far. *)
Definition dedupe_from {A} (eqb : A -> A -> bool) (uniques values : list A) : list A :=
  fold_left
    (fun uniques val =>
       if negb (py_in eqb val uniques) then (uniques ++ [val])%list else uniques)
    values uniques.

(** The candidates that are directories, each once, in the order of the
    candidate list, and the dictionary that gives each its score. *)
Definition existing_candidates (f : filesystem) (default_openssl : option string)
    : list string :=
  _list_dedupe String.eqb (filter (fs_isdir f) (openssl_list default_openssl)).

Definition scored (env : environment) (f : filesystem)
    (default_openssl : option string) (l : list string) : dict :=
  map (fun c => (c, candidate_score env f default_openssl c)) l.

(** The two flags [_analyze_ranks] returns next to the directory, by the
    greatest score. *)
Definition flags_of (max_value : Z) : Z * Z :=
  if 6 <=? max_value then (1, 1)
  else if 4 <=? max_value then (1, 0)
  else if 2 <=? max_value then (0, 1)
  else (0, 0).

(** The keys of [d] whose value is [m], in the order of [d]. *)
Definition keys_at (m : Z) (d : dict) : list string :=
  map fst (filter (fun kv => snd kv =? m) (items d)).

(** What [_analyze_ranks] prints when [max_keys] holds several paths. *)
Definition ambiguity_report (max_keys : list string) : list event :=
  [ Stdout (("There may be multiple working openssl implementations..."
               ++ PyStr.nl) ++ PyStr.nl);
    StdoutList max_keys ].

(** ** Sample machines *)

Definition fs_of (entries : list (string * node)) : filesystem :=
  fun p =>
    match find (fun e => String.eqb p (fst e)) entries with
    | Some e => Some (snd e)
    | None => None
    end.

(** A POSIX machine whose library calls all succeed and whose [openssl]
    tool answers [tool]. *)
Definition posix_machine (tool : result string)
    (opts : list (string * string)) : environment :=
  {| platform_win := false;
     ntpath_join := fun a b => a ++ "\" ++ b;
     expand_norm := fun p => p;
     abspath := fun p => p;
     which := fun _ => None;
     version_major := "3";
     version_minor := "8";
     winver := "3.8";
     script_dir := "/tmp/unpack";
     sys_executable := "/usr/bin/python3";
     pywin32_ver := None;
     getopt := fun _ => Ret (opts, []);
     check_output := fun _ => tool;
     os_system := fun _ f => (0, f);
     winreg_query := fun _ => Raise (OSError "no registry");
     read_lines := fun _ _ => Ret [];
     extern := fun _ f => (Ret tt, f) |}.

(** The same machine without the tool, on which the copy of the tree
    raises [failure]. *)
Definition copy_failure_machine (failure : exn)
    (opts : list (string * string)) : environment :=
  {| platform_win := false;
     ntpath_join := fun a b => a ++ "\" ++ b;
     expand_norm := fun p => p;
     abspath := fun p => p;
     which := fun _ => None;
     version_major := "3";
     version_minor := "8";
     winver := "3.8";
     script_dir := "/tmp/unpack";
     sys_executable := "/usr/bin/python3";
     pywin32_ver := None;
     getopt := fun _ => Ret (opts, []);
     check_output := fun _ => Raise (OSError "openssl: command not found");
     os_system := fun _ f => (0, f);
     winreg_query := fun _ => Raise (OSError "no registry");
     read_lines := fun _ _ => Ret [];
     extern := fun x f =>
       match x with
       | CopyTree _ _ => (Raise failure, f)
       | _ => (Ret tt, f)
       end |}.

(** The user interrupts the copy of the tree. *)
Definition interrupted_machine : environment :=
  copy_failure_machine KeyboardInterrupt [("-I", "/opt/python")].

(** The disk is full during the copy of the tree. *)
Definition disk_full_machine : environment :=
  copy_failure_machine (OSError "No space left on device") [("-I", "/opt/python")].

(** The target of the installation is given on the command line. *)
Definition target_machine : environment :=
  posix_machine (Raise (OSError "openssl: command not found")) [("-I", "/opt/python")].

Definition sample_argv : list string := ["_install.py"; "-I"; "/opt/python"].

(** A POSIX machine without an [openssl] tool. *)
Definition no_openssl_machine : environment :=
  posix_machine (Raise (OSError "openssl: command not found")) [].

(** What [openssl version -d] prints on a Debian system. *)
Definition debian_tool_output : string :=
  "OPENSSLDIR: " ++ String PyStr.dquote ("/usr/lib/ssl" ++ String PyStr.dquote PyStr.nl).

Definition debian_fs : filesystem :=
  fs_of [ ("/usr/lib/ssl", Dir);
          ("/usr/lib/ssl/cert.pem", File);
          ("/usr/lib/ssl/certs", Dir);
          ("/etc/ssl", Dir);
          ("/etc/ssl/certs", Dir) ].

(** Two candidates with a [certs] subdirectory and nothing else. *)
Definition tied_fs : filesystem :=
  fs_of [ ("/etc/pki/tls", Dir);
          ("/etc/pki/tls/certs", Dir);
          ("/etc/ssl", Dir);
          ("/etc/ssl/certs", Dir) ].

(** One candidate with a [cert.pem] file and no [certs] subdirectory. *)
Definition pem_only_fs : filesystem :=
  fs_of [ ("/etc/ssl", Dir); ("/etc/ssl/cert.pem", File) ].

(** No candidate at all, and a regular file where the user wants to
    install. *)
Definition bare_fs : filesystem :=
  fs_of [ ("/opt/python", File) ].

Definition empty_fs : filesystem := fun _ => None.

Definition boot (f : filesystem) : state := mkState f [] false.

(** The directories a Windows installation adds to the search path, the
    install directory twice. *)
Definition sample_paths : list string :=
  [ "C:\Python38"; "C:\Python38\DLLs"; "C:\Python38\Scripts"; "C:\Python38";
    "C:\Windows"; "C:\Python38\DLLs" ].

(** ** Vocabulary and machines of the further properties *)

(** A byte that [str(bytes)] writes as it is and that is no quote: the
    printable ASCII characters but the two quotes and the backslash. *)
Definition plain_byte (a : ascii) : bool :=
  let n := Ascii.nat_of_ascii a in
  andb (andb (Nat.leb 32 n) (Nat.leb n 126))
       (negb (orb (Ascii.eqb a PyStr.squote)
                  (orb (Ascii.eqb a PyStr.dquote) (Ascii.eqb a PyStr.backslash)))).

Fixpoint plain (s : string) : bool :=
  match s with
  | EmptyString => true
  | String a rest => andb (plain_byte a) (plain rest)
  end.

(** A machine whose [openssl] prints its version only. *)
Definition version_only_machine : environment :=
  posix_machine (Ret "OpenSSL 1.1.1f  31 Mar 2020") [].

(** Events of a dialogue: a text written to standard output or a line
    asked of standard input. *)
Definition is_dialogue (e : event) : bool :=
  match e with Stdout _ | Stdin => true | _ => false end.

(** What one line typed at the prompt of [_askYesNo] answers, if
    anything: the default for an empty line, else the meaning of the
    lowercased line. *)
Definition answer_of (default : option string) (line : string) : option string :=
  match default, String.eqb (PyStr.lower line) "" with
  | Some d, true => Some d
  | _, _ => valid (PyStr.lower line)
  end.

(** The prompt [_askYesNo] shows for a default it accepts. *)
Definition prompt_of (default : option string) : string :=
  match default with
  | None => " [y/n] "
  | Some d => if String.eqb d "yes" then " [Y/n] " else " [y/N] "
  end.

Definition reminder : string :=
  "Please repond with 'yes' or 'no' (or 'y' or 'n')." ++ PyStr.nl.

(** A Windows machine whose registry holds [current] under [Path]. *)
Definition windows_machine (current : result string) : environment :=
  {| platform_win := true;
     ntpath_join := fun a b => a ++ "\" ++ b;
     expand_norm := fun p => p;
     abspath := fun p => p;
     which := fun _ => None;
     version_major := "3";
     version_minor := "8";
     winver := "3.8";
     script_dir := "C:\unpack";
     sys_executable := "C:\unpack\INSTALLDIR\python.exe";
     pywin32_ver := None;
     getopt := fun _ => Ret ([("-I", "C:\Python38")], []);
     check_output := fun _ => Raise (OSError "openssl: command not found");
     os_system := fun _ f => (0, f);
     winreg_query := fun _ => current;
     read_lines := fun _ _ => Ret [];
     extern := fun _ f => (Ret tt, f) |}.

(** Events other than a read of standard input. *)
Definition not_stdin (e : event) : bool :=
  match e with Stdin => false | _ => true end.

(** A computation that never reads standard input: no [Stdin] event, and
    the lines waiting there are left as they were. *)
Definition no_input {A} (c : M A) : Prop :=
  forall s, forallb not_stdin (trace_of (c s)) = true
            /\ stdin (state_of (c s)) = stdin s.

(** The options that make [main] print and return. *)
Definition is_help_or_version (opt : string) : bool :=
  orb (opt_in opt "-h" "--help") (opt_in opt "-V" "--version").

Definition is_install_dir (opt : string) : bool :=
  opt_in opt "-I" "--install-dir".

(** The exceptions the [try] statement of [main] handles. *)
Definition handled_by_main (e : exn) : bool :=
  orb (orb (is_OSError e) (is_Error e)) (is_KeyboardInterrupt e).

(** The argument of the last [-I] or [--install-dir] of the parsed
    options. *)
Fixpoint last_install_dir (opts : list (string * string)) : option string :=
  match opts with
  | [] => None
  | (opt, optarg) :: rest =>
      match last_install_dir rest with
      | Some d => Some d
      | None => if is_install_dir opt then Some optarg else None
      end
  end.

(** One of the two spellings [a], [b] of an option is among [opts]. *)
Definition has_opt (a b : string) (opts : list (string * string)) : bool :=
  existsb (fun oa => opt_in (fst oa) a b) opts.




(** A POSIX machine on which the relocation is refused. *)
Definition relocation_denied_machine : environment :=
  {| platform_win := false;
     ntpath_join := fun a b => a ++ "\" ++ b;
     expand_norm := fun p => p;
     abspath := fun p => p;
     which := fun _ => None;
     version_major := "3";
     version_minor := "8";
     winver := "3.8";
     script_dir := "/tmp/unpack";
     sys_executable := "/usr/bin/python3";
     pywin32_ver := None;
     getopt := fun _ => Ret ([("-I", "/opt/python")], []);
     check_output := fun _ => Raise (OSError "openssl: command not found");
     os_system := fun _ f => (0, f);
     winreg_query := fun _ => Raise (OSError "no registry");
     read_lines := fun _ _ => Ret [];
     extern := fun x f =>
       match x with
       | RelocatePython _ _ _ => (Raise (OSError "Permission denied"), f)
       | _ => (Ret tt, f)
       end |}.



(** A machine whose [update_check] tool says that a newer installer
    exists. *)
Definition superseded_machine : environment :=
  {| platform_win := false;
     ntpath_join := fun a b => a ++ "\" ++ b;
     expand_norm := fun p => p;
     abspath := fun p => p;
     which := fun _ => None;
     version_major := "3";
     version_minor := "8";
     winver := "3.8";
     script_dir := "/tmp/unpack";
     sys_executable := "/usr/bin/python3";
     pywin32_ver := None;
     getopt := fun _ => Ret ([], []);
     check_output := fun _ => Raise (OSError "openssl: command not found");
     os_system := fun _ f => (1, f);
     winreg_query := fun _ => Raise (OSError "no registry");
     read_lines := fun _ _ => Ret [];
     extern := fun _ f => (Ret tt, f) |}.

Definition update_check_fs : filesystem :=
  fs_of [ ("./INSTALLDIR/bin/update_check", File) ].


(** * Properties *)

Open Scope list_scope.
Unset Implicit Arguments.

(** ** Dictionaries *)

Lemma get_set_same (k : string) (v : Z) (d : dict) :
  get k (set k v d) = Some v.
Proof.
  induction d as [|[k' v'] d IH]; simpl.
  - now rewrite String.eqb_refl.
  - destruct (String.eqb k k') eqn:E; simpl; rewrite E; auto.
Qed.

Lemma get_set_other (k k' : string) (v : Z) (d : dict) :
  k' <> k -> get k' (set k v d) = get k' d.
Proof.
  intros Hne. induction d as [|[k0 v0] d IH]; simpl.
  - apply String.eqb_neq in Hne. now rewrite Hne.
  - destruct (String.eqb k k0) eqn:E; simpl.
    + apply String.eqb_eq in E. subst k0.
      apply String.eqb_neq in Hne. now rewrite Hne.
    + now rewrite IH.
Qed.

Lemma set_set (k : string) (v v' : Z) (d : dict) :
  set k v' (set k v d) = set k v' d.
Proof.
  induction d as [|[k0 v0] d IH]; simpl.
  - now rewrite String.eqb_refl.
  - destruct (String.eqb k k0) eqn:E; simpl; rewrite E; congruence.
Qed.

Lemma set_same_value (k : string) (v : Z) (d : dict) :
  get k d = Some v -> set k v d = d.
Proof.
  induction d as [|[k0 v0] d IH]; simpl; [discriminate|].
  destruct (String.eqb k k0) eqn:E; intros H.
  - congruence.
  - now rewrite IH.
Qed.

(** ** The ranker, step by step *)

Section RankerFacts.

Variable env : environment.
Variable default_openssl : option string.

  (** One turn of the loop asks three questions at most, leaves the state
      alone and records the score the specification gives. *)
Lemma rank_step_run (c : string) (r : dict) (s : state) :
    exists t,
      rank_step env default_openssl c r s
      = (t, s,
         Ret (if fs_isdir (fs s) c
              then set c (candidate_score env (fs s) default_openssl c) r
              else r))
      /\ forallb is_query t = true.
  Proof.
    unfold rank_step, bind, path_isdir, path_isfile, candidate_score, ret.
    destruct (fs_isdir (fs s) c); [|eexists; split; reflexivity].
    destruct (fs_isfile (fs s) (path_join env c "cert.pem")); cbn;
      unfold dict_iadd, ret; rewrite ?get_set_same; cbn;
      destruct (fs_isdir (fs s) (path_join env c "certs")); cbn;
      rewrite ?get_set_same; cbn;
      rewrite ?set_set, ?Z.add_0_r;
      eexists; split; reflexivity.
  Qed.

Lemma rank_loop_run (l : list string) (r : dict) (s : state) :
    exists t,
      for_each l (rank_step env default_openssl) r s
      = (t, s, Ret (rank_fold env default_openssl (fs s) l r))
      /\ forallb is_query t = true.
  Proof.
    revert r. induction l as [|c l IH]; intros r; simpl.
    - exists []. split; reflexivity.
    - destruct (rank_step_run c r s) as [t1 [E1 Q1]].
      destruct (IH (if fs_isdir (fs s) c
                    then set c (candidate_score env (fs s) default_openssl c) r
                    else r)) as [t2 [E2 Q2]].
      exists (t1 ++ t2). unfold bind. rewrite E1, E2. split; [reflexivity|].
      rewrite forallb_app, Q1, Q2. reflexivity.
  Qed.

End RankerFacts.

(** ** [_list_dedupe] *)

Section DedupeFacts.

Variable A : Type.
Variable eqb : A -> A -> bool.
Hypothesis eqb_spec : forall x y, eqb x y = true <-> x = y.

Lemma py_in_In (x : A) (l : list A) : py_in eqb x l = true <-> In x l.
Proof.
  unfold py_in. rewrite existsb_exists. split.
  - intros [y [Hy E]]. apply eqb_spec in E. now subst.
  - intros H. exists x. split; [assumption | now apply eqb_spec].
Qed.

Lemma py_in_false (x : A) (l : list A) : py_in eqb x l = false <-> ~ In x l.
Proof.
  rewrite <- py_in_In. destruct (py_in eqb x l); split; congruence.
Qed.

Lemma dedupe_from_cons (u : list A) (x : A) (l : list A) :
  dedupe_from eqb u (x :: l)
  = dedupe_from eqb (if py_in eqb x u then u else u ++ [x]) l.
Proof.
  unfold dedupe_from. simpl. now destruct (py_in eqb x u).
Qed.

Lemma dedupe_from_app (u l1 l2 : list A) :
  dedupe_from eqb u (l1 ++ l2) = dedupe_from eqb (dedupe_from eqb u l1) l2.
Proof. unfold dedupe_from. apply fold_left_app. Qed.

Lemma dedupe_from_prefix (l u : list A) :
  exists w, dedupe_from eqb u l = u ++ w.
Proof.
  revert u. induction l as [|x l IH]; intros u.
  - exists []. now rewrite app_nil_r.
  - rewrite dedupe_from_cons. destruct (py_in eqb x u).
    + apply IH.
    + destruct (IH (u ++ [x])) as [w E]. exists (x :: w).
      now rewrite E, <- app_assoc.
Qed.

Lemma dedupe_from_In (l u : list A) (x : A) :
  In x (dedupe_from eqb u l) <-> In x u \/ In x l.
Proof.
  revert u. induction l as [|y l IH]; intros u.
  - simpl. tauto.
  - rewrite dedupe_from_cons, IH. destruct (py_in eqb y u) eqn:E.
    + apply py_in_In in E. simpl. intuition (subst; auto).
    + rewrite in_app_iff. simpl. tauto.
Qed.

Lemma dedupe_from_NoDup (l u : list A) :
  NoDup u -> NoDup (dedupe_from eqb u l).
Proof.
  revert u. induction l as [|y l IH]; intros u Hu; [assumption|].
  rewrite dedupe_from_cons. apply IH. destruct (py_in eqb y u) eqn:E; [assumption|].
  apply py_in_false in E. apply NoDup_app; [assumption | repeat constructor; auto |].
  intros a Ha [<-|[]]. contradiction.
Qed.

Lemma dedupe_from_fixed (l u : list A) :
  NoDup (u ++ l) -> dedupe_from eqb u l = u ++ l.
Proof.
  revert u. induction l as [|y l IH]; intros u Hnd.
  - now rewrite app_nil_r.
  - rewrite dedupe_from_cons.
    assert (Hy : py_in eqb y u = false).
    { apply py_in_false. intros Hin. apply NoDup_remove_2 in Hnd.
      apply Hnd, in_or_app. now left. }
    rewrite Hy. replace (u ++ y :: l) with ((u ++ [y]) ++ l) in *
      by now rewrite <- app_assoc.
    now apply IH.
Qed.

Lemma dedupe_from_filter (p : A -> bool) (l u : list A) :
  filter p (dedupe_from eqb u l) = dedupe_from eqb (filter p u) (filter p l).
Proof.
  revert u. induction l as [|y l IH]; intros u; [reflexivity|].
  rewrite dedupe_from_cons, IH. simpl.
  destruct (p y) eqn:Py.
  - rewrite dedupe_from_cons.
    destruct (py_in eqb y u) eqn:E.
    + assert (py_in eqb y (filter p u) = true) as ->; [|reflexivity].
      apply py_in_In, filter_In. split; [now apply py_in_In | assumption].
    + assert (py_in eqb y (filter p u) = false) as ->.
      { apply py_in_false. intros H. apply filter_In in H.
        apply py_in_false in E. tauto. }
      rewrite filter_app. simpl. now rewrite Py.
  - destruct (py_in eqb y u); [reflexivity|].
    rewrite filter_app. simpl. now rewrite Py, app_nil_r.
Qed.

Lemma dedupe_first_split (l1 : list A) (x : A) (l2 : list A) :
  ~ In x l1 ->
  exists w, _list_dedupe eqb (l1 ++ x :: l2) = _list_dedupe eqb l1 ++ x :: w.
Proof.
  intros Hx. change (_list_dedupe eqb) with (dedupe_from eqb []).
  rewrite dedupe_from_app, dedupe_from_cons.
  assert (py_in eqb x (dedupe_from eqb [] l1) = false) as ->.
  { apply py_in_false. rewrite dedupe_from_In. simpl. tauto. }
  destruct (dedupe_from_prefix l2 (dedupe_from eqb [] l1 ++ [x])) as [w E].
  exists w. now rewrite E, <- app_assoc.
Qed.

Lemma in_first_split (x : A) (l : list A) :
  In x l -> exists l1 l2, l = l1 ++ x :: l2 /\ ~ In x l1.
Proof.
  induction l as [|y l IH]; [intros []|].
  intros H. destruct (eqb x y) eqn:E.
  - apply eqb_spec in E. subst y. exists [], l. split; [reflexivity | intros []].
  - assert (Hne : x <> y) by (intros ->; rewrite (proj2 (eqb_spec y y) eq_refl) in E;
                              discriminate).
    destruct H as [->|H]; [congruence|].
    destruct (IH H) as [l1 [l2 [-> Hn]]]. exists (y :: l1), l2. split; [reflexivity|].
    intros [->|Hin]; [congruence | contradiction].
Qed.

Lemma index_of_lt_split (l1 : list A) (x : A) (r : list A) (y : A) :
  ~ In x l1 ->
  ((index_of eqb x (l1 ++ x :: r) < index_of eqb y (l1 ++ x :: r))%nat
   <-> ~ In y l1 /\ y <> x).
Proof.
  induction l1 as [|a l1 IH]; intros Hx; simpl.
  - rewrite (proj2 (eqb_spec x x) eq_refl).
    destruct (eqb y x) eqn:E.
    + apply eqb_spec in E. split; [lia | tauto].
    + split; [|lia]. intros _. split; [tauto|].
      intros ->. rewrite (proj2 (eqb_spec x x) eq_refl) in E. discriminate.
  - assert (Hxa : eqb x a = false).
    { destruct (eqb x a) eqn:E; [|reflexivity]. apply eqb_spec in E.
      subst a. simpl in Hx. tauto. }
    rewrite Hxa. destruct (eqb y a) eqn:E.
    + apply eqb_spec in E. subst a. split; [lia | tauto].
    + assert (Hya : a <> y).
      { intros ->. rewrite (proj2 (eqb_spec y y) eq_refl) in E. discriminate. }
      rewrite <- Nat.succ_lt_mono, IH by (simpl in Hx; tauto). tauto.
Qed.

End DedupeFacts.

(** C9: for every input list, [_list_dedupe] returns a list without
    duplicates that holds exactly the elements of the input, in the order
    of their first occurrences in the input; applying it twice is
    applying it once. *)
Theorem list_dedupe_distinct_ordered_idempotent
    (A : Type) (eqb : A -> A -> bool) (values : list A) :
  (forall x y, eqb x y = true <-> x = y) ->
  NoDup (_list_dedupe eqb values)
  /\ (forall x, In x (_list_dedupe eqb values) <-> In x values)
  /\ (forall x y, In x values -> In y values ->
        ((index_of eqb x values < index_of eqb y values)%nat
         <-> (index_of eqb x (_list_dedupe eqb values)
              < index_of eqb y (_list_dedupe eqb values))%nat))
  /\ _list_dedupe eqb (_list_dedupe eqb values) = _list_dedupe eqb values.
Proof.
  intros eqb_spec.
  assert (Hnd : NoDup (_list_dedupe eqb values)).
  { apply (dedupe_from_NoDup A eqb eqb_spec values []). constructor. }
  assert (Hin : forall l x, In x (_list_dedupe eqb l) <-> In x l).
  { intros l x. change (_list_dedupe eqb l) with (dedupe_from eqb [] l).
    rewrite (dedupe_from_In A eqb eqb_spec). simpl. tauto. }
  split; [exact Hnd|]. split; [apply Hin|]. split.
  - intros x y Hx _.
    destruct (in_first_split A eqb eqb_spec x values Hx) as [l1 [l2 [E Hx1]]].
    destruct (dedupe_first_split A eqb eqb_spec l1 x l2 Hx1) as [w Ew].
    subst values. rewrite Ew.
    rewrite !(index_of_lt_split A eqb eqb_spec); [|now rewrite Hin|assumption].
    now rewrite Hin.
  - change (_list_dedupe eqb (_list_dedupe eqb values))
      with (dedupe_from eqb [] (_list_dedupe eqb values)).
    now rewrite (dedupe_from_fixed A eqb eqb_spec).
Qed.

Lemma list_dedupe_sample :
  NoDup (_list_dedupe String.eqb sample_paths)
  /\ (forall x, In x (_list_dedupe String.eqb sample_paths) <-> In x sample_paths)
  /\ (forall x y, In x sample_paths -> In y sample_paths ->
        ((index_of String.eqb x sample_paths < index_of String.eqb y sample_paths)%nat
         <-> (index_of String.eqb x (_list_dedupe String.eqb sample_paths)
              < index_of String.eqb y (_list_dedupe String.eqb sample_paths))%nat))
  /\ _list_dedupe String.eqb (_list_dedupe String.eqb sample_paths)
     = _list_dedupe String.eqb sample_paths.
Proof.
  apply (list_dedupe_distinct_ordered_idempotent string String.eqb sample_paths).
  exact String.eqb_eq.
Defined.

(** ** The dictionary of scores *)

Section ScoreFacts.

Variable env : environment.
Variable default_openssl : option string.
Variable f : filesystem.

Lemma set_scored (c : string) (u : list string) :
  set c (candidate_score env f default_openssl c) (scored env f default_openssl u)
  = scored env f default_openssl (if py_in String.eqb c u then u else u ++ [c]).
Proof.
  unfold scored. induction u as [|a u IH]; simpl; [reflexivity|].
  destruct (String.eqb c a) eqn:E; simpl.
  - apply String.eqb_eq in E. now subst.
  - rewrite IH. now destruct (py_in String.eqb c u).
Qed.

Lemma rank_fold_scored (l u : list string) :
  rank_fold env default_openssl f l (scored env f default_openssl u)
  = scored env f default_openssl (dedupe_from String.eqb u (filter (fs_isdir f) l)).
Proof.
  revert u. induction l as [|c l IH]; intros u; [reflexivity|].
  unfold rank_fold in *. simpl. destruct (fs_isdir f c).
  - now rewrite set_scored, IH, (dedupe_from_cons string String.eqb).
  - apply IH.
Qed.

Lemma get_scored (c : string) (l : list string) :
  get c (scored env f default_openssl l)
  = if py_in String.eqb c l then Some (candidate_score env f default_openssl c)
    else None.
Proof.
  unfold scored. induction l as [|a l IH]; simpl; [reflexivity|].
  destruct (String.eqb c a) eqn:E; simpl; [|assumption].
  apply String.eqb_eq in E. now subst.
Qed.

Lemma keys_scored (l : list string) : keys (scored env f default_openssl l) = l.
Proof.
  unfold keys, scored. rewrite map_map. simpl. apply map_id.
Qed.

Lemma candidate_score_range (c : string) :
  0 <= candidate_score env f default_openssl c <= 7.
Proof.
  unfold candidate_score.
  destruct (str_eq c default_openssl), (fs_isfile f _), (fs_isdir f _); lia.
Qed.

Lemma existing_candidates_In (c : string) :
  In c (existing_candidates f default_openssl)
  <-> In c (openssl_list default_openssl) /\ fs_isdir f c = true.
Proof.
  unfold existing_candidates.
  change (_list_dedupe String.eqb) with (dedupe_from String.eqb []).
  rewrite (dedupe_from_In string String.eqb String.eqb_eq), filter_In. simpl. tauto.
Qed.

End ScoreFacts.

(** What [_rank_openssl_dir] computes: the existing candidates with their
    scores, after filesystem queries only and with the state as it was. *)
Lemma rank_openssl_dir_run (env : environment) (default_openssl : option string)
    (s : state) :
  exists t,
    _rank_openssl_dir env default_openssl s
    = (t, s,
       Ret (scored env (fs s) default_openssl
              (existing_candidates (fs s) default_openssl)))
    /\ forallb is_query t = true.
Proof.
  unfold _rank_openssl_dir.
  destruct (rank_loop_run env default_openssl (openssl_list default_openssl) [] s)
    as [t [E Q]].
  exists t. split; [|assumption]. rewrite E.
  change (@nil (string * Z)) with (scored env (fs s) default_openssl []).
  now rewrite rank_fold_scored.
Qed.

(** C1: every candidate that is a directory gets the score 1 (system
    default) + 4 ([cert.pem] is a file in it) + 2 ([certs] is a directory
    in it); the scores lie between 0 and 7; a candidate that is not a
    directory, and any path that is not a candidate, gets no score. *)
Theorem rank_openssl_dir_scores (env : environment)
    (default_openssl : option string) (s : state) :
  exists t openssl_rank,
    _rank_openssl_dir env default_openssl s = (t, s, Ret openssl_rank)
    /\ (forall c, In c (openssl_list default_openssl) ->
          fs_isdir (fs s) c = true ->
          get c openssl_rank
          = Some ((if str_eq c default_openssl then 1 else 0)
                  + (if fs_isfile (fs s) (path_join env c "cert.pem") then 4 else 0)
                  + (if fs_isdir (fs s) (path_join env c "certs") then 2 else 0)))
    /\ (forall c v, get c openssl_rank = Some v ->
          0 <= v <= 7 /\ In c (openssl_list default_openssl)
          /\ fs_isdir (fs s) c = true)
    /\ (forall c, fs_isdir (fs s) c = false -> get c openssl_rank = None).
Proof.
  destruct (rank_openssl_dir_run env default_openssl s) as [t [E _]].
  exists t, (scored env (fs s) default_openssl
               (existing_candidates (fs s) default_openssl)).
  split; [exact E|]. split; [|split].
  - intros c Hc Hd. rewrite get_scored.
    assert (P : py_in String.eqb c (existing_candidates (fs s) default_openssl) = true).
    { apply (py_in_In string String.eqb String.eqb_eq), existing_candidates_In. tauto. }
    now rewrite P.
  - intros c v H. rewrite get_scored in H.
    destruct (py_in _ _ _) eqn:P; [|discriminate].
    apply (py_in_In string String.eqb String.eqb_eq), existing_candidates_In in P.
    inversion H. split; [apply candidate_score_range | exact P].
  - intros c Hc. rewrite get_scored.
    destruct (py_in _ _ _) eqn:P; [|reflexivity].
    apply (py_in_In string String.eqb String.eqb_eq), existing_candidates_In in P.
    destruct P as [_ P]. congruence.
Qed.

(** ** The choice of the best directory *)

Lemma fold_max_is_max (l : list Z) (x : Z) :
  is_max (fold_left Z.max l x) (x :: l).
Proof.
  revert x. induction l as [|y l IH]; intros x; simpl.
  - split; [now left|]. intros v [<-|[]]. lia.
  - destruct (IH (Z.max x y)) as [Hin Hub]. split.
    + destruct Hin as [E|Hin].
      * rewrite <- E. destruct (Z.max_spec x y) as [[_ ->]|[_ ->]]; simpl; auto.
      * simpl. auto.
    + pose proof (Hub (Z.max x y) (or_introl eq_refl)) as Hxy.
      intros v [E|[E|Hv]]; [subst v; lia | subst v; lia |].
      apply Hub. now right.
Qed.

Lemma max_of_is_max (l : list Z) (m : Z) : max_of l = Some m -> is_max m l.
Proof.
  destruct l as [|x l]; simpl; [discriminate|].
  intros H. inversion H. apply fold_max_is_max.
Qed.

Lemma is_max_unique (l : list Z) (m m' : Z) : is_max m l -> is_max m' l -> m = m'.
Proof.
  intros [Hin Hub] [Hin' Hub']. specialize (Hub _ Hin'). specialize (Hub' _ Hin). lia.
Qed.

Lemma keys_at_In (m : Z) (d : dict) (k : string) :
  In k (keys_at m d) <-> In (k, m) d.
Proof.
  unfold keys_at, items. rewrite in_map_iff. split.
  - intros [[k' v] [E H]]. apply filter_In in H. simpl in *.
    destruct H as [H Ev]. apply Z.eqb_eq in Ev. now subst.
  - intros H. exists (k, m). split; [reflexivity|].
    apply filter_In. split; [assumption | apply Z.eqb_refl].
Qed.

Lemma keys_at_max_nonempty (m : Z) (d : dict) :
  is_max m (values d) -> keys_at m d <> [].
Proof.
  intros [Hin _] E. unfold values in Hin. apply in_map_iff in Hin.
  destruct Hin as [[k v] [Ev Hin]]. simpl in Ev. subst v.
  apply keys_at_In in Hin. rewrite E in Hin. destruct Hin.
Qed.

(** A run of [_analyze_ranks] on a dictionary that is not empty. *)
Lemma analyze_ranks_run (openssl_rank : dict) (s : state) :
  openssl_rank <> [] ->
  exists max_value first others,
    max_of (values openssl_rank) = Some max_value
    /\ keys_at max_value openssl_rank = first :: others
    /\ _analyze_ranks openssl_rank s
       = (match others with
          | [] => []
          | _ :: _ => ambiguity_report (first :: others)
          end,
          s,
          Ret (Some first, fst (flags_of max_value), snd (flags_of max_value))).
Proof.
  intros Hne. destruct openssl_rank as [|kv rest]; [congruence|].
  destruct (max_of (values (kv :: rest))) as [m|] eqn:Hmax; [|discriminate].
  pose proof (keys_at_max_nonempty m (kv :: rest) (max_of_is_max _ _ Hmax)) as Hk.
  destruct (keys_at m (kv :: rest)) as [|first others] eqn:Ek; [congruence|].
  exists m, first, others. split; [reflexivity|]. split; [exact Ek|].
  unfold _analyze_ranks. rewrite Hmax. unfold keys_at in Ek. rewrite Ek.
  unfold flags_of, ambiguity_report, bind, ret, print, print_list, emit.
  destruct others as [|o os].
  - simpl. destruct (6 <=? m), (4 <=? m), (2 <=? m); reflexivity.
  - assert (L : (1 <? Z.of_nat (length (first :: o :: os))) = true).
    { apply Z.ltb_lt. simpl length. lia. }
    rewrite L. destruct (6 <=? m), (4 <=? m), (2 <=? m); reflexivity.
Qed.

Lemma analyze_ranks_empty (s : state) :
  _analyze_ranks [] s = ([], s, Ret (None, 0, 0)).
Proof. reflexivity. Qed.

Lemma ambiguity_report_output (l : list string) :
  forallb is_output (ambiguity_report l) = true.
Proof. reflexivity. Qed.

Section BestFacts.

Variable env : environment.
Variable default_openssl : option string.
Variable f : filesystem.

Lemma values_scored (l : list string) :
  values (scored env f default_openssl l)
  = map (candidate_score env f default_openssl) l.
Proof. unfold values, scored. now rewrite map_map. Qed.

Lemma keys_at_scored (m : Z) (l : list string) :
  keys_at m (scored env f default_openssl l)
  = filter (fun c => candidate_score env f default_openssl c =? m) l.
Proof.
  unfold keys_at, items, scored. induction l as [|c l IH]; simpl; [reflexivity|].
  destruct (candidate_score env f default_openssl c =? m); simpl; now rewrite IH.
Qed.

(** The greatest score among the existing candidates. *)
Lemma is_max_scored (c1 : string) :
  In c1 (openssl_list default_openssl) ->
  fs_isdir f c1 = true ->
  (forall c, In c (openssl_list default_openssl) -> fs_isdir f c = true ->
     candidate_score env f default_openssl c
     <= candidate_score env f default_openssl c1) ->
  is_max (candidate_score env f default_openssl c1)
    (values (scored env f default_openssl (existing_candidates f default_openssl))).
Proof.
  intros Hin Hdir Hub. rewrite values_scored. split.
  - apply in_map, existing_candidates_In. tauto.
  - intros v Hv. apply in_map_iff in Hv. destruct Hv as [c [<- Hc]].
    apply existing_candidates_In in Hc. now apply Hub.
Qed.

End BestFacts.

Lemma filter_both {A} (p q : A -> bool) (l : list A) :
  filter q (filter p l) = filter (fun x => p x && q x) l.
Proof.
  induction l as [|x l IH]; simpl; [reflexivity|].
  destruct (p x); simpl; [destruct (q x)|]; now rewrite IH.
Qed.

(** The first element a filter keeps is the first element of the list
    that passes the test. *)
Lemma filter_head_position {A} (p : A -> bool) (l : list A) (x : A) (r : list A) :
  filter p l = x :: r ->
  exists i, nth_error l i = Some x
            /\ forall j c, (j < i)%nat -> nth_error l j = Some c -> p c = false.
Proof.
  induction l as [|a l IH]; simpl; [discriminate|].
  destruct (p a) eqn:Pa.
  - intros E. inversion E. subst. exists O. split; [reflexivity|]. intros j c Hj. lia.
  - intros E. destruct (IH E) as [i [Hi Hbefore]]. exists (S i). split; [exact Hi|].
    intros [|j] c Hj Hc; simpl in Hc.
    + now inversion Hc; subst.
    + apply (Hbefore j); [lia | assumption].
Qed.

Lemma list_dedupe_head {A} (eqb : A -> A -> bool) (l : list A) (x : A) (r : list A) :
  (forall a b, eqb a b = true <-> a = b) ->
  _list_dedupe eqb l = x :: r -> exists r', l = x :: r'.
Proof.
  intros eqb_spec. destruct l as [|y l]; [discriminate|].
  change (_list_dedupe eqb (y :: l)) with (dedupe_from eqb [y] l).
  destruct (dedupe_from_prefix A eqb l [y]) as [w E]. rewrite E. simpl.
  intros H. inversion H. now exists l.
Qed.

(** C2: on a dictionary that is not empty, the two flags follow the
    table of thresholds of the greatest score (6, 4, 2); a system default
    that is a directory with [cert.pem] and [certs] scores 7, is returned
    and has both flags set. *)
Theorem analyze_ranks_threshold_table (env : environment) (s : state) :
  (forall openssl_rank, openssl_rank <> [] ->
     exists t max_value first cert_file cert_dir,
       _analyze_ranks openssl_rank s = (t, s, Ret (Some first, cert_file, cert_dir))
       /\ is_max max_value (values openssl_rank)
       /\ (6 <= max_value -> cert_file = 1 /\ cert_dir = 1)
       /\ (4 <= max_value < 6 -> cert_file = 1 /\ cert_dir = 0)
       /\ (2 <= max_value < 4 -> cert_file = 0 /\ cert_dir = 1)
       /\ (max_value < 2 -> cert_file = 0 /\ cert_dir = 0))
  /\ (forall d, d <> "" ->
        fs_isdir (fs s) d = true ->
        fs_isfile (fs s) (path_join env d "cert.pem") = true ->
        fs_isdir (fs s) (path_join env d "certs") = true ->
        exists t openssl_rank t',
          _rank_openssl_dir env (Some d) s = (t, s, Ret openssl_rank)
          /\ get d openssl_rank = Some 7
          /\ _analyze_ranks openssl_rank s = (t', s, Ret (Some d, 1, 1))).
Proof.
  split.
  - intros openssl_rank Hne.
    destruct (analyze_ranks_run openssl_rank s Hne) as [m [first [others [Hm [_ E]]]]].
    eexists _, m, first, _, _. split; [exact E|].
    split; [now apply max_of_is_max|].
    unfold flags_of.
    destruct (Z.leb_spec 6 m), (Z.leb_spec 4 m), (Z.leb_spec 2 m); simpl;
      repeat split; intros; try reflexivity; lia.
  - intros d Hd Hdir Hpem Hcerts.
    destruct (rank_openssl_dir_run env (Some d) s) as [t [E _]].
    assert (Hlist : openssl_list (Some d) = d :: _DEFAULT_OPENSSLDIRS).
    { unfold openssl_list, truthy. apply String.eqb_neq in Hd. now rewrite Hd. }
    assert (Hscore : candidate_score env (fs s) (Some d) d = 7).
    { unfold candidate_score, str_eq. now rewrite String.eqb_refl, Hpem, Hcerts. }
    assert (Hex : exists w, existing_candidates (fs s) (Some d) = d :: w).
    { unfold existing_candidates. rewrite Hlist. simpl filter. rewrite Hdir.
      change (_list_dedupe String.eqb (d :: filter (fs_isdir (fs s)) _DEFAULT_OPENSSLDIRS))
        with (dedupe_from String.eqb [d] (filter (fs_isdir (fs s)) _DEFAULT_OPENSSLDIRS)).
      destruct (dedupe_from_prefix string String.eqb
                  (filter (fs_isdir (fs s)) _DEFAULT_OPENSSLDIRS) [d]) as [w Ew].
      exists w. exact Ew. }
    destruct Hex as [w Hex].
    set (rank := scored env (fs s) (Some d) (existing_candidates (fs s) (Some d))) in *.
    assert (Hmax : is_max 7 (values rank)).
    { unfold rank. rewrite values_scored, Hex. split.
      - simpl. left. exact Hscore.
      - intros v Hv. apply in_map_iff in Hv. destruct Hv as [c [<- _]].
        apply candidate_score_range. }
    assert (Hne : rank <> []).
    { unfold rank. rewrite Hex. discriminate. }
    destruct (analyze_ranks_run rank s Hne) as [m [first [others [Hm [Hk Ea]]]]].
    assert (m = 7) by (eapply is_max_unique; [apply max_of_is_max; eassumption | exact Hmax]).
    subst m.
    assert (first = d).
    { unfold rank in Hk. rewrite keys_at_scored, Hex in Hk. simpl in Hk.
      rewrite Hscore in Hk. simpl in Hk. now inversion Hk. }
    subst first.
    exists t, rank. eexists. split; [exact E|]. split; [|exact Ea].
    unfold rank. rewrite get_scored, Hex. simpl. rewrite String.eqb_refl. simpl.
    now rewrite Hscore.
Qed.

(** The table at work on a Debian filesystem, where the default reported
    by the tool holds both [cert.pem] and [certs]. *)
Lemma analyze_ranks_threshold_table_debian :
  exists t openssl_rank t',
    _rank_openssl_dir no_openssl_machine (Some "/usr/lib/ssl") (boot debian_fs)
    = (t, boot debian_fs, Ret openssl_rank)
    /\ get "/usr/lib/ssl" openssl_rank = Some 7
    /\ _analyze_ranks openssl_rank (boot debian_fs)
       = (t', boot debian_fs, Ret (Some "/usr/lib/ssl", 1, 1)).
Proof.
  apply (proj2 (analyze_ranks_threshold_table no_openssl_machine (boot debian_fs))
           "/usr/lib/ssl"); [discriminate | reflexivity | reflexivity | reflexivity].
Defined.

(** C5, as the code has it: the cert-file flag is set exactly when the
    greatest score is at least 4; the cert-directory flag is set exactly
    when the greatest score is at least 6 or lies in the band from 2 to 3;
    on an empty dictionary both are clear. *)
Theorem analyze_ranks_flags (s : state) (openssl_rank : dict) :
  exists t dir cert_file cert_dir,
    _analyze_ranks openssl_rank s = (t, s, Ret (dir, cert_file, cert_dir))
    /\ (cert_file = 0 \/ cert_file = 1)
    /\ (cert_dir = 0 \/ cert_dir = 1)
    /\ (openssl_rank = [] -> dir = None /\ cert_file = 0 /\ cert_dir = 0)
    /\ (forall max_value, is_max max_value (values openssl_rank) ->
          (cert_file = 1 <-> 4 <= max_value)
          /\ (cert_dir = 1 <-> 6 <= max_value \/ 2 <= max_value < 4)).
Proof.
  destruct openssl_rank as [|kv rest].
  - exists [], None, 0, 0. split; [reflexivity|]. repeat split; auto.
    + destruct H as [[] _].
    + destruct H as [[] _].
    + destruct H as [[] _].
    + destruct H as [[] _].
  - assert (Hne : kv :: rest <> []) by discriminate.
    destruct (analyze_ranks_run (kv :: rest) s Hne) as [m [first [others [Hm [_ E]]]]].
    eexists _, (Some first), _, _. split; [exact E|].
    apply max_of_is_max in Hm.
    assert (T : forall max_value, is_max max_value (values (kv :: rest)) -> max_value = m).
    { intros m' H'. eapply is_max_unique; eassumption. }
    unfold flags_of.
    destruct (Z.leb_spec 6 m), (Z.leb_spec 4 m), (Z.leb_spec 2 m); simpl;
      (split; [auto|]); (split; [auto|]); (split; [discriminate|]);
      intros m' H'; apply T in H'; subst m'; split; split; intros; try lia.
Qed.

(** The cert-directory flag is not set from 2 upwards: where [cert.pem]
    is there and [certs] is not, the greatest score is 4 and the flag is
    clear. *)
Lemma cert_dir_flag_counterexample :
  value_of (_rank_openssl_dir no_openssl_machine None (boot pem_only_fs))
  = Ret [("/etc/ssl", 4)]
  /\ value_of (_analyze_ranks [("/etc/ssl", 4)] (boot pem_only_fs))
     = Ret (Some "/etc/ssl", 1, 0)
  /\ ~ (forall openssl_rank max_value dir cert_file cert_dir,
          is_max max_value (values openssl_rank) ->
          value_of (_analyze_ranks openssl_rank (boot pem_only_fs))
          = Ret (dir, cert_file, cert_dir) ->
          (cert_file = 1 <-> 4 <= max_value)
          /\ (2 <= max_value -> cert_dir = 1)).
Proof.
  split; [reflexivity|]. split; [reflexivity|].
  intros H.
  destruct (H [("/etc/ssl", 4)] 4 (Some "/etc/ssl") 1 0) as [_ Hdir].
  - split; [now left|]. simpl. intros v [<-|[]]. lia.
  - reflexivity.
  - specialize (Hdir ltac:(lia)). discriminate.
Qed.

(** C3: when two distinct candidates that are directories share the
    greatest score, [_analyze_ranks] prints the list of all the
    candidates with that score, each once, and returns the first of them,
    which is the earliest entry of the candidate list (the system default
    when there is one, then [_DEFAULT_OPENSSLDIRS] in its order) that is
    a directory with that score. *)
Theorem analyze_ranks_tie (env : environment) (default_openssl : option string)
    (s : state) (c1 c2 : string) :
  In c1 (openssl_list default_openssl) ->
  In c2 (openssl_list default_openssl) ->
  fs_isdir (fs s) c1 = true ->
  fs_isdir (fs s) c2 = true ->
  c1 <> c2 ->
  candidate_score env (fs s) default_openssl c2
  = candidate_score env (fs s) default_openssl c1 ->
  (forall c, In c (openssl_list default_openssl) -> fs_isdir (fs s) c = true ->
     candidate_score env (fs s) default_openssl c
     <= candidate_score env (fs s) default_openssl c1) ->
  exists t openssl_rank t' tied first cert_file cert_dir,
    _rank_openssl_dir env default_openssl s = (t, s, Ret openssl_rank)
    /\ _analyze_ranks openssl_rank s = (t', s, Ret (Some first, cert_file, cert_dir))
    /\ In (StdoutList tied) t'
    /\ NoDup tied
    /\ (forall c, In c tied <->
          In c (openssl_list default_openssl) /\ fs_isdir (fs s) c = true
          /\ candidate_score env (fs s) default_openssl c
             = candidate_score env (fs s) default_openssl c1)
    /\ hd_error tied = Some first
    /\ (exists i,
          nth_error (openssl_list default_openssl) i = Some first
          /\ forall j c, (j < i)%nat ->
               nth_error (openssl_list default_openssl) j = Some c ->
               ~ (fs_isdir (fs s) c = true
                  /\ candidate_score env (fs s) default_openssl c
                     = candidate_score env (fs s) default_openssl c1))
    /\ (forall d, default_openssl = Some d -> d <> "" ->
          openssl_list default_openssl = d :: _DEFAULT_OPENSSLDIRS)
    /\ (default_openssl = None -> openssl_list default_openssl = _DEFAULT_OPENSSLDIRS).
Proof.
  intros Hin1 Hin2 Hd1 Hd2 Hne Heq Hub.
  set (score := candidate_score env (fs s) default_openssl) in *.
  set (m := score c1) in *.
  destruct (rank_openssl_dir_run env default_openssl s) as [t [E _]].
  set (rank := scored env (fs s) default_openssl
                 (existing_candidates (fs s) default_openssl)) in *.
  pose proof (is_max_scored env default_openssl (fs s) c1 Hin1 Hd1 Hub) as Hmax.
  fold score m rank in Hmax.
  assert (Hrank : rank <> []).
  { intros Hnil. destruct Hmax as [Hin _]. rewrite Hnil in Hin. destruct Hin. }
  destruct (analyze_ranks_run rank s Hrank) as [m' [first [others [Hm [Hk Ea]]]]].
  assert (m' = m) by (eapply is_max_unique; [apply max_of_is_max; eassumption | exact Hmax]).
  subst m'.
  (* the tied paths, as a filter of the candidate list *)
  assert (Htied : first :: others
                  = _list_dedupe String.eqb
                      (filter (fun c => fs_isdir (fs s) c && (score c =? m))
                         (openssl_list default_openssl))).
  { rewrite <- Hk. unfold rank. rewrite keys_at_scored. unfold existing_candidates.
    change (_list_dedupe String.eqb) with (dedupe_from String.eqb []).
    rewrite (dedupe_from_filter string String.eqb String.eqb_eq). simpl filter at 1.
    now rewrite filter_both. }
  assert (Hmem : forall c, In c (first :: others) <->
                   In c (openssl_list default_openssl) /\ fs_isdir (fs s) c = true
                   /\ score c = m).
  { intros c. rewrite <- Hk. unfold rank. rewrite keys_at_scored, filter_In.
    rewrite existing_candidates_In, Z.eqb_eq. tauto. }
  assert (Hnd : NoDup (first :: others)).
  { rewrite <- Hk. unfold rank. rewrite keys_at_scored. apply NoDup_filter.
    apply (dedupe_from_NoDup string String.eqb String.eqb_eq). constructor. }
  assert (Hothers : others <> []).
  { intros Hnil. rewrite Hnil in Hmem.
    assert (H1 : In c1 [first]) by (apply Hmem; auto).
    assert (H2 : In c2 [first]) by (apply Hmem; auto).
    simpl in H1, H2. destruct H1 as [H1|[]], H2 as [H2|[]]. congruence. }
  exists t, rank, (ambiguity_report (first :: others)), (first :: others), first.
  eexists _, _. split; [exact E|]. split.
  { rewrite Ea. destruct others; [congruence | reflexivity]. }
  split; [simpl; auto|]. split; [exact Hnd|]. split; [exact Hmem|].
  split; [reflexivity|]. split; [|split].
  - destruct (list_dedupe_head String.eqb _ first others String.eqb_eq (eq_sym Htied))
      as [r' Hr'].
    destruct (filter_head_position _ _ _ _ Hr') as [i [Hi Hbefore]].
    exists i. split; [exact Hi|]. intros j c Hj Hc [Hdir Hsc].
    specialize (Hbefore j c Hj Hc). simpl in Hbefore.
    rewrite Hdir in Hbefore. apply Z.eqb_eq in Hsc. simpl in Hbefore. congruence.
  - intros d -> Hd. unfold openssl_list, truthy.
    apply String.eqb_neq in Hd. now rewrite Hd.
  - intros ->. reflexivity.
Qed.

(** A tie at work: [/etc/pki/tls] and [/etc/ssl] both hold only a
    [certs] directory. *)
Lemma analyze_ranks_tie_sample :
  exists t openssl_rank t' tied first cert_file cert_dir,
    _rank_openssl_dir no_openssl_machine None (boot tied_fs)
    = (t, boot tied_fs, Ret openssl_rank)
    /\ _analyze_ranks openssl_rank (boot tied_fs)
       = (t', boot tied_fs, Ret (Some first, cert_file, cert_dir))
    /\ In (StdoutList tied) t'
    /\ NoDup tied
    /\ (forall c, In c tied <->
          In c (openssl_list None) /\ fs_isdir (fs (boot tied_fs)) c = true
          /\ candidate_score no_openssl_machine (fs (boot tied_fs)) None c
             = candidate_score no_openssl_machine (fs (boot tied_fs)) None "/etc/pki/tls")
    /\ hd_error tied = Some first
    /\ (exists i,
          nth_error (openssl_list None) i = Some first
          /\ forall j c, (j < i)%nat ->
               nth_error (openssl_list None) j = Some c ->
               ~ (fs_isdir (fs (boot tied_fs)) c = true
                  /\ candidate_score no_openssl_machine (fs (boot tied_fs)) None c
                     = candidate_score no_openssl_machine (fs (boot tied_fs)) None
                         "/etc/pki/tls"))
    /\ (forall d, @None string = Some d -> d <> "" ->
          openssl_list None = d :: _DEFAULT_OPENSSLDIRS)
    /\ (@None string = None -> openssl_list None = _DEFAULT_OPENSSLDIRS).
Proof.
  apply (analyze_ranks_tie no_openssl_machine None (boot tied_fs)
           "/etc/pki/tls" "/etc/ssl").
  - simpl. tauto.
  - simpl. tauto.
  - reflexivity.
  - reflexivity.
  - discriminate.
  - reflexivity.
  - intros c Hc. simpl in Hc.
    destruct Hc as [<-|[<-|[<-|[<-|[<-|[<-|[]]]]]]]; vm_compute; congruence.
Defined.

(** ** The advisory text *)

Lemma get_default_openssldir_state (env : environment) (s : state) :
  exists t r, _get_default_openssldir env s = (t, s, r).
Proof.
  unfold _get_default_openssldir, bind, try_except, subprocess_check_output, except, ret.
  destruct (check_output env _) as [output|e];
    cbn -[nth_error PyStr.split PyStr.str_of_bytes].
  - destruct (@nth_error string _ 1); eexists _, _; reflexivity.
  - destruct (is_OSError e || is_CalledProcessError e); eexists _, _; reflexivity.
Qed.

Lemma existing_candidates_none (f : filesystem) (default_openssl : option string) :
  (forall c, In c (openssl_list default_openssl) -> fs_isdir f c = false) ->
  existing_candidates f default_openssl = [].
Proof.
  intros H. destruct (existing_candidates f default_openssl) as [|c l] eqn:E;
    [reflexivity|].
  assert (Hc : In c (existing_candidates f default_openssl)) by (rewrite E; now left).
  apply existing_candidates_In in Hc. destruct Hc as [Hin Hd].
  rewrite (H c Hin) in Hd. discriminate.
Qed.

(** Once [_get_default_openssldir] has returned, [_get_openssl_text]
    returns three strings, and the message of failure when the ranker
    found nothing. *)
Lemma get_openssl_text_run (env : environment) (s : state)
    (t0 : list event) (default_openssl : option string) :
  _get_default_openssldir env s = (t0, s, Ret default_openssl) ->
  exists t text,
    _get_openssl_text env s = (t, s, Ret text)
    /\ (existing_candidates (fs s) default_openssl = [] ->
        text = ("Openssl directory not found in an expected location.", "", "")).
Proof.
  intros E0.
  destruct (rank_openssl_dir_run env default_openssl s) as [t1 [E1 _]].
  unfold _get_openssl_text, bind. rewrite E0, E1.
  destruct (scored env (fs s) default_openssl
              (existing_candidates (fs s) default_openssl)) as [|kv rest] eqn:Er.
  - rewrite analyze_ranks_empty. simpl. eexists _, _. split; reflexivity.
  - assert (Hne : kv :: rest <> []) by discriminate.
    destruct (analyze_ranks_run (kv :: rest) s Hne) as [m [first [others [_ [_ Ea]]]]].
    rewrite Ea.
    assert (Hex : existing_candidates (fs s) default_openssl <> []).
    { intros Hnil. rewrite Hnil in Er. discriminate. }
    destruct (truthy (Some first)); simpl; eexists _, _;
      (split; [reflexivity | intros Hnil; contradiction]).
Qed.

(** C4: on an empty dictionary of scores the ranker answers "not found"
    with both flags clear; when the [openssl] tool cannot be run,
    [_get_default_openssldir] returns [None] and [_get_openssl_text]
    returns its three strings all the same; when no candidate is a
    directory the three strings are the message of failure and two empty
    strings. *)
Theorem advisory_lookup_never_fatal (env : environment) (s : state) :
  _analyze_ranks [] s = ([], s, Ret (None, 0, 0))
  /\ (forall e,
        check_output env ["openssl"; "version"; "-d"] = Raise e ->
        (is_OSError e || is_CalledProcessError e) = true ->
        value_of (_get_default_openssldir env s) = Ret None
        /\ exists text, value_of (_get_openssl_text env s) = Ret text)
  /\ (forall default_openssl,
        value_of (_get_default_openssldir env s) = Ret default_openssl ->
        (forall c, In c (openssl_list default_openssl) -> fs_isdir (fs s) c = false) ->
        value_of (_rank_openssl_dir env default_openssl s) = Ret []
        /\ value_of (_get_openssl_text env s)
           = Ret ("Openssl directory not found in an expected location.", "", "")).
Proof.
  split; [reflexivity|]. split.
  - intros e He Hclass.
    assert (E0 : _get_default_openssldir env s
                 = ([Spawn ["openssl"; "version"; "-d"]], s, Ret None)).
    { unfold _get_default_openssldir, bind, try_except, subprocess_check_output,
        except, ret. rewrite He. simpl. rewrite Hclass. reflexivity. }
    split; [now rewrite E0|].
    destruct (get_openssl_text_run env s _ None E0) as [t [text [E _]]].
    exists text. now rewrite E.
  - intros default_openssl Hd Hnone.
    destruct (get_default_openssldir_state env s) as [t0 [r E0]].
    rewrite E0 in Hd. simpl in Hd. subst r.
    pose proof (existing_candidates_none (fs s) default_openssl Hnone) as Hex.
    destruct (rank_openssl_dir_run env default_openssl s) as [t1 [E1 _]].
    destruct (get_openssl_text_run env s _ default_openssl E0) as [t [text [E Htext]]].
    rewrite E1, E, Hex. simpl. split; [reflexivity|]. now rewrite (Htext Hex).
Qed.

(** The advisory text without an [openssl] tool and without any candidate
    directory. *)
Lemma advisory_lookup_never_fatal_sample :
  value_of (_rank_openssl_dir no_openssl_machine None (boot bare_fs)) = Ret []
  /\ value_of (_get_openssl_text no_openssl_machine (boot bare_fs))
     = Ret ("Openssl directory not found in an expected location.", "", "").
Proof.
  apply (proj2 (proj2 (advisory_lookup_never_fatal no_openssl_machine (boot bare_fs)))
           None).
  - reflexivity.
  - intros c Hc. simpl in Hc.
    destruct Hc as [<-|[<-|[<-|[<-|[<-|[<-|[]]]]]]]; reflexivity.
Defined.

(** ** Frame *)

Lemma query_not_mutation (t : list event) :
  forallb is_query t = true -> forallb (fun e => negb (mutates e)) t = true.
Proof.
  rewrite !forallb_forall. intros H e He. specialize (H e He).
  destruct e; simpl in *; congruence.
Qed.

Lemma output_not_mutation (t : list event) :
  forallb is_output t = true -> forallb (fun e => negb (mutates e)) t = true.
Proof.
  rewrite !forallb_forall. intros H e He. specialize (H e He).
  destruct e; simpl in *; congruence.
Qed.

(** C8: for every machine, default and state, [_rank_openssl_dir]
    followed by [_analyze_ranks] returns a triple, after events that are
    filesystem queries and writes to standard output only, none of which
    is a mutation, and with the state (the filesystem with it) as it
    was; on an empty dictionary the triple is the "not found" one. *)
Theorem ranking_read_only_total (env : environment)
    (default_openssl : option string) (s : state) :
  exists t openssl_rank t' best,
    _rank_openssl_dir env default_openssl s = (t, s, Ret openssl_rank)
    /\ _analyze_ranks openssl_rank s = (t', s, Ret best)
    /\ (r <- _rank_openssl_dir env default_openssl ;; _analyze_ranks r) s
       = (t ++ t', s, Ret best)
    /\ forallb is_query t = true
    /\ forallb is_output t' = true
    /\ forallb (fun e => negb (mutates e)) (t ++ t') = true
    /\ (openssl_rank = [] -> best = (None, 0, 0)).
Proof.
  destruct (rank_openssl_dir_run env default_openssl s) as [t [E Q]].
  set (rank := scored env (fs s) default_openssl
                 (existing_candidates (fs s) default_openssl)) in *.
  assert (Ha : exists t' best,
             _analyze_ranks rank s = (t', s, Ret best)
             /\ forallb is_output t' = true
             /\ (rank = [] -> best = (None, 0, 0))).
  { destruct rank as [|kv rest] eqn:Er.
    - exists [], (None, 0, 0). repeat split.
    - assert (Hne : kv :: rest <> []) by discriminate.
      destruct (analyze_ranks_run (kv :: rest) s Hne) as [m [first [others [_ [_ Ea]]]]].
      eexists _, _. split; [exact Ea|]. split; [|discriminate].
      destruct others; [reflexivity | apply ambiguity_report_output]. }
  destruct Ha as [t' [best [Ea [O Hempty]]]].
  exists t, rank, t', best. split; [exact E|]. split; [exact Ea|].
  split; [unfold bind; now rewrite E, Ea|].
  split; [exact Q|]. split; [exact O|]. split; [|exact Hempty].
  rewrite forallb_app, (query_not_mutation t Q), (output_not_mutation t' O). reflexivity.
Qed.

(** ** A default that is also in the fixed list *)

(** Dropping from the candidate list the paths whose score the
    dictionary holds already does not change what the loop builds. *)
Lemma rank_fold_skip (env : environment) (default_openssl : option string)
    (f : filesystem) (q : string -> bool) (l : list string) (r : dict) :
  (forall y, q y = false -> fs_isdir f y = true ->
     get y r = Some (candidate_score env f default_openssl y)) ->
  rank_fold env default_openssl f (filter q l) r
  = rank_fold env default_openssl f l r.
Proof.
  revert r. induction l as [|c l IH]; intros r Hr; [reflexivity|].
  unfold rank_fold in *. simpl. destruct (q c) eqn:Qc; simpl.
  - apply IH. intros y Qy Dy. destruct (fs_isdir f c); [|now apply Hr].
    destruct (String.eqb y c) eqn:E.
    + apply String.eqb_eq in E. subst. apply get_set_same.
    + apply String.eqb_neq in E. rewrite get_set_other by assumption. now apply Hr.
  - destruct (fs_isdir f c) eqn:Dc; [|now apply IH].
    rewrite set_same_value by now apply Hr. now apply IH.
Qed.

Lemma rank_fold_cons (env : environment) (default_openssl : option string)
    (f : filesystem) (c : string) (l : list string) (r : dict) :
  rank_fold env default_openssl f (c :: l) r
  = rank_fold env default_openssl f l
      (if fs_isdir f c then set c (candidate_score env f default_openssl c) r else r).
Proof. reflexivity. Qed.

Lemma count_NoDup (d : string) (l : list string) :
  NoDup l ->
  length (filter (String.eqb d) l) = if py_in String.eqb d l then 1%nat else 0%nat.
Proof.
  induction 1 as [|x l Hx Hnd IH]; simpl; [reflexivity|].
  destruct (String.eqb d x) eqn:E; simpl.
  - apply String.eqb_eq in E. subst x. rewrite IH.
    apply (py_in_false string String.eqb String.eqb_eq) in Hx. now rewrite Hx.
  - exact IH.
Qed.

Lemma default_dirs_nonempty (d : string) : In d _DEFAULT_OPENSSLDIRS -> d <> "".
Proof.
  simpl. intros [<-|[<-|[<-|[<-|[<-|[<-|[]]]]]]]; discriminate.
Qed.

(** C10: when the system default is one of [_DEFAULT_OPENSSLDIRS], the
    candidate list names it twice, the dictionary holds one entry for it
    (none when it is not a directory), the second visit leaves a
    dictionary that holds its score as it is, and the dictionary is the
    one the loop builds from the list that names the default once. *)
Theorem rank_openssl_dir_duplicate_default (env : environment) (s : state)
    (d : string) :
  In d _DEFAULT_OPENSSLDIRS ->
  exists t openssl_rank,
    _rank_openssl_dir env (Some d) s = (t, s, Ret openssl_rank)
    /\ openssl_list (Some d) = d :: _DEFAULT_OPENSSLDIRS
    /\ NoDup (keys openssl_rank)
    /\ length (filter (String.eqb d) (keys openssl_rank))
       = (if fs_isdir (fs s) d then 1%nat else 0%nat)
    /\ (forall r,
          (fs_isdir (fs s) d = true ->
           get d r = Some (candidate_score env (fs s) (Some d) d)) ->
          value_of (rank_step env (Some d) d r s) = Ret r)
    /\ value_of
         (for_each (d :: filter (fun c => negb (String.eqb c d)) _DEFAULT_OPENSSLDIRS)
            (rank_step env (Some d)) [] s)
       = Ret openssl_rank.
Proof.
  intros Hin. pose proof (default_dirs_nonempty d Hin) as Hd.
  assert (Hlist : openssl_list (Some d) = d :: _DEFAULT_OPENSSLDIRS).
  { unfold openssl_list, truthy. apply String.eqb_neq in Hd. now rewrite Hd. }
  destruct (rank_openssl_dir_run env (Some d) s) as [t [E _]].
  exists t. eexists. split; [exact E|]. split; [exact Hlist|].
  rewrite keys_scored.
  assert (Hnd : NoDup (existing_candidates (fs s) (Some d))).
  { apply (dedupe_from_NoDup string String.eqb String.eqb_eq). constructor. }
  split; [exact Hnd|]. split; [|split].
  - rewrite (count_NoDup d _ Hnd).
    destruct (py_in String.eqb d (existing_candidates (fs s) (Some d))) eqn:P.
    + apply (py_in_In string String.eqb String.eqb_eq), existing_candidates_In in P.
      destruct P as [_ ->]. reflexivity.
    + destruct (fs_isdir (fs s) d) eqn:D; [|reflexivity].
      apply (py_in_false string String.eqb String.eqb_eq) in P. exfalso. apply P.
      apply existing_candidates_In. rewrite Hlist. split; [now left | exact D].
  - intros r Hr. destruct (rank_step_run env (Some d) d r s) as [t' [E' _]].
    rewrite E'. simpl. destruct (fs_isdir (fs s) d); [|reflexivity].
    now rewrite set_same_value by now apply Hr.
  - destruct (rank_loop_run env (Some d) (openssl_list (Some d)) [] s) as [t1 [E1 _]].
    unfold _rank_openssl_dir in E. rewrite E1 in E.
    assert (Hrank : rank_fold env (Some d) (fs s) (openssl_list (Some d)) []
                    = scored env (fs s) (Some d) (existing_candidates (fs s) (Some d)))
      by congruence.
    destruct (rank_loop_run env (Some d)
                (d :: filter (fun c => negb (String.eqb c d)) _DEFAULT_OPENSSLDIRS) [] s)
      as [t2 [E2 _]].
    rewrite E2. unfold value_of. cbn [snd]. f_equal. rewrite <- Hrank, Hlist.
    rewrite !rank_fold_cons. apply rank_fold_skip. intros y Qy Dy.
    apply negb_false_iff, String.eqb_eq in Qy. subst y. rewrite Dy.
    simpl. now rewrite String.eqb_refl.
Qed.

(** The duplicate at work on a Debian filesystem, whose default
    [/usr/lib/ssl] is in the fixed list. *)
Lemma rank_openssl_dir_duplicate_default_debian :
  exists t openssl_rank,
    _rank_openssl_dir no_openssl_machine (Some "/usr/lib/ssl") (boot debian_fs)
    = (t, boot debian_fs, Ret openssl_rank)
    /\ openssl_list (Some "/usr/lib/ssl") = "/usr/lib/ssl" :: _DEFAULT_OPENSSLDIRS
    /\ NoDup (keys openssl_rank)
    /\ length (filter (String.eqb "/usr/lib/ssl") (keys openssl_rank))
       = (if fs_isdir (fs (boot debian_fs)) "/usr/lib/ssl" then 1%nat else 0%nat)
    /\ (forall r,
          (fs_isdir (fs (boot debian_fs)) "/usr/lib/ssl" = true ->
           get "/usr/lib/ssl" r
           = Some (candidate_score no_openssl_machine (fs (boot debian_fs))
                     (Some "/usr/lib/ssl") "/usr/lib/ssl")) ->
          value_of (rank_step no_openssl_machine (Some "/usr/lib/ssl")
                      "/usr/lib/ssl" r (boot debian_fs)) = Ret r)
    /\ value_of
         (for_each
            ("/usr/lib/ssl"
               :: filter (fun c => negb (String.eqb c "/usr/lib/ssl")) _DEFAULT_OPENSSLDIRS)
            (rank_step no_openssl_machine (Some "/usr/lib/ssl")) [] (boot debian_fs))
       = Ret openssl_rank.
Proof.
  apply (rank_openssl_dir_duplicate_default no_openssl_machine (boot debian_fs)
           "/usr/lib/ssl").
  simpl. tauto.
Defined.

(** ** The installation target *)

Lemma validateInstallDir_run (installDir : string) (s : state) :
  _validateInstallDir installDir s
  = if fs_exists (fs s) installDir then
      if fs_isdir (fs s) installDir then
        ([Stat installDir; Stat installDir], s, Ret tt)
      else
        ([Stat installDir; Stat installDir], s,
         Raise (Error (("cannot install to '" ++ installDir
                          ++ "': exists and is not a directory")%string)))
    else ([Stat installDir], s, Ret tt).
Proof.
  unfold _validateInstallDir, bind, path_exists, path_isdir, ret, raise.
  destruct (fs_exists (fs s) installDir); [|reflexivity].
  destruct (fs_isdir (fs s) installDir); reflexivity.
Qed.

(** C6: [_validateInstallDir] raises exactly when the target exists and
    is not a directory, what it raises is an [Error], and it changes
    nothing; [install] called on such a target stops with an exception
    (that [Error], unless the missing [patchelf] tool ended the run
    before) after events none of which is a mutation and with the state
    as it was: nothing was copied or created. *)
Theorem validate_install_dir_before_mutation (env : environment) (s : state) :
  (forall p,
     (exists e, value_of (_validateInstallDir p s) = Raise e)
     <-> fs_exists (fs s) p = true /\ fs_isdir (fs s) p = false)
  /\ (forall p e, value_of (_validateInstallDir p s) = Raise e ->
        exists msg, e = Error msg)
  /\ (forall p, fs_exists (fs s) p = false \/ fs_isdir (fs s) p = true ->
        value_of (_validateInstallDir p s) = Ret tt)
  /\ (forall p,
        state_of (_validateInstallDir p s) = s
        /\ forallb is_query (trace_of (_validateInstallDir p s)) = true)
  /\ (forall installDir useEnv setRootRunpath registerCOM pathAdditions,
        fs_exists (fs s) (abspath env (expand_norm env installDir)) = true ->
        fs_isdir (fs s) (abspath env (expand_norm env installDir)) = false ->
        exists t e,
          install env installDir useEnv setRootRunpath registerCOM pathAdditions s
          = (t, s, Raise e)
          /\ forallb (fun ev => negb (mutates ev)) t = true
          /\ (setRootRunpath = false \/ which env "patchelf" <> None ->
              exists msg, e = Error msg)).
Proof.
  split; [|split; [|split; [|split]]].
  - intros p. rewrite validateInstallDir_run.
    destruct (fs_exists (fs s) p), (fs_isdir (fs s) p); simpl; split;
      try (intros [e H]; discriminate); try (intros [H1 H2]; discriminate);
      try (intros _; eexists; reflexivity); auto.
  - intros p e. rewrite validateInstallDir_run.
    destruct (fs_exists (fs s) p), (fs_isdir (fs s) p); simpl; try discriminate.
    intros H. inversion H. eexists; reflexivity.
  - intros p H. rewrite validateInstallDir_run.
    destruct (fs_exists (fs s) p), (fs_isdir (fs s) p); simpl; try reflexivity.
    destruct H; discriminate.
  - intros p. rewrite validateInstallDir_run.
    destruct (fs_exists (fs s) p), (fs_isdir (fs s) p); split; reflexivity.
  - intros installDir useEnv setRootRunpath registerCOM pathAdditions Hex Hdir.
    pose proof (validateInstallDir_run (abspath env (expand_norm env installDir)) s) as V.
    rewrite Hex, Hdir in V.
    unfold install, bind, shutil_which, print, emit, raise, ret.
    destruct setRootRunpath; cbv beta iota zeta.
    + destruct (which env "patchelf") eqn:W; cbv beta iota zeta.
      * rewrite V. eexists _, _. split; [reflexivity|]. split; [reflexivity|].
        intros _. eexists; reflexivity.
      * eexists _, _. split; [reflexivity|]. split; [reflexivity|].
        intros [H|H]; [discriminate | congruence].
    + rewrite V. eexists _, _. split; [reflexivity|]. split; [reflexivity|].
      intros _. eexists; reflexivity.
Qed.

(** The validation at work: the target [/opt/python] is a regular file. *)
Lemma validate_install_dir_sample :
  exists t e,
    install no_openssl_machine "/opt/python" false false true true (boot bare_fs)
    = (t, boot bare_fs, Raise e)
    /\ forallb (fun ev => negb (mutates ev)) t = true
    /\ (false = false \/ which no_openssl_machine "patchelf" <> None ->
        exists msg, e = Error msg).
Proof.
  apply (proj2 (proj2 (proj2 (proj2
           (validate_install_dir_before_mutation no_openssl_machine (boot bare_fs)))))
           "/opt/python" false false true true); reflexivity.
Defined.

(** ** The exit status *)

(** C7, as the code has it: an error of the option parser, and an
    [Error] or an [EnvironmentError] that leaves [install] or
    [interactiveInstall], is logged once and makes [main] return 1, the
    exit status of the process; an interrupt that leaves them is caught,
    noted at debug level, and [main] returns [None], exit status 0. *)
Theorem main_exit_status (env : environment) (argv : list string) (s : state) :
  (forall msg,
     getopt env (tl argv) = Raise (GetoptError msg) ->
     main env argv s
     = ([LogError msg; LogError "Try `./install.sh --help'."], s, Ret (Some 1))
     /\ exit_status (value_of (main env argv s)) = 1)
  /\ (forall opts args t0 s0 o t1 s1 e,
        getopt env (tl argv) = Ret (opts, args) ->
        read_options opts default_options s = (t0, s0, Ret (Some o)) ->
        dispatch env o s0 = (t1, s1, Raise e) ->
        ((is_OSError e || is_Error e) = true ->
         exists t2,
           main env argv s = (t0 ++ t1 ++ t2, s1, Ret (Some 1))
           /\ filter is_LogError t2 = [LogError (exn_str e)]
           /\ exit_status (value_of (main env argv s)) = 1)
        /\ (e = KeyboardInterrupt ->
            main env argv s = (t0 ++ t1 ++ [LogDebug "user abort"], s1, Ret None)
            /\ exit_status (value_of (main env argv s)) = 0)).
Proof.
  split.
  - intros msg Hg. unfold main. rewrite Hg. split; reflexivity.
  - intros opts args t0 s0 o t1 s1 e Hg Hr Hd.
    assert (Hmain : main env argv s
                    = let '(t, s', r) := run_install env o s0 in (t0 ++ t, s', r)).
    { unfold main. rewrite Hg. unfold bind. rewrite Hr. reflexivity. }
    assert (Hbody : (dispatch env o ;;; ret None) s0
                    = (t1, s1, @Raise (option Z) e)).
    { unfold bind. now rewrite Hd. }
    split.
    + intros Hclass.
      exists (LogError (exn_str e)
                :: if debug s1 then [Stdout ("" ++ PyStr.nl)%string; Traceback] else []).
      assert (Hrun : run_install env o s0
                     = (t1 ++ LogError (exn_str e)
                          :: (if debug s1
                              then [Stdout ("" ++ PyStr.nl)%string; Traceback] else []),
                        s1, Ret (Some 1))).
      { unfold run_install, try_except. rewrite Hbody.
        unfold or_except, except. rewrite Hclass.
        unfold bind, emit, isEnabledFor_DEBUG, print, ret.
        destruct (debug s1); reflexivity. }
      rewrite Hmain, Hrun. split; [reflexivity|].
      split; [destruct (debug s1); reflexivity | reflexivity].
    + intros ->.
      assert (Hrun : run_install env o s0
                     = (t1 ++ [LogDebug "user abort"], s1, Ret None)).
      { unfold run_install, try_except. rewrite Hbody. reflexivity. }
      rewrite Hmain, Hrun. split; reflexivity.
Qed.

(** An interrupt does not give a status other than 0: the user stops the
    copy of the tree, [install] ends with [KeyboardInterrupt], and [main]
    returns [None], so that the process exits with status 0. *)
Lemma interrupt_exit_status_counterexample :
  value_of (install interrupted_machine "/opt/python" false false true true
              (boot empty_fs))
  = Raise KeyboardInterrupt
  /\ value_of (main interrupted_machine sample_argv (boot empty_fs)) = Ret None
  /\ exit_status (value_of (main interrupted_machine sample_argv (boot empty_fs))) = 0.
Proof. repeat split. Qed.

(** An error of the copy of the tree does not leave [install]: it is
    printed, the installation goes on, and [main] returns [None]. *)
Example copy_error_is_printed :
  In (Stdout ("No space left on device" ++ PyStr.nl)%string)
    (trace_of (main disk_full_machine sample_argv (boot empty_fs)))
  /\ value_of (main disk_full_machine sample_argv (boot empty_fs)) = Ret None.
Proof. split; [vm_compute; tauto | reflexivity]. Qed.

(** The exit status at work: the target given on the command line is a
    regular file. *)
Lemma main_exit_status_sample :
  exists t2,
    main target_machine sample_argv (boot bare_fs)
    = ([] ++ [Chdir;
              Stdout ("Installing ActivePython to '/opt/python'..." ++ PyStr.nl)%string;
              Stat "/opt/python"; Stat "/opt/python"] ++ t2,
       boot bare_fs, Ret (Some 1))
    /\ filter is_LogError t2
       = [LogError
            (exn_str (Error "cannot install to '/opt/python': exists and is not a directory"))]
    /\ exit_status (value_of (main target_machine sample_argv (boot bare_fs))) = 1.
Proof.
  apply (proj1 (proj2 (main_exit_status target_machine sample_argv (boot bare_fs))
                  [("-I", "/opt/python")] [] [] (boot bare_fs)
                  (mkOptions (Some "/opt/python") true true false)
                  _ (boot bare_fs) _ eq_refl eq_refl eq_refl)).
  reflexivity.
Defined.

(** * Further properties *)

(** ** More on the ranker *)

(** X1: on a dictionary that is not empty, [_analyze_ranks] returns the
    first key, in the order of the dictionary, whose value is the greatest
    one; it prints nothing when one key only holds that value, and the
    warning with the list of those keys otherwise. *)
Theorem analyze_ranks_first_max_silent (openssl_rank : dict) (s : state) :
  openssl_rank <> [] ->
  exists t first cert_file cert_dir max_value,
    _analyze_ranks openssl_rank s = (t, s, Ret (Some first, cert_file, cert_dir))
    /\ is_max max_value (values openssl_rank)
    /\ (exists i,
          nth_error openssl_rank i = Some (first, max_value)
          /\ forall j kv, (j < i)%nat -> nth_error openssl_rank j = Some kv ->
               snd kv < max_value)
    /\ (t = [] <-> length (keys_at max_value openssl_rank) = 1%nat)
    /\ (t <> [] -> t = ambiguity_report (keys_at max_value openssl_rank)).
Proof.
  intros Hne.
  destruct (analyze_ranks_run openssl_rank s Hne) as [m [first [others [Hm [Hk E]]]]].
  pose proof (max_of_is_max _ _ Hm) as Hmax.
  eexists _, first, _, _, m. split; [exact E|]. split; [exact Hmax|]. split; [|split].
  - unfold keys_at, items in Hk.
    destruct (filter (fun kv => snd kv =? m) openssl_rank) as [|kv r] eqn:F;
      [discriminate|].
    destruct (filter_head_position _ _ _ _ F) as [i [Hi Hbefore]].
    assert (Hkv : In kv (filter (fun kv => snd kv =? m) openssl_rank))
      by (rewrite F; now left).
    apply filter_In in Hkv. destruct Hkv as [_ Hv]. apply Z.eqb_eq in Hv.
    simpl in Hk. inversion Hk. subst first.
    exists i. split.
    + rewrite Hi. destruct kv as [k v]. simpl in *. now subst.
    + intros j kv' Hj Hn. specialize (Hbefore j kv' Hj Hn). simpl in Hbefore.
      apply Z.eqb_neq in Hbefore.
      destruct Hmax as [_ Hub].
      assert (snd kv' <= m).
      { apply Hub. unfold values. apply in_map. eapply nth_error_In; eassumption. }
      lia.
  - rewrite Hk. destruct others as [|o os]; simpl; split; try reflexivity;
      try discriminate.
  - rewrite Hk. destruct others as [|o os]; [congruence | reflexivity].
Qed.

Lemma analyze_ranks_first_max_silent_sample :
  exists t first cert_file cert_dir max_value,
    _analyze_ranks [("/usr/lib/ssl", 6); ("/etc/ssl", 2)] (boot debian_fs)
    = (t, boot debian_fs, Ret (Some first, cert_file, cert_dir))
    /\ is_max max_value (values [("/usr/lib/ssl", 6); ("/etc/ssl", 2)])
    /\ (exists i,
          nth_error [("/usr/lib/ssl", 6); ("/etc/ssl", 2)] i = Some (first, max_value)
          /\ forall j kv, (j < i)%nat ->
               nth_error [("/usr/lib/ssl", 6); ("/etc/ssl", 2)] j = Some kv ->
               snd kv < max_value)
    /\ (t = [] <-> length (keys_at max_value [("/usr/lib/ssl", 6); ("/etc/ssl", 2)]) = 1%nat)
    /\ (t <> [] -> t = ambiguity_report (keys_at max_value [("/usr/lib/ssl", 6); ("/etc/ssl", 2)])).
Proof.
  apply (analyze_ranks_first_max_silent [("/usr/lib/ssl", 6); ("/etc/ssl", 2)]
           (boot debian_fs)).
  discriminate.
Defined.

Lemma flags_of_score (env : environment) (f : filesystem)
    (default_openssl : option string) (c : string) :
  flags_of (candidate_score env f default_openssl c)
  = (if fs_isfile f (path_join env c "cert.pem") then 1 else 0,
     if fs_isdir f (path_join env c "certs") then 1 else 0).
Proof.
  unfold candidate_score.
  destruct (str_eq c default_openssl), (fs_isfile f _), (fs_isdir f _); reflexivity.
Qed.

Lemma in_scored (env : environment) (f : filesystem)
    (default_openssl : option string) (l : list string) (k : string) (v : Z) :
  In (k, v) (scored env f default_openssl l)
  <-> In k l /\ v = candidate_score env f default_openssl k.
Proof.
  unfold scored. rewrite in_map_iff. split.
  - intros [c [E H]]. inversion E. subst. auto.
  - intros [H ->]. exists k. auto.
Qed.

(** X2: the directory [_rank_openssl_dir] and [_analyze_ranks] choose is a
    candidate that is a directory, with a name that is not empty, and the
    two flags say what it holds: the first is 1 exactly when [cert.pem] is
    a file in it, the second exactly when [certs] is a directory in it;
    no directory is chosen exactly when no candidate is a directory, and
    both flags are then 0. *)
Theorem ranker_flags_match_directory (env : environment)
    (default_openssl : option string) (s : state) :
  exists t openssl_rank t' dir cert_file cert_dir,
    _rank_openssl_dir env default_openssl s = (t, s, Ret openssl_rank)
    /\ _analyze_ranks openssl_rank s = (t', s, Ret (dir, cert_file, cert_dir))
    /\ match dir with
       | Some d =>
           In d (openssl_list default_openssl)
           /\ fs_isdir (fs s) d = true
           /\ d <> ""
           /\ cert_file = (if fs_isfile (fs s) (path_join env d "cert.pem") then 1 else 0)
           /\ cert_dir = (if fs_isdir (fs s) (path_join env d "certs") then 1 else 0)
       | None =>
           (forall c, In c (openssl_list default_openssl) -> fs_isdir (fs s) c = false)
           /\ cert_file = 0 /\ cert_dir = 0
       end.
Proof.
  destruct (rank_openssl_dir_run env default_openssl s) as [t [E _]].
  set (L := existing_candidates (fs s) default_openssl) in *.
  destruct (scored env (fs s) default_openssl L) as [|kv rest] eqn:Er.
  - exists t, [], [], None, 0, 0. split; [exact E|]. split; [reflexivity|].
    split; [|split; reflexivity].
    intros c Hc. destruct (fs_isdir (fs s) c) eqn:D; [|reflexivity].
    assert (In c L) by (apply existing_candidates_In; auto).
    destruct L; [contradiction | discriminate].
  - assert (Hne : kv :: rest <> []) by discriminate.
    destruct (analyze_ranks_run (kv :: rest) s Hne) as [m [first [others [_ [Hk Ea]]]]].
    assert (Hin : In (first, m) (kv :: rest)).
    { apply keys_at_In. rewrite Hk. now left. }
    rewrite <- Er in Hin. apply in_scored in Hin. destruct Hin as [HL ->].
    apply existing_candidates_In in HL. destruct HL as [Hc Hd].
    rewrite flags_of_score in Ea. simpl in Ea.
    exists t, (kv :: rest). eexists _, (Some first), _, _.
    split; [exact E|]. split; [exact Ea|].
    split; [exact Hc|]. split; [exact Hd|]. split; [|split; reflexivity].
    unfold openssl_list in Hc. destruct default_openssl as [d|].
    + destruct (truthy (Some d)) eqn:T.
      * destruct Hc as [<-|Hc]; [|now apply default_dirs_nonempty].
        simpl in T. intros ->. discriminate.
      * now apply default_dirs_nonempty.
    + now apply default_dirs_nonempty.
Qed.

(** X3: once [_get_default_openssldir] has returned and some candidate is
    a directory, [_get_openssl_text] returns the [OPENSSLDIR] line of a
    candidate directory, the [SSL_CERT_FILE] line when that directory
    holds the file [cert.pem] and an empty string otherwise, and the
    [SSL_CERT_DIR] line when it holds the directory [certs] and an empty
    string otherwise; the state is unchanged. *)
Theorem get_openssl_text_lines (env : environment) (s : state)
    (t0 : list event) (default_openssl : option string) (c : string) :
  _get_default_openssldir env s = (t0, s, Ret default_openssl) ->
  In c (openssl_list default_openssl) ->
  fs_isdir (fs s) c = true ->
  exists t dir,
    In dir (openssl_list default_openssl)
    /\ fs_isdir (fs s) dir = true
    /\ _get_openssl_text env s
       = (t, s,
          Ret (("export OPENSSLDIR=" ++ dir)%string,
               (if fs_isfile (fs s) (path_join env dir "cert.pem")
                then ("export SSL_CERT_FILE=" ++ path_join env dir "cert.pem")%string
                else ""),
               (if fs_isdir (fs s) (path_join env dir "certs")
                then ("export SSL_CERT_DIR=" ++ path_join env dir "certs")%string
                else ""))).
Proof.
  intros E0 Hc Hd.
  destruct (ranker_flags_match_directory env default_openssl s)
    as [t1 [rank [t2 [dir [a [b [E1 [E2 H]]]]]]]].
  destruct dir as [d|].
  - destruct H as [Hin [Hdir [Hne [-> ->]]]].
    exists (t0 ++ t1 ++ t2), d. split; [exact Hin|]. split; [exact Hdir|].
    unfold _get_openssl_text, bind. rewrite E0, E1, E2.
    unfold truthy. apply String.eqb_neq in Hne. rewrite Hne. simpl negb. cbv iota.
    unfold ret.
    destruct (fs_isfile (fs s) (path_join env d "cert.pem")),
             (fs_isdir (fs s) (path_join env d "certs")); simpl;
      now rewrite !app_nil_r.
  - destruct H as [Hnone _]. rewrite (Hnone c Hc) in Hd. discriminate.
Qed.

Lemma get_openssl_text_lines_debian :
  exists t dir,
    In dir (openssl_list (Some "/usr/lib/ssl"))
    /\ fs_isdir (fs (boot debian_fs)) dir = true
    /\ _get_openssl_text (posix_machine (Ret debian_tool_output) []) (boot debian_fs)
       = (t, boot debian_fs,
          Ret (("export OPENSSLDIR=" ++ dir)%string,
               (if fs_isfile (fs (boot debian_fs))
                     (path_join (posix_machine (Ret debian_tool_output) []) dir "cert.pem")
                then ("export SSL_CERT_FILE="
                        ++ path_join (posix_machine (Ret debian_tool_output) []) dir
                             "cert.pem")%string
                else ""),
               (if fs_isdir (fs (boot debian_fs))
                     (path_join (posix_machine (Ret debian_tool_output) []) dir "certs")
                then ("export SSL_CERT_DIR="
                        ++ path_join (posix_machine (Ret debian_tool_output) []) dir
                             "certs")%string
                else ""))).
Proof.
  apply (get_openssl_text_lines (posix_machine (Ret debian_tool_output) [])
           (boot debian_fs) [Spawn ["openssl"; "version"; "-d"]]
           (Some "/usr/lib/ssl") "/etc/ssl").
  - reflexivity.
  - simpl. tauto.
  - reflexivity.
Defined.

(** ** The answer of the [openssl] tool *)

Lemma contains_app (c : ascii) (a b : string) :
  PyStr.contains c (a ++ b)%string = PyStr.contains c a || PyStr.contains c b.
Proof.
  induction a as [|x a IH]; simpl; [reflexivity|].
  rewrite IH. now rewrite orb_assoc.
Qed.

Lemma string_app_assoc (a b c : string) :
  ((a ++ b) ++ c)%string = (a ++ (b ++ c))%string.
Proof. induction a as [|x a IH]; simpl; congruence. Qed.

Lemma split_nonempty (sep : ascii) (s : string) :
  exists a r, PyStr.split sep s = a :: r.
Proof.
  induction s as [|x s [a [r IH]]]; simpl.
  - eexists _, _; reflexivity.
  - destruct (Ascii.eqb x sep); [eexists _, _; reflexivity|].
    rewrite IH. eexists _, _; reflexivity.
Qed.

Lemma split_nosep (sep : ascii) (s : string) :
  PyStr.contains sep s = false -> PyStr.split sep s = [s].
Proof.
  induction s as [|x s IH]; simpl; [reflexivity|].
  intros H. apply orb_false_iff in H. destruct H as [Hx Hs].
  rewrite Hx, (IH Hs). reflexivity.
Qed.

Lemma split_app_sep (sep : ascii) (a b : string) :
  PyStr.contains sep a = false ->
  PyStr.split sep (a ++ String sep b)%string = a :: PyStr.split sep b.
Proof.
  induction a as [|x a IH]; simpl.
  - intros _. now rewrite Ascii.eqb_refl.
  - intros H. apply orb_false_iff in H. destruct H as [Hx Ha].
    rewrite Hx, (IH Ha). reflexivity.
Qed.

Lemma split_contains (sep : ascii) (s : string) :
  PyStr.contains sep s = true ->
  exists a b r, PyStr.split sep s = a :: b :: r.
Proof.
  induction s as [|x s IH]; simpl; [discriminate|].
  destruct (Ascii.eqb x sep) eqn:E; simpl.
  - intros _. destruct (split_nonempty sep s) as [b [r Hs]]. rewrite Hs.
    eexists _, _, _; reflexivity.
  - intros H. destruct (IH H) as [a [b [r Hs]]]. rewrite Hs.
    eexists _, _, _; reflexivity.
Qed.

Lemma repr_byte_plain (a : ascii) :
  plain_byte a = true -> PyStr.repr_byte PyStr.squote a = String a EmptyString.
Proof.
  destruct a as [[] [] [] [] [] [] [] []]; intros H; vm_compute in H |- *;
    congruence.
Qed.

Lemma repr_bytes_body_plain (s : string) :
  plain s = true -> PyStr.repr_bytes_body PyStr.squote s = s.
Proof.
  induction s as [|a s IH]; simpl; [reflexivity|].
  intros H. apply andb_true_iff in H. destruct H as [Ha Hs].
  now rewrite (repr_byte_plain a Ha), (IH Hs).
Qed.

Lemma repr_bytes_body_app (q : ascii) (a b : string) :
  PyStr.repr_bytes_body q (a ++ b)%string
  = (PyStr.repr_bytes_body q a ++ PyStr.repr_bytes_body q b)%string.
Proof.
  induction a as [|x a IH]; simpl; [reflexivity|].
  rewrite IH. induction (PyStr.repr_byte q x) as [|y r IHr]; simpl; congruence.
Qed.

Lemma repr_byte_dquote (a : ascii) :
  PyStr.contains PyStr.dquote (PyStr.repr_byte PyStr.squote a)
  = Ascii.eqb a PyStr.dquote.
Proof.
  destruct a as [[] [] [] [] [] [] [] []]; vm_compute; reflexivity.
Qed.

Lemma repr_bytes_body_dquote (s : string) :
  PyStr.contains PyStr.dquote (PyStr.repr_bytes_body PyStr.squote s)
  = PyStr.contains PyStr.dquote s.
Proof.
  induction s as [|a s IH]; simpl; [reflexivity|].
  now rewrite contains_app, repr_byte_dquote, IH.
Qed.

Lemma plain_no_dquote (s : string) :
  plain s = true -> PyStr.contains PyStr.dquote s = false.
Proof.
  induction s as [|a s IH]; simpl; [reflexivity|].
  intros H. apply andb_true_iff in H. destruct H as [Ha Hs]. rewrite (IH Hs).
  destruct a as [[] [] [] [] [] [] [] []]; vm_compute in Ha |- *; congruence.
Qed.

(** The run of [_get_default_openssldir] once the tool has answered. *)
Lemma get_default_openssldir_answer (env : environment) (s : state) (output : string) :
  check_output env ["openssl"; "version"; "-d"] = Ret output ->
  _get_default_openssldir env s
  = ([Spawn ["openssl"; "version"; "-d"]], s,
     match nth_error (PyStr.split PyStr.dquote (PyStr.str_of_bytes output)) 1 with
     | Some d => Ret (Some d)
     | None => Raise IndexError
     end).
Proof.
  intros H.
  unfold _get_default_openssldir, bind, try_except, subprocess_check_output, except, ret.
  rewrite H. cbn -[nth_error PyStr.split PyStr.str_of_bytes].
  destruct (@nth_error string _ 1); reflexivity.
Qed.

(** X4: when the tool prints a text without double quote, then a
    directory between double quotes made of printable characters other
    than quotes and backslash, then anything, [_get_default_openssldir]
    returns that directory. *)
Theorem get_default_openssldir_parses (env : environment) (s : state)
    (prefix dir rest : string) :
  check_output env ["openssl"; "version"; "-d"]
  = Ret (prefix ++ String PyStr.dquote (dir ++ String PyStr.dquote rest))%string ->
  PyStr.contains PyStr.dquote prefix = false ->
  plain dir = true ->
  _get_default_openssldir env s
  = ([Spawn ["openssl"; "version"; "-d"]], s, Ret (Some dir)).
Proof.
  intros Hout Hprefix Hdir.
  rewrite (get_default_openssldir_answer env s _ Hout).
  set (output := (prefix ++ String PyStr.dquote (dir ++ String PyStr.dquote rest))%string).
  assert (Hq : PyStr.contains PyStr.dquote output = true).
  { unfold output. rewrite contains_app. cbn [PyStr.contains].
    rewrite Ascii.eqb_refl. apply orb_true_r. }
  assert (Hstr : PyStr.str_of_bytes output
                 = (("b'" ++ PyStr.repr_bytes_body PyStr.squote prefix)
                      ++ String PyStr.dquote
                           (dir ++ String PyStr.dquote
                                     (PyStr.repr_bytes_body PyStr.squote rest ++ "'")))%string).
  { unfold PyStr.str_of_bytes. rewrite Hq. rewrite andb_false_r.
    unfold output. rewrite repr_bytes_body_app. simpl PyStr.repr_bytes_body.
    rewrite repr_bytes_body_app. simpl PyStr.repr_bytes_body.
    rewrite (repr_bytes_body_plain dir Hdir).
    change (PyStr.repr_byte PyStr.squote PyStr.dquote) with (String PyStr.dquote "").
    simpl. f_equal. f_equal.
    rewrite string_app_assoc. simpl. now rewrite string_app_assoc. }
  rewrite Hstr, split_app_sep.
  - rewrite split_app_sep by now apply plain_no_dquote. reflexivity.
  - simpl. now rewrite repr_bytes_body_dquote.
Qed.

Lemma get_default_openssldir_parses_debian :
  _get_default_openssldir (posix_machine (Ret debian_tool_output) []) (boot debian_fs)
  = ([Spawn ["openssl"; "version"; "-d"]], boot debian_fs, Ret (Some "/usr/lib/ssl")).
Proof.
  apply (get_default_openssldir_parses (posix_machine (Ret debian_tool_output) [])
           (boot debian_fs) "OPENSSLDIR: " "/usr/lib/ssl" PyStr.nl);
    reflexivity.
Defined.

(** X5: when the tool has run, [_get_default_openssldir] either returns
    a string or raises [IndexError]; it raises it exactly when the
    output of the tool holds neither a double nor a single quote. *)
Theorem get_default_openssldir_index_error (env : environment) (s : state)
    (output : string) :
  check_output env ["openssl"; "version"; "-d"] = Ret output ->
  (value_of (_get_default_openssldir env s) = Raise IndexError
   <-> PyStr.contains PyStr.dquote output = false
       /\ PyStr.contains PyStr.squote output = false)
  /\ (value_of (_get_default_openssldir env s) = Raise IndexError
      \/ exists d, value_of (_get_default_openssldir env s) = Ret (Some d)).
Proof.
  intros Hout. rewrite (get_default_openssldir_answer env s _ Hout).
  unfold value_of. cbn [snd].
  destruct (PyStr.contains PyStr.dquote output) eqn:Hd.
  - assert (Hc : PyStr.contains PyStr.dquote (PyStr.str_of_bytes output) = true).
    { unfold PyStr.str_of_bytes. rewrite Hd, andb_false_r. simpl.
      rewrite contains_app, repr_bytes_body_dquote, Hd. reflexivity. }
    destruct (split_contains _ _ Hc) as [a [b [r Hs]]]. rewrite Hs. simpl.
    split; [|right; eexists; reflexivity].
    split; [discriminate | intros [H _]; discriminate].
  - destruct (PyStr.contains PyStr.squote output) eqn:Hq.
    + assert (Hs : exists b r, PyStr.split PyStr.dquote (PyStr.str_of_bytes output)
                               = "b" :: b :: r).
      { unfold PyStr.str_of_bytes. rewrite Hd, Hq. simpl andb. cbv iota.
        change (String "b" (String PyStr.dquote ?x))
          with ("b" ++ String PyStr.dquote x)%string.
        rewrite split_app_sep by reflexivity.
        destruct (split_nonempty PyStr.dquote
                    (PyStr.repr_bytes_body PyStr.dquote output
                       ++ String PyStr.dquote "")%string) as [b [r Hs]].
        rewrite Hs. eexists _, _; reflexivity. }
      destruct Hs as [b [r Hs]]. rewrite Hs. simpl.
      split; [|right; eexists; reflexivity].
      split; [discriminate | intros [_ H]; discriminate].
    + assert (Hs : PyStr.split PyStr.dquote (PyStr.str_of_bytes output)
                   = [PyStr.str_of_bytes output]).
      { apply split_nosep. unfold PyStr.str_of_bytes. rewrite Hd, Hq. simpl.
        rewrite contains_app, repr_bytes_body_dquote, Hd. reflexivity. }
      rewrite Hs. simpl. split; [|now left]. split; auto.
Qed.

Lemma get_default_openssldir_index_error_sample :
  (value_of (_get_default_openssldir version_only_machine (boot debian_fs))
   = Raise IndexError
   <-> PyStr.contains PyStr.dquote "OpenSSL 1.1.1f  31 Mar 2020" = false
       /\ PyStr.contains PyStr.squote "OpenSSL 1.1.1f  31 Mar 2020" = false)
  /\ (value_of (_get_default_openssldir version_only_machine (boot debian_fs))
      = Raise IndexError
      \/ exists d,
           value_of (_get_default_openssldir version_only_machine (boot debian_fs))
           = Ret (Some d)).
Proof.
  apply (get_default_openssldir_index_error version_only_machine (boot debian_fs)
           "OpenSSL 1.1.1f  31 Mar 2020").
  reflexivity.
Defined.

(** ** The yes/no prompt *)

Lemma valid_yes_no (choice v : string) :
  valid choice = Some v -> v = "yes" \/ v = "no".
Proof.
  unfold valid.
  destruct (String.eqb choice "yes"); [intros H; inversion H; auto|].
  destruct (String.eqb choice "y"); [intros H; inversion H; auto|].
  destruct (String.eqb choice "ye"); [intros H; inversion H; auto|].
  destruct (String.eqb choice "no"); [intros H; inversion H; auto|].
  destruct (String.eqb choice "n"); [intros H; inversion H; auto|].
  discriminate.
Qed.

Lemma ask_loop_step (text : string) (default : option string)
    (answer : string) (rest : list input_item) :
  ask_loop text default (Line answer :: rest)
  = match answer_of default answer with
    | Some v => ([Stdout text; Stdin], rest, Ret v)
    | None =>
        match ask_loop text default rest with
        | (t, rest', r) => (Stdout text :: Stdin :: Stdout reminder :: t, rest', r)
        end
    end.
Proof.
  unfold answer_of. simpl.
  destruct default as [d|]; [destruct (String.eqb (PyStr.lower answer) "")|];
    try reflexivity; destruct (valid (PyStr.lower answer)); reflexivity.
Qed.

Lemma ask_loop_facts (text : string) (default : option string) :
  (forall d, default = Some d -> d = "yes" \/ d = "no") ->
  forall lines t rest r,
    ask_loop text default lines = (t, rest, r) ->
    (exists consumed, lines = consumed ++ rest)
    /\ forallb is_dialogue t = true
    /\ (forall v, r = Ret v -> v = "yes" \/ v = "no")
    /\ (forall e, r = Raise e -> e = EOFError \/ e = KeyboardInterrupt).
Proof.
  intros Hdef. induction lines as [|item lines IH]; intros t rest r.
  - simpl. intros H. inversion H. subst. split; [exists []; reflexivity|].
    split; [reflexivity|]. split; [discriminate|]. intros e He. inversion He. auto.
  - destruct item as [answer|].
    + rewrite ask_loop_step. destruct (answer_of default answer) as [v|] eqn:A.
      * intros H. inversion H. subst. split; [exists [Line answer]; reflexivity|].
        split; [reflexivity|]. split; [|discriminate].
        intros v' Hv. inversion Hv. subst v'. unfold answer_of in A.
        destruct default as [d|];
          [destruct (String.eqb (PyStr.lower answer) "")|];
          try (eapply valid_yes_no; eassumption).
        inversion A. subst. now apply Hdef.
      * destruct (ask_loop text default lines) as [[t' rest'] r'] eqn:L.
        intros H. inversion H. subst.
        destruct (IH _ _ _ eq_refl) as [[consumed Hc] [Hio [Hret Hraise]]].
        split; [exists (Line answer :: consumed); now rewrite Hc|].
        split; [exact Hio|]. split; assumption.
    + simpl. intros H. inversion H. subst. split; [exists [CtrlC]; reflexivity|].
      split; [reflexivity|]. split; [discriminate|]. intros e He. inversion He. auto.
Qed.

(** With a default it accepts, [_askYesNo] is its loop on the waiting
    lines. *)
Lemma askYesNo_run (question : string) (default : option string) (s : state) :
  default = None \/ default = Some "yes" \/ default = Some "no" ->
  _askYesNo question default s
  = match ask_loop (question ++ prompt_of default) default (stdin s) with
    | (t, rest, r) => (t, mkState (fs s) rest (debug s), r)
    end.
Proof. intros [-> | [-> | ->]]; reflexivity. Qed.

(** X6: with the default [None], ["yes"] or ["no"], [_askYesNo] returns
    only ["yes"] or ["no"], raises only at the end of the input or on an
    interrupt, consumes a prefix of the waiting lines, and leaves the
    filesystem alone; with any other default it raises [Error] before it
    prints or reads anything. *)
Theorem askYesNo_answers (question : string) (default : option string) (s : state) :
  (default = None \/ default = Some "yes" \/ default = Some "no" ->
   exists t s' r,
     _askYesNo question default s = (t, s', r)
     /\ fs s' = fs s /\ debug s' = debug s
     /\ (exists consumed, stdin s = consumed ++ stdin s')
     /\ forallb is_dialogue t = true
     /\ (forall v, r = Ret v -> v = "yes" \/ v = "no")
     /\ (forall e, r = Raise e -> e = EOFError \/ e = KeyboardInterrupt))
  /\ (forall d, default = Some d -> d <> "yes" -> d <> "no" ->
      _askYesNo question default s
      = ([], s, Raise (Error ("invalid default answer: '" ++ d ++ "'")%string))).
Proof.
  split.
  - intros Hdef.
    assert (Hd : forall d, default = Some d -> d = "yes" \/ d = "no").
    { intros d ->. destruct Hdef as [H|[H|H]]; inversion H; auto. }
    rewrite (askYesNo_run question default s Hdef).
    destruct (ask_loop (question ++ prompt_of default) default (stdin s))
      as [[t rest] r] eqn:L.
    destruct (ask_loop_facts _ default Hd _ _ _ _ L) as [Hc [Hio [Hret Hraise]]].
    exists t, (mkState (fs s) rest (debug s)), r. simpl. auto 10.
  - intros d -> Hy Hn. unfold _askYesNo.
    apply String.eqb_neq in Hy, Hn. now rewrite Hy, Hn.
Qed.

Lemma askYesNo_answers_sample :
  exists t s' r,
    _askYesNo "Proceed?" (Some "no") (mkState empty_fs [Line "maybe"; Line "Y"] false)
    = (t, s', r)
    /\ fs s' = fs (mkState empty_fs [Line "maybe"; Line "Y"] false)
    /\ debug s' = debug (mkState empty_fs [Line "maybe"; Line "Y"] false)
    /\ (exists consumed,
          stdin (mkState empty_fs [Line "maybe"; Line "Y"] false) = consumed ++ stdin s')
    /\ forallb is_dialogue t = true
    /\ (forall v, r = Ret v -> v = "yes" \/ v = "no")
    /\ (forall e, r = Raise e -> e = EOFError \/ e = KeyboardInterrupt).
Proof.
  apply (proj1 (askYesNo_answers "Proceed?" (Some "no")
                  (mkState empty_fs [Line "maybe"; Line "Y"] false))).
  right. right. reflexivity.
Defined.

Lemma ask_loop_rejected (text : string) (default : option string)
    (bad : list string) (tail : list input_item) :
  (forall b, In b bad -> answer_of default b = None) ->
  ask_loop text default (map Line bad ++ tail)
  = match ask_loop text default tail with
    | (t, rest, r) =>
        (flat_map (fun _ => [Stdout text; Stdin; Stdout reminder]) bad ++ t, rest, r)
    end.
Proof.
  induction bad as [|b bad IH]; intros Hbad.
  - simpl. now destruct (ask_loop text default tail) as [[t rest] r].
  - simpl map. simpl app. rewrite ask_loop_step, (Hbad b (or_introl eq_refl)).
    rewrite IH by (intros b' Hb'; apply Hbad; now right).
    now destruct (ask_loop text default tail) as [[t rest] r].
Qed.

(** X7: [_askYesNo] asks again, with a reminder, after every line that
    is no answer, and the first line that is one decides: its meaning is
    returned and the lines after it are left waiting; when the input ends
    first it raises [EOFError], and on an interrupt
    [KeyboardInterrupt]. *)
Theorem askYesNo_asks_again (question : string) (default : option string)
    (s : state) (bad : list string) :
  default = None \/ default = Some "yes" \/ default = Some "no" ->
  (forall b, In b bad -> answer_of default b = None) ->
  (forall good v rest,
     stdin s = map Line bad ++ Line good :: rest ->
     answer_of default good = Some v ->
     _askYesNo question default s
     = (flat_map (fun _ => [Stdout (question ++ prompt_of default)%string; Stdin;
                            Stdout reminder]) bad
          ++ [Stdout (question ++ prompt_of default)%string; Stdin],
        mkState (fs s) rest (debug s), Ret v))
  /\ (stdin s = map Line bad ->
      _askYesNo question default s
      = (flat_map (fun _ => [Stdout (question ++ prompt_of default)%string; Stdin;
                             Stdout reminder]) bad
           ++ [Stdout (question ++ prompt_of default)%string; Stdin],
         mkState (fs s) [] (debug s), Raise EOFError))
  /\ (forall rest,
      stdin s = map Line bad ++ CtrlC :: rest ->
      _askYesNo question default s
      = (flat_map (fun _ => [Stdout (question ++ prompt_of default)%string; Stdin;
                             Stdout reminder]) bad
           ++ [Stdout (question ++ prompt_of default)%string; Stdin],
         mkState (fs s) rest (debug s), Raise KeyboardInterrupt)).
Proof.
  intros Hdef Hbad.
  rewrite (askYesNo_run question default s Hdef). split; [|split].
  - intros good v rest Hin Hgood.
    rewrite Hin, (ask_loop_rejected _ default bad _ Hbad), ask_loop_step, Hgood.
    reflexivity.
  - intros Hin. rewrite Hin.
    rewrite <- (app_nil_r (map Line bad)), (ask_loop_rejected _ default bad _ Hbad).
    reflexivity.
  - intros rest Hin.
    rewrite Hin, (ask_loop_rejected _ default bad _ Hbad). reflexivity.
Qed.

Lemma askYesNo_asks_again_sample :
  _askYesNo "Proceed?" (Some "no") (mkState empty_fs [Line "maybe"; Line "Y"] false)
  = (flat_map (fun _ => [Stdout ("Proceed?" ++ prompt_of (Some "no"))%string; Stdin;
                         Stdout reminder]) ["maybe"]
       ++ [Stdout ("Proceed?" ++ prompt_of (Some "no"))%string; Stdin],
     mkState (fs (mkState empty_fs [Line "maybe"; Line "Y"] false)) []
       (debug (mkState empty_fs [Line "maybe"; Line "Y"] false)),
     Ret "yes").
Proof.
  refine (proj1 (askYesNo_asks_again "Proceed?" (Some "no")
                   (mkState empty_fs [Line "maybe"; Line "Y"] false) ["maybe"] _ _)
            "Y" "yes" [] _ _).
  - right. right. reflexivity.
  - intros b [<-|[]]. reflexivity.
  - reflexivity.
  - reflexivity.
Defined.

(** ** The search path in the registry *)

Lemma split_parts (sep : ascii) (s : string) :
  forall x, In x (PyStr.split sep s) -> PyStr.contains sep x = false.
Proof.
  induction s as [|a s IH]; simpl.
  - intros x [<-|[]]. reflexivity.
  - destruct (Ascii.eqb a sep) eqn:E.
    + intros x [<-|H]; [reflexivity | now apply IH].
    + destruct (PyStr.split sep s) as [|f fs] eqn:S.
      * intros x [<-|[]]. simpl. now rewrite E.
      * intros x [<-|H].
        -- simpl. rewrite E. apply IH. now left.
        -- apply IH. now right.
Qed.

Lemma split_join (sep : ascii) (l : list string) :
  l <> [] ->
  (forall x, In x l -> PyStr.contains sep x = false) ->
  PyStr.split sep (PyStr.join (String sep "") l) = l.
Proof.
  induction l as [|x l IH]; [congruence|].
  intros _ Hl. destruct l as [|y l].
  - simpl. apply split_nosep. apply Hl. now left.
  - change (PyStr.join (String sep "") (x :: y :: l))
      with (x ++ String sep (PyStr.join (String sep "") (y :: l)))%string.
    rewrite split_app_sep by (apply Hl; now left).
    f_equal. apply IH; [discriminate|]. intros z Hz. apply Hl. now right.
Qed.

Lemma dedupe_from_absorb {A} (eqb : A -> A -> bool) (l u : list A) :
  (forall x y, eqb x y = true <-> x = y) ->
  (forall x, In x l -> In x u) -> dedupe_from eqb u l = u.
Proof.
  intros eqb_spec. induction l as [|x l IH]; intros H; [reflexivity|].
  rewrite dedupe_from_cons.
  assert (py_in eqb x u = true) as ->.
  { apply (py_in_In A eqb eqb_spec). apply H. now left. }
  apply IH. intros y Hy. apply H. now right.
Qed.

(** The list [_winregUpdatePath] joins: the entries that are not empty,
    each once, the new ones first. *)
Lemma updated_paths_facts (new_paths cur_paths : list string) :
  let paths :=
    _list_dedupe String.eqb
      (filter (fun p => negb (String.eqb p "")) (new_paths ++ cur_paths)) in
  NoDup paths
  /\ ~ In "" paths
  /\ (forall p, In p paths <-> p <> "" /\ (In p new_paths \/ In p cur_paths))
  /\ (exists tail,
        paths = _list_dedupe String.eqb
                  (filter (fun p => negb (String.eqb p "")) new_paths) ++ tail).
Proof.
  intros paths.
  assert (Hin : forall p, In p paths <-> p <> "" /\ (In p new_paths \/ In p cur_paths)).
  { intros p. unfold paths.
    change (_list_dedupe String.eqb) with (dedupe_from String.eqb []).
    rewrite (dedupe_from_In string String.eqb String.eqb_eq), filter_In, in_app_iff.
    rewrite negb_true_iff, String.eqb_neq. simpl. tauto. }
  split; [|split; [|split]].
  - apply (dedupe_from_NoDup string String.eqb String.eqb_eq). constructor.
  - intros H. apply Hin in H. tauto.
  - exact Hin.
  - unfold paths. rewrite filter_app.
    change (_list_dedupe String.eqb) with (dedupe_from String.eqb []).
    rewrite (dedupe_from_app string String.eqb).
    apply (dedupe_from_prefix string String.eqb).
Qed.

(** The run of [_winregUpdatePath] when the registry answers or fails
    with a [WindowsError]. *)
Lemma winregUpdatePath_run (env : environment) (new_paths : list string)
    (s : state) (current : string) :
  winreg_query env "Path" = Ret current
  \/ (current = "" /\ exists msg, winreg_query env "Path" = Raise (OSError msg)) ->
  _winregUpdatePath env new_paths s
  = match call env
            (WinregSetEnvKey "Path"
               (PyStr.join ";"
                  (_list_dedupe String.eqb
                     (filter (fun p => negb (String.eqb p ""))
                        (new_paths ++ PyStr.split ";"%char current))))) s with
    | (t, s', r) => (RegRead "Path" :: t, s', r)
    end.
Proof.
  intros H. unfold _winregUpdatePath, _winregGetEnvKey, _winregSetEnvKey, bind,
    try_except, except, ret.
  destruct H as [H|[-> [msg H]]]; rewrite H; simpl;
    destruct (call env _ s) as [[t s'] r]; reflexivity.
Qed.

Lemma call_trace (env : environment) (x : external) (s : state) :
  trace_of (call env x s) = [Call x].
Proof. unfold call, trace_of. now destruct (extern env x (fs s)). Qed.

(** X8: when the registry holds a [Path], or the read fails with a
    [WindowsError] (the value is then taken as empty), [_winregUpdatePath]
    reads once and writes once; the value written is the join with [;] of
    a list without duplicates and without empty entries, which holds
    exactly the non-empty new and old entries and starts with the new
    ones. *)
Theorem winregUpdatePath_value (env : environment) (new_paths : list string)
    (s : state) (current : string) :
  winreg_query env "Path" = Ret current
  \/ (current = "" /\ exists msg, winreg_query env "Path" = Raise (OSError msg)) ->
  exists paths,
    trace_of (_winregUpdatePath env new_paths s)
    = [RegRead "Path"; Call (WinregSetEnvKey "Path" (PyStr.join ";" paths))]
    /\ NoDup paths
    /\ ~ In "" paths
    /\ (forall p, In p paths <->
          p <> "" /\ (In p new_paths \/ In p (PyStr.split ";"%char current)))
    /\ (exists tail,
          paths = _list_dedupe String.eqb
                    (filter (fun p => negb (String.eqb p "")) new_paths) ++ tail).
Proof.
  intros H.
  exists (_list_dedupe String.eqb
            (filter (fun p => negb (String.eqb p ""))
               (new_paths ++ PyStr.split ";"%char current))).
  split; [|apply updated_paths_facts].
  rewrite (winregUpdatePath_run env new_paths s current H).
  pose proof (call_trace env
                (WinregSetEnvKey "Path"
                   (PyStr.join ";"
                      (_list_dedupe String.eqb
                         (filter (fun p => negb (String.eqb p ""))
                            (new_paths ++ PyStr.split ";"%char current))))) s) as T.
  destruct (call env _ s) as [[t s'] r]. unfold trace_of in *. simpl in *.
  now rewrite T.
Qed.

Lemma winregUpdatePath_value_sample :
  exists paths,
    trace_of (_winregUpdatePath
                (windows_machine (Ret "C:\Python38;C:\Windows;;C:\Python38\DLLs"))
                ["C:\Python38"; "C:\Python38\DLLs"; ""] (boot empty_fs))
    = [RegRead "Path"; Call (WinregSetEnvKey "Path" (PyStr.join ";" paths))]
    /\ NoDup paths
    /\ ~ In "" paths
    /\ (forall p, In p paths <->
          p <> ""
          /\ (In p ["C:\Python38"; "C:\Python38\DLLs"; ""]
              \/ In p (PyStr.split ";"%char "C:\Python38;C:\Windows;;C:\Python38\DLLs")))
    /\ (exists tail,
          paths = _list_dedupe String.eqb
                    (filter (fun p => negb (String.eqb p ""))
                       ["C:\Python38"; "C:\Python38\DLLs"; ""]) ++ tail).
Proof.
  apply (winregUpdatePath_value
           (windows_machine (Ret "C:\Python38;C:\Windows;;C:\Python38\DLLs"))
           ["C:\Python38"; "C:\Python38\DLLs"; ""] (boot empty_fs)
           "C:\Python38;C:\Windows;;C:\Python38\DLLs").
  left. reflexivity.
Defined.

(** X9: when no new path holds a [;], running [_winregUpdatePath] again
    with the same new paths on the value it wrote writes that value
    again: the search path does not grow. *)
Theorem winregUpdatePath_twice (env env' : environment) (new_paths : list string)
    (s s' : state) (written : string) :
  (forall p, In p new_paths -> PyStr.contains ";"%char p = false) ->
  In (Call (WinregSetEnvKey "Path" written))
    (trace_of (_winregUpdatePath env new_paths s)) ->
  winreg_query env' "Path" = Ret written ->
  trace_of (_winregUpdatePath env' new_paths s')
  = [RegRead "Path"; Call (WinregSetEnvKey "Path" written)].
Proof.
  intros Hsep Hin Hq.
  set (F := filter (fun p : string => negb (String.eqb p ""))) in *.
  (* what the first run wrote *)
  assert (Hfirst : exists current,
             written = PyStr.join ";"
                         (_list_dedupe String.eqb
                            (F (new_paths ++ PyStr.split ";"%char current)))).
  { unfold _winregUpdatePath, _winregGetEnvKey, _winregSetEnvKey, bind,
      try_except, except, ret in Hin.
    destruct (winreg_query env "Path") as [current|e] eqn:Q; simpl in Hin.
    - exists current. fold F in Hin.
      pose proof (call_trace env
                    (WinregSetEnvKey "Path"
                       (PyStr.join ";"
                          (_list_dedupe String.eqb
                             (F (new_paths ++ PyStr.split ";"%char current))))) s) as T.
      destruct (call env _ s) as [[t s1] r]. unfold trace_of in *. simpl in *.
      rewrite T in Hin. simpl in Hin.
      destruct Hin as [Hin|[Hin|[]]]; [discriminate|]. now inversion Hin.
    - destruct (is_OSError e) eqn:O; simpl in Hin.
      + exists "". fold F in Hin.
        pose proof (call_trace env
                      (WinregSetEnvKey "Path"
                         (PyStr.join ";"
                            (_list_dedupe String.eqb
                               (F (new_paths ++ PyStr.split ";"%char ""))))) s) as T.
        destruct (call env _ s) as [[t s1] r]. unfold trace_of in *. simpl in *.
        rewrite T in Hin. simpl in Hin.
        destruct Hin as [Hin|[Hin|[]]]; [discriminate|]. now inversion Hin.
      + unfold trace_of in Hin. simpl in Hin.
        destruct Hin as [Hin|[]]. discriminate. }
  destruct Hfirst as [current Hw].
  set (L := _list_dedupe String.eqb (F (new_paths ++ PyStr.split ";"%char current))) in *.
  destruct (updated_paths_facts new_paths (PyStr.split ";"%char current))
    as [Hnd [Hempty [Hmem [tail Htail]]]].
  fold F in Hnd, Hempty, Hmem, Htail. fold L in Hnd, Hempty, Hmem, Htail.
  (* the second run joins the same list *)
  assert (Hsame : _list_dedupe String.eqb (F (new_paths ++ PyStr.split ";"%char written))
                  = L).
  { unfold F at 1. rewrite filter_app. fold F.
    change (_list_dedupe String.eqb) with (dedupe_from String.eqb []) in *.
    rewrite (dedupe_from_app string String.eqb).
    set (u := dedupe_from String.eqb [] (F new_paths)) in *.
    destruct L as [|x L'] eqn:EL.
    - (* nothing to write: the value is empty *)
      rewrite Hw. simpl. destruct u; [reflexivity | discriminate].
    - assert (Hsplit : PyStr.split ";"%char written = x :: L').
      { rewrite Hw. apply split_join; [discriminate|].
        intros p Hp. apply Hmem in Hp. destruct Hp as [_ [Hp|Hp]];
          [now apply Hsep | now apply (split_parts ";"%char current)]. }
      rewrite Hsplit.
      assert (HF : F (x :: L') = x :: L').
      { unfold F. apply forallb_filter_id. apply forallb_forall. intros p Hp.
        apply negb_true_iff, String.eqb_neq. intros ->. contradiction. }
      rewrite HF, Htail.
      rewrite (dedupe_from_app string String.eqb).
      rewrite (dedupe_from_absorb String.eqb u u String.eqb_eq) by auto.
      apply (dedupe_from_fixed string String.eqb String.eqb_eq).
      now rewrite <- Htail. }
  rewrite (winregUpdatePath_run env' new_paths s' written (or_introl Hq)).
  fold F. rewrite Hsame, <- Hw.
  pose proof (call_trace env' (WinregSetEnvKey "Path" written) s') as T.
  destruct (call env' _ s') as [[t s1] r]. unfold trace_of in *. simpl in *.
  now rewrite T.
Qed.

Lemma winregUpdatePath_twice_sample :
  trace_of (_winregUpdatePath
              (windows_machine (Ret "C:\Python38;C:\Python38\DLLs;C:\Windows"))
              ["C:\Python38"; "C:\Python38\DLLs"; ""] (boot empty_fs))
  = [RegRead "Path";
     Call (WinregSetEnvKey "Path" "C:\Python38;C:\Python38\DLLs;C:\Windows")].
Proof.
  apply (winregUpdatePath_twice
           (windows_machine (Ret "C:\Python38;C:\Windows;;C:\Python38\DLLs"))
           (windows_machine (Ret "C:\Python38;C:\Python38\DLLs;C:\Windows"))
           ["C:\Python38"; "C:\Python38\DLLs"; ""] (boot empty_fs) (boot empty_fs)).
  - intros p Hp. simpl in Hp. destruct Hp as [<-|[<-|[<-|[]]]]; reflexivity.
  - vm_compute. tauto.
  - reflexivity.
Defined.

(** ** Runs that ask nothing *)

Lemma no_input_ret {A} (a : A) : no_input (ret a).
Proof. intros s. split; reflexivity. Qed.

Lemma no_input_raise {A} (e : exn) : no_input (@raise A e).
Proof. intros s. split; reflexivity. Qed.

Lemma no_input_emit (e : event) : not_stdin e = true -> no_input (emit e).
Proof. intros H s. unfold emit, trace_of, state_of. simpl. rewrite H. auto. Qed.

Lemma no_input_bind {A B} (c : M A) (k : A -> M B) :
  no_input c -> (forall a, no_input (k a)) -> no_input (bind c k).
Proof.
  intros Hc Hk s. unfold bind. specialize (Hc s).
  destruct (c s) as [[t s1] [a|e]]; unfold trace_of, state_of in *; simpl in *.
  - specialize (Hk a s1). destruct (k a s1) as [[t' s2] r].
    unfold trace_of, state_of in *. simpl in *.
    rewrite forallb_app. destruct Hc as [-> <-], Hk as [-> <-]. auto.
  - exact Hc.
Qed.

Lemma no_input_try_except {A} (c : M A) (cl : clauses A) :
  no_input c -> (forall e h, cl e = Some h -> no_input h) ->
  no_input (try_except c cl).
Proof.
  intros Hc Hcl s. unfold try_except. specialize (Hc s).
  destruct (c s) as [[t s1] [a|e]]; unfold trace_of, state_of in *; simpl in *.
  - exact Hc.
  - destruct (cl e) as [h|] eqn:E; [|exact Hc].
    specialize (Hcl e h E s1). destruct (h s1) as [[t' s2] r].
    unfold trace_of, state_of in *. simpl in *.
    rewrite forallb_app. destruct Hc as [-> <-], Hcl as [-> <-]. auto.
Qed.

Lemma no_input_except {A} (c : M A) (p : exn -> bool) (h : exn -> M A) :
  no_input c -> (forall e, no_input (h e)) -> no_input (try_except c (except p h)).
Proof.
  intros Hc Hh. apply no_input_try_except; [exact Hc|].
  intros e h' E. unfold except in E. destruct (p e); inversion E. apply Hh.
Qed.

Lemma no_input_for_each {A B} (l : list A) (body : A -> B -> M B) (acc : B) :
  (forall x b, no_input (body x b)) -> no_input (for_each l body acc).
Proof.
  intros Hb. revert acc. induction l as [|x l IH]; intros acc; simpl.
  - apply no_input_ret.
  - apply no_input_bind; [apply Hb | intros b; apply IH].
Qed.

Lemma no_input_for_do {A} (l : list A) (body : A -> M unit) :
  (forall x, no_input (body x)) -> no_input (for_do l body).
Proof. intros Hb. apply no_input_for_each. intros x _. apply Hb. Qed.

Lemma no_input_call (env : environment) (x : external) : no_input (call env x).
Proof.
  intros s. unfold call. destruct (extern env x (fs s)). split; reflexivity.
Qed.

Lemma no_input_path_exists (p : string) : no_input (path_exists p).
Proof. intros s. split; reflexivity. Qed.

Lemma no_input_path_isdir (p : string) : no_input (path_isdir p).
Proof. intros s. split; reflexivity. Qed.

Lemma no_input_path_isfile (p : string) : no_input (path_isfile p).
Proof. intros s. split; reflexivity. Qed.

Lemma no_input_isEnabledFor_DEBUG : no_input isEnabledFor_DEBUG.
Proof. intros s. split; reflexivity. Qed.

Lemma no_input_setLevel_DEBUG : no_input setLevel_DEBUG.
Proof. intros s. split; reflexivity. Qed.

Lemma no_input_shutil_which (env : environment) (name : string) :
  no_input (shutil_which env name).
Proof. intros s. split; reflexivity. Qed.

Lemma no_input_open_lines (env : environment) (p : string) :
  no_input (open_lines env p).
Proof. intros s. split; reflexivity. Qed.

Lemma no_input_check_output (env : environment) (argv : list string) :
  no_input (subprocess_check_output env argv).
Proof. intros s. split; reflexivity. Qed.

Lemma no_input_print (text : string) : no_input (print text).
Proof. apply no_input_emit. reflexivity. Qed.

Lemma no_input_stdout_write (text : string) : no_input (stdout_write text).
Proof. apply no_input_emit. reflexivity. Qed.

Lemma no_input_print_list (l : list string) : no_input (print_list l).
Proof. apply no_input_emit. reflexivity. Qed.

Ltac quiet :=
  repeat first
    [ apply no_input_ret
    | apply no_input_raise
    | apply no_input_print
    | apply no_input_stdout_write
    | apply no_input_print_list
    | apply no_input_emit; reflexivity
    | apply no_input_call
    | apply no_input_path_exists
    | apply no_input_path_isdir
    | apply no_input_path_isfile
    | apply no_input_isEnabledFor_DEBUG
    | apply no_input_setLevel_DEBUG
    | apply no_input_shutil_which
    | apply no_input_open_lines
    | apply no_input_check_output
    | assumption
    | apply no_input_bind; [|intros ?]
    | apply no_input_except; [|intros ?]
    | apply no_input_for_do; intros ?
    | apply no_input_for_each; intros ? ?
    | match goal with
      | |- no_input (if ?b then _ else _) => destruct b
      | |- no_input (match ?x with _ => _ end) => destruct x
      end ].

Lemma no_input_dict_iadd (k : string) (n : Z) (d : dict) : no_input (dict_iadd k n d).
Proof. unfold dict_iadd. quiet. Qed.

Lemma no_input_validateInstallDir (p : string) : no_input (_validateInstallDir p).
Proof. unfold _validateInstallDir. quiet. Qed.

Lemma no_input_qt_config (env : environment) (p : string) : no_input (_qt_config env p).
Proof. unfold _qt_config, _create_qt_config_file. quiet. Qed.

Lemma no_input_get_default_openssldir (env : environment) :
  no_input (_get_default_openssldir env).
Proof. unfold _get_default_openssldir. quiet. Qed.

Lemma no_input_rank_openssl_dir (env : environment) (d : option string) :
  no_input (_rank_openssl_dir env d).
Proof.
  unfold _rank_openssl_dir, rank_step.
  pose proof no_input_dict_iadd as D.
  quiet; apply D.
Qed.

Lemma no_input_analyze_ranks (r : dict) : no_input (_analyze_ranks r).
Proof. unfold _analyze_ranks. quiet. Qed.

Lemma no_input_get_openssl_text (env : environment) : no_input (_get_openssl_text env).
Proof.
  unfold _get_openssl_text.
  apply no_input_bind; [apply no_input_get_default_openssldir | intros d].
  apply no_input_bind; [apply no_input_rank_openssl_dir | intros r].
  apply no_input_bind; [apply no_input_analyze_ranks | intros [[dir a] b]].
  quiet.
Qed.

Lemma no_input_winregUpdatePath (env : environment) (l : list string) :
  no_input (_winregUpdatePath env l).
Proof.
  unfold _winregUpdatePath, _winregGetEnvKey, _winregSetEnvKey.
  apply no_input_bind; [|intros ?; quiet].
  apply no_input_except; [|intros ?; quiet].
  intros s. split; reflexivity.
Qed.

Lemma no_input_install_posix (env : environment) (d : string) (u r : bool) :
  no_input (install_posix env d u r).
Proof.
  unfold install_posix.
  pose proof (no_input_get_openssl_text env).
  pose proof (no_input_qt_config env d).
  quiet.
Qed.

Lemma no_input_install_windows (env : environment) (d : string) (c p : bool) :
  no_input (install_windows env d c p).
Proof.
  unfold install_windows, ignore_OSError, _registerCOMObject, _setPyRegKeyVal.
  pose proof (no_input_qt_config env d).
  pose proof (fun l => no_input_winregUpdatePath env l).
  quiet.
Qed.

Lemma no_input_install (env : environment) (d : string) (u r c p : bool) :
  no_input (install env d u r c p).
Proof.
  unfold install.
  apply no_input_bind; [quiet | intros _].
  apply no_input_bind; [quiet | intros _].
  apply no_input_bind; [quiet | intros _].
  apply no_input_bind; [apply no_input_validateInstallDir | intros _].
  destruct (platform_win env);
    [apply no_input_install_windows | apply no_input_install_posix].
Qed.

(** ** The command line *)

Lemma read_options_help (opts : list (string * string)) :
  existsb (fun oa => is_help_or_version (fst oa)) opts = true ->
  forall o s,
  exists text s',
    read_options opts o s = ([Stdout text], s', Ret None)
    /\ (text = __doc__ \/ text = ("install " ++ PyStr.join "." _version_ ++ PyStr.nl)%string)
    /\ fs s' = fs s /\ stdin s' = stdin s.
Proof.
  induction opts as [|[opt optarg] opts IH]; [discriminate|].
  intros H o s. simpl in H. simpl read_options.
  unfold is_help_or_version in H.
  destruct (opt_in opt "-h" "--help") eqn:Hh.
  { eexists _, s. split; [reflexivity|]. auto. }
  destruct (opt_in opt "-V" "--version") eqn:HV.
  { eexists _, s. split; [reflexivity|]. auto. }
  simpl in H.
  destruct (opt_in opt "-e" "--use-env-shebang"); [now apply IH|].
  destruct (opt_in opt "-v" "--verbose").
  { destruct (IH H o (mkState (fs s) (stdin s) true)) as [text [s' [E [Ht [Hf Hs]]]]].
    exists text, s'. unfold bind, setLevel_DEBUG. rewrite E. auto. }
  destruct (opt_in opt "-I" "--install-dir"); [now apply IH|].
  destruct (opt_in opt "-c" "--no-com-registration"); [now apply IH|].
  destruct (opt_in opt "-p" "--no-path-additions"); now apply IH.
Qed.

(** X10: when the parsed options hold a help or version option, [main]
    prints the usage or the version, returns [None] (exit status 0) and
    neither installs nor reads the input, whatever the other options
    are. *)
Theorem main_help_or_version (env : environment) (argv : list string) (s : state)
    (opts : list (string * string)) (args : list string) :
  getopt env (tl argv) = Ret (opts, args) ->
  existsb (fun oa => is_help_or_version (fst oa)) opts = true ->
  exists text s',
    main env argv s = ([Stdout text], s', Ret None)
    /\ (text = __doc__ \/ text = ("install 0.1.0" ++ PyStr.nl)%string)
    /\ fs s' = fs s /\ stdin s' = stdin s
    /\ exit_status (value_of (main env argv s)) = 0.
Proof.
  intros Hg Hopt.
  destruct (read_options_help opts Hopt default_options s)
    as [text [s' [E [Ht [Hf Hs]]]]].
  exists text, s'. unfold main. rewrite Hg. unfold bind. rewrite E. simpl.
  auto.
Qed.

Lemma main_help_or_version_sample :
  exists text s',
    main (posix_machine (Raise (OSError "openssl: command not found"))
            [("-I", "/opt/python"); ("--version", "")])
      ["_install.py"; "-I"; "/opt/python"; "--version"] (boot bare_fs)
    = ([Stdout text], s', Ret None)
    /\ (text = __doc__ \/ text = ("install 0.1.0" ++ PyStr.nl)%string)
    /\ fs s' = fs (boot bare_fs) /\ stdin s' = stdin (boot bare_fs)
    /\ exit_status
         (value_of
            (main (posix_machine (Raise (OSError "openssl: command not found"))
                     [("-I", "/opt/python"); ("--version", "")])
               ["_install.py"; "-I"; "/opt/python"; "--version"] (boot bare_fs)))
       = 0.
Proof.
  apply (main_help_or_version
           (posix_machine (Raise (OSError "openssl: command not found"))
              [("-I", "/opt/python"); ("--version", "")])
           ["_install.py"; "-I"; "/opt/python"; "--version"] (boot bare_fs)
           [("-I", "/opt/python"); ("--version", "")] []);
    reflexivity.
Defined.

Lemma read_options_returns (opts : list (string * string)) :
  forall o s, exists t s' parsed, read_options opts o s = (t, s', Ret parsed).
Proof.
  induction opts as [|[opt optarg] opts IH]; intros o s; simpl.
  - eexists _, _, _; reflexivity.
  - destruct (opt_in opt "-h" "--help"); [eexists _, _, _; reflexivity|].
    destruct (opt_in opt "-V" "--version"); [eexists _, _, _; reflexivity|].
    destruct (opt_in opt "-e" "--use-env-shebang"); [apply IH|].
    destruct (opt_in opt "-v" "--verbose").
    { destruct (IH o (mkState (fs s) (stdin s) true)) as [t [s' [p E]]].
      unfold bind, setLevel_DEBUG. rewrite E. eexists _, _, _; reflexivity. }
    destruct (opt_in opt "-I" "--install-dir"); [apply IH|].
    destruct (opt_in opt "-c" "--no-com-registration"); [apply IH|].
    destruct (opt_in opt "-p" "--no-path-additions"); apply IH.
Qed.

(** X11: [main] returns [None] or 1; an exception leaves it only when
    the option parser raised it (other than [GetoptError]) or when it is
    none of [EnvironmentError], [Error] and [KeyboardInterrupt]. *)
Theorem main_returns_none_or_one (env : environment) (argv : list string) (s : state) :
  value_of (main env argv s) = Ret None
  \/ value_of (main env argv s) = Ret (Some 1)
  \/ exists e,
       value_of (main env argv s) = Raise e
       /\ (getopt env (tl argv) = Raise e \/ handled_by_main e = false).
Proof.
  unfold main. destruct (getopt env (tl argv)) as [[opts args]|e] eqn:Hg.
  - destruct (read_options_returns opts default_options s) as [t [s' [parsed E]]].
    unfold bind. rewrite E. destruct parsed as [o|]; [|left; reflexivity].
    unfold run_install, try_except, bind.
    destruct (dispatch env o s') as [[t1 s1] [[]|e]]; [left; reflexivity|].
    unfold or_except, except, handled_by_main.
    destruct (is_OSError e || is_Error e) eqn:C1.
    + right. left. unfold emit, isEnabledFor_DEBUG, print, ret.
      destruct (debug s1); reflexivity.
    + destruct (is_KeyboardInterrupt e) eqn:C2.
      * left. reflexivity.
      * right. right. exists e. split; [reflexivity|]. right. now rewrite C1, C2.
  - destruct e; try (right; right; eexists; split; [reflexivity | now left]).
    right. left. reflexivity.
Qed.

Lemma read_options_no_input (opts : list (string * string)) :
  forall o, no_input (read_options opts o).
Proof.
  induction opts as [|[opt optarg] opts IH]; intros o; simpl.
  - apply no_input_ret.
  - quiet; apply IH.
Qed.

Lemma read_options_install_dir (opts : list (string * string)) :
  forall o s t s' o',
    read_options opts o s = (t, s', Ret (Some o')) ->
    opt_installDir o <> None
    \/ existsb (fun oa => is_install_dir (fst oa)) opts = true ->
    opt_installDir o' <> None.
Proof.
  induction opts as [|[opt optarg] opts IH]; intros o s t s' o'; simpl.
  - intros H [Hd|Hd]; [|discriminate]. inversion H. now subst.
  - unfold is_install_dir.
    destruct (opt_in opt "-h" "--help"); [discriminate|].
    destruct (opt_in opt "-V" "--version"); [discriminate|].
    destruct (opt_in opt "-e" "--use-env-shebang") eqn:He.
    { intros H Hd. apply (IH _ _ _ _ _ H). simpl.
      destruct (opt_in opt "-I" "--install-dir") eqn:HI; [|exact Hd].
      unfold opt_in in He, HI.
      apply orb_true_iff in He, HI.
      destruct He as [He|He], HI as [HI|HI]; apply String.eqb_eq in He, HI;
        subst; discriminate. }
    destruct (opt_in opt "-v" "--verbose") eqn:Hv.
    { unfold bind, setLevel_DEBUG.
      destruct (read_options opts o (mkState (fs s) (stdin s) true))
        as [[t1 s1] r] eqn:E.
      intros H Hd. inversion H. subst. apply (IH _ _ _ _ _ E).
      destruct (opt_in opt "-I" "--install-dir") eqn:HI; [|exact Hd].
      unfold opt_in in Hv, HI.
      apply orb_true_iff in Hv, HI.
      destruct Hv as [Hv|Hv], HI as [HI|HI]; apply String.eqb_eq in Hv, HI;
        subst; discriminate. }
    destruct (opt_in opt "-I" "--install-dir") eqn:HI.
    { intros H _. apply (IH _ _ _ _ _ H). left. discriminate. }
    simpl.
    destruct (opt_in opt "-c" "--no-com-registration");
      [intros H Hd; apply (IH _ _ _ _ _ H); exact Hd|].
    destruct (opt_in opt "-p" "--no-path-additions");
      intros H Hd; apply (IH _ _ _ _ _ H); exact Hd.
Qed.

Lemma no_input_run_install (env : environment) (o : options) :
  opt_installDir o <> None -> no_input (run_install env o).
Proof.
  intros Hd. unfold run_install, dispatch.
  destruct (opt_installDir o) as [dir|]; [|congruence].
  apply no_input_try_except.
  - apply no_input_bind; [apply no_input_install | intros _; apply no_input_ret].
  - intros e h E. unfold or_except, except in E.
    destruct (is_OSError e || is_Error e); [inversion E; quiet|].
    destruct (is_KeyboardInterrupt e); inversion E. quiet.
Qed.

(** X12: when the install directory is given on the command line,
    [main] never reads standard input: no read happens and the waiting
    lines are left as they were. *)
Theorem main_with_install_dir_asks_nothing (env : environment) (argv : list string)
    (s : state) (opts : list (string * string)) (args : list string) :
  getopt env (tl argv) = Ret (opts, args) ->
  existsb (fun oa => is_install_dir (fst oa)) opts = true ->
  forallb not_stdin (trace_of (main env argv s)) = true
  /\ stdin (state_of (main env argv s)) = stdin s.
Proof.
  intros Hg Hd. unfold main. rewrite Hg. unfold bind.
  destruct (read_options_no_input opts default_options s) as [Ht Hs].
  destruct (read_options opts default_options s) as [[t0 s0] [parsed|e]] eqn:E;
    unfold trace_of, state_of in *; simpl in *; [|auto].
  destruct parsed as [o|]; simpl.
  - assert (Ho : opt_installDir o <> None).
    { apply (read_options_install_dir opts _ _ _ _ _ E). now right. }
    destruct (no_input_run_install env o Ho s0) as [Ht' Hs'].
    destruct (run_install env o s0) as [[t1 s1] r]. unfold trace_of, state_of in *.
    simpl in *. rewrite forallb_app, Ht, Ht'. split; [reflexivity | congruence].
  - rewrite app_nil_r. auto.
Qed.

Lemma main_with_install_dir_asks_nothing_sample :
  forallb not_stdin
    (trace_of (main target_machine sample_argv
                 (mkState debian_fs [Line "yes"; CtrlC] false))) = true
  /\ stdin (state_of (main target_machine sample_argv
                        (mkState debian_fs [Line "yes"; CtrlC] false)))
     = stdin (mkState debian_fs [Line "yes"; CtrlC] false).
Proof.
  apply (main_with_install_dir_asks_nothing target_machine sample_argv
           (mkState debian_fs [Line "yes"; CtrlC] false)
           [("-I", "/opt/python")] []); reflexivity.
Defined.

(** ** The options *)

Lemma opt_in_cases (opt a b : string) :
  opt_in opt a b = true -> opt = a \/ opt = b.
Proof.
  unfold opt_in. intros H. apply orb_true_iff in H.
  destruct H as [H|H]; apply String.eqb_eq in H; auto.
Qed.

(** X13: without help or version option, the loop over the options
    prints nothing and ends with: the install directory of the last [-I]
    or [--install-dir] (none when there is none), COM registration and
    path additions on unless [-c] or [-p] (long or short) occurs, the env
    shebang on exactly when [-e] occurs, the debug level set exactly when
    [-v] occurs; options it does not know change nothing. *)
Theorem read_options_meaning (opts : list (string * string)) :
  existsb (fun oa => is_help_or_version (fst oa)) opts = false ->
  forall o s,
  exists s',
    read_options opts o s
    = ([], s',
       Ret (Some (mkOptions
                    (match last_install_dir opts with
                     | Some d => Some d
                     | None => opt_installDir o
                     end)
                    (opt_registerCOM o && negb (has_opt "-c" "--no-com-registration" opts))
                    (opt_pathAdditions o && negb (has_opt "-p" "--no-path-additions" opts))
                    (opt_useEnv o || has_opt "-e" "--use-env-shebang" opts))))
    /\ fs s' = fs s /\ stdin s' = stdin s
    /\ debug s' = (debug s || has_opt "-v" "--verbose" opts).
Proof.
  induction opts as [|[opt optarg] opts IH]; intros Hno o s.
  - exists s. simpl. rewrite andb_true_r, andb_true_r, !orb_false_r.
    destruct o; auto.
  - simpl in Hno. apply orb_false_iff in Hno. destruct Hno as [Hhead Hno].
    unfold is_help_or_version in Hhead. apply orb_false_iff in Hhead.
    destruct Hhead as [Hh HV]. simpl in Hh, HV.
    specialize (IH Hno).
    simpl read_options. rewrite Hh, HV.
    unfold has_opt. simpl existsb. simpl last_install_dir. unfold is_install_dir.
    destruct (opt_in opt "-e" "--use-env-shebang") eqn:He.
    { destruct (IH (mkOptions (opt_installDir o) (opt_registerCOM o)
                      (opt_pathAdditions o) true) s) as [s' [E [Hf [Hs Hd]]]].
      exists s'. rewrite E. cbn [opt_installDir opt_registerCOM opt_pathAdditions opt_useEnv].
      destruct (opt_in_cases _ _ _ He) as [-> | ->]; cbn [opt_in String.eqb Ascii.eqb Bool.eqb orb andb negb];
        fold (has_opt "-c" "--no-com-registration" opts)
             (has_opt "-p" "--no-path-additions" opts)
             (has_opt "-e" "--use-env-shebang" opts)
             (has_opt "-v" "--verbose" opts) in *;
        rewrite ?orb_true_r; destruct (last_install_dir opts); auto. }
    destruct (opt_in opt "-v" "--verbose") eqn:Hv.
    { destruct (IH o (mkState (fs s) (stdin s) true)) as [s' [E [Hf [Hs Hd]]]].
      exists s'. unfold bind, setLevel_DEBUG. rewrite E.
      destruct (opt_in_cases _ _ _ Hv) as [-> | ->]; cbn [opt_in String.eqb Ascii.eqb Bool.eqb orb andb negb];
        fold (has_opt "-c" "--no-com-registration" opts)
             (has_opt "-p" "--no-path-additions" opts)
             (has_opt "-e" "--use-env-shebang" opts)
             (has_opt "-v" "--verbose" opts) in *;
        cbn [fs stdin debug orb] in *; rewrite ?orb_true_r;
        destruct (last_install_dir opts); auto. }
    destruct (opt_in opt "-I" "--install-dir") eqn:HI.
    { destruct (IH (mkOptions (Some optarg) (opt_registerCOM o)
                      (opt_pathAdditions o) (opt_useEnv o)) s) as [s' [E [Hf [Hs Hd]]]].
      exists s'. rewrite E. cbn [opt_installDir opt_registerCOM opt_pathAdditions opt_useEnv].
      destruct (opt_in_cases _ _ _ HI) as [-> | ->]; cbn [opt_in String.eqb Ascii.eqb Bool.eqb orb andb negb];
        fold (has_opt "-c" "--no-com-registration" opts)
             (has_opt "-p" "--no-path-additions" opts)
             (has_opt "-e" "--use-env-shebang" opts)
             (has_opt "-v" "--verbose" opts) in *;
        destruct (last_install_dir opts); auto. }
    destruct (opt_in opt "-c" "--no-com-registration") eqn:Hc.
    { destruct (IH (mkOptions (opt_installDir o) false
                      (opt_pathAdditions o) (opt_useEnv o)) s) as [s' [E [Hf [Hs Hd]]]].
      exists s'. rewrite E. cbn [opt_installDir opt_registerCOM opt_pathAdditions opt_useEnv].
      destruct (opt_in_cases _ _ _ Hc) as [-> | ->]; cbn [opt_in String.eqb Ascii.eqb Bool.eqb orb andb negb];
        fold (has_opt "-c" "--no-com-registration" opts)
             (has_opt "-p" "--no-path-additions" opts)
             (has_opt "-e" "--use-env-shebang" opts)
             (has_opt "-v" "--verbose" opts) in *;
        rewrite ?andb_false_r; destruct (last_install_dir opts); auto. }
    destruct (opt_in opt "-p" "--no-path-additions") eqn:Hp.
    { destruct (IH (mkOptions (opt_installDir o) (opt_registerCOM o)
                      false (opt_useEnv o)) s) as [s' [E [Hf [Hs Hd]]]].
      exists s'. rewrite E. cbn [opt_installDir opt_registerCOM opt_pathAdditions opt_useEnv].
      destruct (opt_in_cases _ _ _ Hp) as [-> | ->]; cbn [opt_in String.eqb Ascii.eqb Bool.eqb orb andb negb];
        fold (has_opt "-c" "--no-com-registration" opts)
             (has_opt "-p" "--no-path-additions" opts)
             (has_opt "-e" "--use-env-shebang" opts)
             (has_opt "-v" "--verbose" opts) in *;
        rewrite ?andb_false_r; destruct (last_install_dir opts); auto. }
    destruct (IH o s) as [s' [E [Hf [Hs Hd]]]].
    exists s'. rewrite E. cbn [orb andb negb].
    fold (has_opt "-c" "--no-com-registration" opts)
         (has_opt "-p" "--no-path-additions" opts)
         (has_opt "-e" "--use-env-shebang" opts)
         (has_opt "-v" "--verbose" opts) in *.
    destruct (last_install_dir opts); auto.
Qed.

Lemma read_options_meaning_sample :
  exists s',
    read_options [("-I", "/opt/a"); ("-v", ""); ("--install-dir", "/opt/b"); ("-n", "")]
      default_options (boot empty_fs)
    = ([], s',
       Ret (Some (mkOptions
                    (match last_install_dir
                             [("-I", "/opt/a"); ("-v", ""); ("--install-dir", "/opt/b");
                              ("-n", "")] with
                     | Some d => Some d
                     | None => opt_installDir default_options
                     end)
                    (opt_registerCOM default_options
                     && negb (has_opt "-c" "--no-com-registration"
                                [("-I", "/opt/a"); ("-v", ""); ("--install-dir", "/opt/b");
                                 ("-n", "")]))
                    (opt_pathAdditions default_options
                     && negb (has_opt "-p" "--no-path-additions"
                                [("-I", "/opt/a"); ("-v", ""); ("--install-dir", "/opt/b");
                                 ("-n", "")]))
                    (opt_useEnv default_options
                     || has_opt "-e" "--use-env-shebang"
                          [("-I", "/opt/a"); ("-v", ""); ("--install-dir", "/opt/b");
                           ("-n", "")]))))
    /\ fs s' = fs (boot empty_fs) /\ stdin s' = stdin (boot empty_fs)
    /\ debug s'
       = (debug (boot empty_fs)
          || has_opt "-v" "--verbose"
               [("-I", "/opt/a"); ("-v", ""); ("--install-dir", "/opt/b"); ("-n", "")]).
Proof.
  apply (read_options_meaning
           [("-I", "/opt/a"); ("-v", ""); ("--install-dir", "/opt/b"); ("-n", "")]).
  reflexivity.
Defined.

(** ** Sequencing *)

Lemma bind_ret_run {A B} (c : M A) (k : A -> M B) (s s1 : state)
    (t : list event) (a : A) :
  c s = (t, s1, Ret a) ->
  bind c k s = match k a s1 with (t', s2, r) => (t ++ t', s2, r) end.
Proof. intros H. unfold bind. now rewrite H. Qed.

Lemma bind_raise_run {A B} (c : M A) (k : A -> M B) (s s1 : state)
    (t : list event) (e : exn) :
  c s = (t, s1, Raise e) -> bind c k s = (t, s1, Raise e).
Proof. intros H. unfold bind. now rewrite H. Qed.

(** ** The Qt configuration *)




(** ** The copy of the tree *)

(** X15: an [OSError] raised by the copy of the tree is printed and
    the installation goes on with the relocation; any other exception of
    the copy leaves [install] at once. *)
Theorem install_posix_copy_error (env : environment) (absInstallDir : string)
    (useEnv setRootRunpath : bool) (s : state) (e : exn) (f' : filesystem) :
  extern env (CopyTree (abspath env "./INSTALLDIR") absInstallDir) (fs s)
  = (Raise e, f') ->
  (is_OSError e = true ->
   exists t s' r,
     install_posix env absInstallDir useEnv setRootRunpath s
     = (Call (CopyTree (abspath env "./INSTALLDIR") absInstallDir)
          :: Stdout (exn_str e ++ PyStr.nl)
          :: Stdout ("Relocating dir-dependent files..." ++ PyStr.nl)
          :: Call (RelocatePython absInstallDir (debug s) useEnv)
          :: t,
        s', r))
  /\ (is_OSError e = false ->
      install_posix env absInstallDir useEnv setRootRunpath s
      = ([Call (CopyTree (abspath env "./INSTALLDIR") absInstallDir)],
         mkState f' (stdin s) (debug s), Raise e)).
Proof.
  intros Hcopy. split; intros Hclass.
  - unfold install_posix.
    assert (C1 : try_except
                   (call env (CopyTree (abspath env "./INSTALLDIR") absInstallDir))
                   (except is_OSError (fun err => print (exn_str err))) s
                 = ([Call (CopyTree (abspath env "./INSTALLDIR") absInstallDir);
                     Stdout (exn_str e ++ PyStr.nl)],
                    mkState f' (stdin s) (debug s), Ret tt)).
    { unfold try_except, call, except. rewrite Hcopy, Hclass. reflexivity. }
    rewrite (bind_ret_run _ _ _ _ _ _ C1).
    rewrite (bind_ret_run _ _ _ _ _ _ (eq_refl : print _ _ = ([_], _, Ret tt))).
    rewrite (bind_ret_run _ _ _ _ _ _
               (eq_refl : isEnabledFor_DEBUG (mkState f' (stdin s) (debug s))
                          = ([], _, Ret (debug s)))).
    cbn [debug].
    match goal with
    | |- context [bind (call env ?x) ?k ?st] =>
        destruct (bind (call env x) k st) as [[t4 s4] r4] eqn:E4;
        assert (T4 : exists t, t4 = Call x :: t)
    end.
    { unfold bind, call in E4. cbn [fs stdin debug] in E4.
      destruct (extern env _ f') as [[[]|e4] f4].
      - match type of E4 with
        | (let (_, _) := ?rest in _) = _ => destruct rest as [[t5 s5] r5]
        end.
        inversion E4. eexists; reflexivity.
      - inversion E4. eexists; reflexivity. }
    destruct T4 as [t ->]. exists t, s4, r4. reflexivity.
  - unfold install_posix.
    apply bind_raise_run. unfold try_except, call, except.
    now rewrite Hcopy, Hclass.
Qed.

Lemma install_posix_copy_error_sample :
  exists t s' r,
    install_posix disk_full_machine "/opt/python" false false (boot empty_fs)
    = (Call (CopyTree (abspath disk_full_machine "./INSTALLDIR") "/opt/python")
         :: Stdout (exn_str (OSError "No space left on device") ++ PyStr.nl)
         :: Stdout ("Relocating dir-dependent files..." ++ PyStr.nl)
         :: Call (RelocatePython "/opt/python" (debug (boot empty_fs)) false)
         :: t,
       s', r).
Proof.
  apply (proj1 (install_posix_copy_error disk_full_machine "/opt/python" false false
                  (boot empty_fs) (OSError "No space left on device") empty_fs
                  eq_refl)).
  reflexivity.
Defined.

(** ** The interactive installation *)

(** X16: when [update_check] is there and ends with status 1,
    [interactiveInstall] prints that the installer is superseded and exits
    with status 0, before any prompt; [main] does not catch that exit. *)
Theorem interactiveInstall_superseded (env : environment)
    (registerCOM pathAdditions : bool) (s : state) (f' : filesystem) :
  fs_exists (fs s) "./INSTALLDIR/bin/update_check" = true ->
  os_system env "./INSTALLDIR/bin/update_check" (fs s) = (1, f') ->
  interactiveInstall env registerCOM pathAdditions s
  = ([Stat "./INSTALLDIR/bin/update_check";
      System "./INSTALLDIR/bin/update_check";
      Stdout ("Installer superceded" ++ PyStr.nl)],
     mkState f' (stdin s) (debug s), Raise (SystemExit 0))
  /\ run_install env (mkOptions None registerCOM pathAdditions false) s
     = ([Stat "./INSTALLDIR/bin/update_check";
         System "./INSTALLDIR/bin/update_check";
         Stdout ("Installer superceded" ++ PyStr.nl)],
        mkState f' (stdin s) (debug s), Raise (SystemExit 0))
  /\ exit_status (@Raise (option Z) (SystemExit 0)) = 0.
Proof.
  intros Hex Hsys.
  assert (E : interactiveInstall env registerCOM pathAdditions s
              = ([Stat "./INSTALLDIR/bin/update_check";
                  System "./INSTALLDIR/bin/update_check";
                  Stdout ("Installer superceded" ++ PyStr.nl)],
                 mkState f' (stdin s) (debug s), Raise (SystemExit 0))).
  { unfold interactiveInstall.
    rewrite (bind_ret_run _ _ s s [Stat "./INSTALLDIR/bin/update_check"] true)
      by (unfold path_exists; now rewrite Hex).
    assert (C : (status <- os_system_ env "./INSTALLDIR/bin/update_check" ;;
                 ret (1 =? status)) s
                = ([System "./INSTALLDIR/bin/update_check"],
                   mkState f' (stdin s) (debug s), Ret true)).
    { unfold bind, os_system_, ret. now rewrite Hsys. }
    rewrite (bind_ret_run _ _ _ _ _ _ C). reflexivity. }
  split; [exact E|]. split; [|reflexivity].
  unfold run_install, try_except, dispatch. cbn [opt_installDir opt_registerCOM opt_pathAdditions].
  rewrite (bind_raise_run _ _ _ _ _ _ E). reflexivity.
Qed.

Lemma interactiveInstall_superseded_sample :
  interactiveInstall superseded_machine true true (boot update_check_fs)
  = ([Stat "./INSTALLDIR/bin/update_check";
      System "./INSTALLDIR/bin/update_check";
      Stdout ("Installer superceded" ++ PyStr.nl)],
     mkState update_check_fs (stdin (boot update_check_fs)) (debug (boot update_check_fs)),
     Raise (SystemExit 0))
  /\ run_install superseded_machine (mkOptions None true true false) (boot update_check_fs)
     = ([Stat "./INSTALLDIR/bin/update_check";
         System "./INSTALLDIR/bin/update_check";
         Stdout ("Installer superceded" ++ PyStr.nl)],
        mkState update_check_fs (stdin (boot update_check_fs))
          (debug (boot update_check_fs)),
        Raise (SystemExit 0))
  /\ exit_status (@Raise (option Z) (SystemExit 0)) = 0.
Proof.
  apply (interactiveInstall_superseded superseded_machine true true
           (boot update_check_fs) update_check_fs); reflexivity.
Defined.






(** ** The order of the installation *)




(** X19: when the copy of the tree succeeds and the relocation
    raises, that exception leaves [install_posix] at once: nothing is
    looked up, configured or reported after it. *)
Theorem install_posix_relocation_error (env : environment) (absInstallDir : string)
    (useEnv setRootRunpath : bool) (s : state) (f1 f2 : filesystem) (e : exn) :
  extern env (CopyTree (abspath env "./INSTALLDIR") absInstallDir) (fs s)
  = (Ret tt, f1) ->
  extern env (RelocatePython absInstallDir (debug s) useEnv) f1 = (Raise e, f2) ->
  install_posix env absInstallDir useEnv setRootRunpath s
  = ([Call (CopyTree (abspath env "./INSTALLDIR") absInstallDir);
      Stdout ("Relocating dir-dependent files..." ++ PyStr.nl);
      Call (RelocatePython absInstallDir (debug s) useEnv)],
     mkState f2 (stdin s) (debug s), Raise e).
Proof.
  intros Hcopy Hreloc. unfold install_posix.
  assert (C1 : try_except
                 (call env (CopyTree (abspath env "./INSTALLDIR") absInstallDir))
                 (except is_OSError (fun err => print (exn_str err))) s
               = ([Call (CopyTree (abspath env "./INSTALLDIR") absInstallDir)],
                  mkState f1 (stdin s) (debug s), Ret tt)).
  { unfold try_except, call. now rewrite Hcopy. }
  rewrite (bind_ret_run _ _ _ _ _ _ C1).
  rewrite (bind_ret_run _ _ _ _ _ _ (eq_refl : print _ _ = ([_], _, Ret tt))).
  rewrite (bind_ret_run _ _ _ _ _ _
             (eq_refl : isEnabledFor_DEBUG (mkState f1 (stdin s) (debug s))
                        = ([], _, Ret (debug s)))).
  cbn [debug].
  assert (C4 : call env (RelocatePython absInstallDir (debug s) useEnv)
                 (mkState f1 (stdin s) (debug s))
               = ([Call (RelocatePython absInstallDir (debug s) useEnv)],
                  mkState f2 (stdin s) (debug s), Raise e)).
  { unfold call. cbn [fs stdin debug]. now rewrite Hreloc. }
  rewrite (bind_raise_run _ _ _ _ _ _ C4). reflexivity.
Qed.

Lemma install_posix_relocation_error_sample :
  install_posix relocation_denied_machine "/opt/python" false false (boot empty_fs)
  = ([Call (CopyTree (abspath relocation_denied_machine "./INSTALLDIR") "/opt/python");
      Stdout ("Relocating dir-dependent files..." ++ PyStr.nl);
      Call (RelocatePython "/opt/python" (debug (boot empty_fs)) false)],
     mkState empty_fs (stdin (boot empty_fs)) (debug (boot empty_fs)),
     Raise (OSError "Permission denied")).
Proof.
  apply (install_posix_relocation_error relocation_denied_machine "/opt/python"
           false false (boot empty_fs) empty_fs empty_fs
           (OSError "Permission denied")); reflexivity.
Defined.

(** X20: on Windows a target that does not exist is created before the
    copy, and a failure to create it ends the installation before the
    copy; a target that exists is copied into without being created. *)
Theorem install_windows_creates_target (env : environment) (absInstallDir : string)
    (registerCOM pathAdditions : bool) (s : state) :
  (fs_exists (fs s) absInstallDir = true ->
   exists t s' r,
     install_windows env absInstallDir registerCOM pathAdditions s
     = (Stat absInstallDir
          :: Call (Sh2Cp (path_join env "INSTALLDIR" "*") absInstallDir) :: t,
        s', r))
  /\ (fs_exists (fs s) absInstallDir = false ->
      forall f1,
      (extern env (Makedirs absInstallDir) (fs s) = (Ret tt, f1) ->
       exists t s' r,
         install_windows env absInstallDir registerCOM pathAdditions s
         = (Stat absInstallDir :: Call (Makedirs absInstallDir)
              :: Call (Sh2Cp (path_join env "INSTALLDIR" "*") absInstallDir) :: t,
            s', r))
      /\ (forall e,
          extern env (Makedirs absInstallDir) (fs s) = (Raise e, f1) ->
          install_windows env absInstallDir registerCOM pathAdditions s
          = ([Stat absInstallDir; Call (Makedirs absInstallDir)],
             mkState f1 (stdin s) (debug s), Raise e))).
Proof.
  assert (Hcp : forall st (k : unit -> M unit),
             exists t s' r,
               bind (call env (Sh2Cp (path_join env "INSTALLDIR" "*") absInstallDir)) k st
               = (Call (Sh2Cp (path_join env "INSTALLDIR" "*") absInstallDir) :: t, s', r)).
  { intros st k. unfold bind, call.
    destruct (extern env _ (fs st)) as [[[]|e] f2].
    - destruct (k tt _) as [[t s'] r]. eexists _, _, _; reflexivity.
    - eexists _, _, _; reflexivity. }
  split.
  - intros Hex. unfold install_windows.
    rewrite (bind_ret_run _ _ s s [Stat absInstallDir] true)
      by (unfold path_exists; now rewrite Hex).
    cbn [negb].
    rewrite (bind_ret_run _ _ s s [] tt) by reflexivity.
    match goal with
    | |- context [bind (call env ?x) ?k s] => destruct (Hcp s k) as [t [s' [r E]]]
    end.
    rewrite E. eexists _, _, _; reflexivity.
  - intros Hex f1. split.
    + intros Hmk. unfold install_windows.
      rewrite (bind_ret_run _ _ s s [Stat absInstallDir] false)
        by (unfold path_exists; now rewrite Hex).
      cbn [negb].
      rewrite (bind_ret_run _ _ s (mkState f1 (stdin s) (debug s))
                 [Call (Makedirs absInstallDir)] tt)
        by (unfold call; now rewrite Hmk).
      match goal with
      | |- context [bind (call env ?x) ?k ?st] => destruct (Hcp st k) as [t [s' [r E]]]
      end.
      rewrite E. eexists _, _, _; reflexivity.
    + intros e Hmk. unfold install_windows.
      rewrite (bind_ret_run _ _ s s [Stat absInstallDir] false)
        by (unfold path_exists; now rewrite Hex).
      cbn [negb].
      rewrite (bind_raise_run _ _ s (mkState f1 (stdin s) (debug s))
                 [Call (Makedirs absInstallDir)] e)
        by (unfold call; now rewrite Hmk).
      reflexivity.
Qed.

Lemma install_windows_creates_target_sample :
  exists t s' r,
    install_windows (windows_machine (Ret "C:\Windows")) "C:\Python38" true true
      (boot empty_fs)
    = (Stat "C:\Python38" :: Call (Makedirs "C:\Python38")
         :: Call (Sh2Cp (path_join (windows_machine (Ret "C:\Windows")) "INSTALLDIR" "*")
                    "C:\Python38") :: t,
       s', r).
Proof.
  apply (proj1 (proj2 (install_windows_creates_target
                         (windows_machine (Ret "C:\Windows")) "C:\Python38" true true
                         (boot empty_fs)) eq_refl empty_fs)).
  reflexivity.
Defined.




